(** * asx_mcp: the request coordinator, the ticker normalizer and the
      report pipeline, embedded in Rocq.

    The development follows the three layers of the package:
    - [Py], [Re], [Url]: the parts of Python's [str], [re] and
      [urllib.parse] that [pipeline.py] calls, on ASCII text;
    - [Pipeline]: [normalize_asx_code], [build_asx_url], [_is_asx_url],
      [_resolve_output_dir], [convert_docx_to_pdf],
      [send_email_with_mail_app] and [run_asx_report] of [pipeline.py];
    - [Server]: the caches, the in-flight map and [create_asx_report] of
      [server.py], as an explicit state machine over the segments of the
      coroutine between two suspension points;
    - [Cli]: [main] of [cli.py], after the arguments are parsed.

    The facts come in the same order; [NormalizerExtras], [ServerExtras]
    and [PipelineExtras] hold further properties of the same functions
    and of [capture_asx_graph], [_run_report] and [_prune_cache].

    Conventions.  A Python [str] is a [string], and the embedding is
    that of the code on ASCII text: every character that the source's
    regular expressions, [upper], [strip] and [isdigit] tell apart is an
    ASCII character, and a character above 127 is taken to be caseless
    and to be no letter, digit, space or word character.  Where that
    matters to a statement, its text is taken under [Py.isascii].
    [None] is [None]; a function that may raise returns a [res]. *)

From Stdlib Require Import Ascii String ZArith QArith Lia Lqa Bool List DecimalString.
From stdpp Require Import gmap strings list fin_maps.

Local Open Scope string_scope.

(* ===================================================================== *)
(** * Python's [str] on ASCII text                                        *)
(* ===================================================================== *)

Module Py.

Definition code (c : ascii) : nat := nat_of_ascii c.

Definition between (lo hi : nat) (c : ascii) : bool :=
  Nat.leb lo (code c) && Nat.leb (code c) hi.

Definition is_upper (c : ascii) : bool := between 65 90 c.
Definition is_lower (c : ascii) : bool := between 97 122 c.
Definition is_digit (c : ascii) : bool := between 48 57 c.
Definition is_alpha (c : ascii) : bool := is_upper c || is_lower c.
Definition is_alnum (c : ascii) : bool := is_alpha c || is_digit c.

(** [str.isspace] on one ASCII character: TAB..CR, FS..US and the space. *)
Definition is_space (c : ascii) : bool :=
  between 9 13 c || between 28 32 c.

(** [\w] of [re] on one ASCII character. *)
Definition is_word (c : ascii) : bool := is_alnum c || Ascii.eqb c "_".

Definition upper_char (c : ascii) : ascii :=
  if is_lower c then ascii_of_nat (code c - 32) else c.
Definition lower_char (c : ascii) : ascii :=
  if is_upper c then ascii_of_nat (code c + 32) else c.

Fixpoint map_str (f : ascii -> ascii) (s : string) : string :=
  match s with
  | EmptyString => EmptyString
  | String c t => String (f c) (map_str f t)
  end.

(** [s.upper()] and [s.lower()] of a text that [isascii]: the letters
    [a-z] and [A-Z] change case and every other ASCII character stays.
    On other text [str.upper] and [str.lower] also map letters outside
    ASCII, some of them to ASCII letters and some to more than one
    character; that is not modelled, and a statement that depends on it
    takes its text under [isascii]. *)
Definition upper (s : string) : string := map_str upper_char s.
Definition lower (s : string) : string := map_str lower_char s.

Fixpoint all_str (p : ascii -> bool) (s : string) : bool :=
  match s with
  | EmptyString => true
  | String c t => p c && all_str p t
  end.

(** [s.isascii()]: every character is below 128. *)
Definition isascii (s : string) : bool := all_str (fun c => Nat.ltb (code c) 128) s.

Fixpoint filter_str (p : ascii -> bool) (s : string) : string :=
  match s with
  | EmptyString => EmptyString
  | String c t => if p c then String c (filter_str p t) else filter_str p t
  end.

(** [s.isdigit()]: at least one character, and digits only. *)
Definition isdigit (s : string) : bool :=
  match s with
  | EmptyString => false
  | _ => all_str is_digit s
  end.

(** Truth value of a string: [bool(s)]. *)
Definition truthy (s : string) : bool :=
  match s with EmptyString => false | _ => true end.

(** [c in chars] for a character. *)
Fixpoint mem_char (c : ascii) (chars : string) : bool :=
  match chars with
  | EmptyString => false
  | String d t => Ascii.eqb c d || mem_char c t
  end.

Fixpoint lstrip_by (p : ascii -> bool) (s : string) : string :=
  match s with
  | String c t => if p c then lstrip_by p t else s
  | EmptyString => EmptyString
  end.

(** [rstrip]: drop the longest run of stripped characters at the end. *)
Fixpoint rstrip_by (p : ascii -> bool) (s : string) : string :=
  match s with
  | EmptyString => EmptyString
  | String c t =>
      match rstrip_by p t with
      | EmptyString => if p c then EmptyString else String c EmptyString
      | r => String c r
      end
  end.

Definition strip_by (p : ascii -> bool) (s : string) : string :=
  rstrip_by p (lstrip_by p s).

(** [s.strip()], [s.strip(chars)], [s.rstrip(chars)], [s.lstrip(chars)]. *)
Definition strip (s : string) : string := strip_by is_space s.
Definition strip_chars (chars s : string) : string :=
  strip_by (fun c => mem_char c chars) s.
Definition rstrip_chars (chars s : string) : string :=
  rstrip_by (fun c => mem_char c chars) s.
Definition lstrip_chars (chars s : string) : string :=
  lstrip_by (fun c => mem_char c chars) s.

Fixpoint startswith (p s : string) : bool :=
  match p, s with
  | EmptyString, _ => true
  | String a p', String b s' => Ascii.eqb a b && startswith p' s'
  | String _ _, EmptyString => false
  end.

Fixpoint drop (n : nat) (s : string) : string :=
  match n, s with
  | O, _ => s
  | S k, String _ t => drop k t
  | S _, EmptyString => EmptyString
  end.

Fixpoint take (n : nat) (s : string) : string :=
  match n, s with
  | O, _ => EmptyString
  | S k, String c t => String c (take k t)
  | S _, EmptyString => EmptyString
  end.

Definition endswith (p s : string) : bool :=
  Nat.leb (String.length p) (String.length s)
  && String.eqb (drop (String.length s - String.length p) s) p.

(** [sub in s]. *)
Fixpoint contains (sub s : string) : bool :=
  startswith sub s
  || match s with
     | EmptyString => false
     | String _ t => contains sub t
     end.

(** [s.replace(old, new)] for a non-empty [old]: occurrences are replaced
    from the left and do not overlap; [skip] counts the characters of the
    occurrence being replaced that are still to be passed over. *)
Fixpoint replace_from (old new s : string) (skip : nat) : string :=
  match s with
  | EmptyString => EmptyString
  | String c t =>
      match skip with
      | S k => replace_from old new t k
      | O =>
          if startswith old s
          then new ++ replace_from old new t (String.length old - 1)
          else String c (replace_from old new t 0)
      end
  end.

Definition replace (old new s : string) : string := replace_from old new s 0.

(** [s.partition(c)] for a one-character separator: the text before the
    first [c], whether [c] was found, and the text after it. *)
Fixpoint partition (sep : ascii) (s : string) : string * bool * string :=
  match s with
  | EmptyString => (EmptyString, false, EmptyString)
  | String c t =>
      if Ascii.eqb c sep then (EmptyString, true, t)
      else let '(a, found, b) := partition sep t in (String c a, found, b)
  end.

(** [s.rpartition(c)]: as [partition], at the last [c]; when [c] does not
    occur the whole text is the third component. *)
Fixpoint rpartition (sep : ascii) (s : string) : string * bool * string :=
  match s with
  | EmptyString => (EmptyString, false, EmptyString)
  | String c t =>
      let '(a, found, b) := rpartition sep t in
      if found then (String c a, true, b)
      else if Ascii.eqb c sep then (EmptyString, true, t)
      else (EmptyString, false, String c b)
  end.

(** [s.split(c)] for a one-character separator. *)
Fixpoint split (sep : ascii) (s : string) : list string :=
  match s with
  | EmptyString => [EmptyString]
  | String c t =>
      if Ascii.eqb c sep then EmptyString :: split sep t
      else match split sep t with
           | w :: ws => String c w :: ws
           | [] => [String c EmptyString]
           end
  end.

(** [sep.join(parts)]. *)
Fixpoint join (sep : string) (parts : list string) : string :=
  match parts with
  | [] => EmptyString
  | [p] => p
  | p :: ps => p ++ sep ++ join sep ps
  end.

(** [x in xs] for strings. *)
Definition mem (x : string) (xs : list string) : bool :=
  existsb (String.eqb x) xs.

(** [int(s)] for a string, base 10: blanks around, a sign, digits that
    single underscores may separate; at most 4300 digits, the
    interpreter's default limit.  [None] stands for [ValueError]. *)
Definition is_int_space (c : ascii) : bool := between 9 13 c || Ascii.eqb c " ".

Fixpoint digits_value (acc : Z) (after_digit : bool) (count : nat) (s : string)
  : option (Z * nat) :=
  match s with
  | EmptyString => if after_digit then Some (acc, count) else None
  | String c t =>
      if is_digit c
      then digits_value (10 * acc + Z.of_nat (code c - 48)) true (S count) t
      else if Ascii.eqb c "_" && after_digit
           then digits_value acc false count t
           else None
  end.

Definition int (s : string) : option Z :=
  let s := strip_by is_int_space s in
  let '(negative, body) :=
    match s with
    | String c t =>
        if Ascii.eqb c "-" then (true, t)
        else if Ascii.eqb c "+" then (false, t)
        else (false, s)
    | EmptyString => (false, s)
    end in
  match digits_value 0 false 0 body with
  | Some (v, count) =>
      if Nat.leb count 4300 then Some (if negative then (- v)%Z else v) else None
  | None => None
  end.

(** [str(n)] for an integer. *)
Definition str_int (n : Z) : string := NilZero.string_of_int (Z.to_int n).

End Py.
(* ===================================================================== *)
(** * The fragment of Python's [re] used by [normalize_asx_code]          *)
(* ===================================================================== *)

(** A backtracking matcher.  [step r p] lists, in the order in which
    Python's engine tries them, the positions at which a match of [r]
    started at [p] can end; the first element is the match the engine
    reports.  Quantifiers are greedy and apply to character classes,
    which is all the source's patterns need; each pattern has at most
    one capturing group. *)

Module Re.

Inductive re : Type :=
| Eps                                                  (* empty pattern *)
| Chr (p : ascii -> bool)                              (* [...] or a literal *)
| Seq (a b : re)                                       (* ab *)
| Alt (a b : re)                                       (* a|b *)
| Rep (lo : nat) (hi : option nat) (p : ascii -> bool) (* [...]{lo,hi} *)
| Grp (a : re)                                         (* (a) *)
| Bnd.                                                 (* \b *)

(** A position in the subject: the character before it, the text after
    it, and the text captured by group 1 so far. *)
Record pos : Type := Pos {
  prev : option ascii;
  rest : string;
  grp : option string
}.

Definition word_at (c : option ascii) : bool :=
  match c with Some a => Py.is_word a | None => false end.

Definition next_char (s : string) : option ascii :=
  match s with String c _ => Some c | EmptyString => None end.

(** The text between a position with [s] ahead and a later one with [s']
    ahead. *)
Definition consumed (s s' : string) : string :=
  Py.take (String.length s - String.length s') s.

Definition stop_here (lo : nat) (pv : option ascii) (s : string)
  : list (option ascii * string) :=
  match lo with O => [(pv, s)] | S _ => [] end.

Definition hi_pred (hi : option nat) : option nat :=
  match hi with Some n => Some (Nat.pred n) | None => None end.

Definition hi_zero (hi : option nat) : bool :=
  match hi with Some O => true | _ => false end.

(** The bound [hi] of a repetition allows [n] characters. *)
Definition within (hi : option nat) (n : nat) : Prop :=
  match hi with Some h => n <= h | None => True end.

(** Greedy repetition of a class: one more character first, then stop. *)
Fixpoint rep_ends (p : ascii -> bool) (lo : nat) (hi : option nat)
    (pv : option ascii) (s : string) : list (option ascii * string) :=
  if hi_zero hi then stop_here lo pv s
  else match s with
       | String c t =>
           if p c
           then rep_ends p (Nat.pred lo) (hi_pred hi) (Some c) t ++ stop_here lo pv s
           else stop_here lo pv s
       | EmptyString => stop_here lo pv s
       end.

Fixpoint step (r : re) (p : pos) : list pos :=
  match r with
  | Eps => [p]
  | Chr c =>
      match rest p with
      | String a t => if c a then [Pos (Some a) t (grp p)] else []
      | EmptyString => []
      end
  | Seq a b => flat_map (step b) (step a p)
  | Alt a b => step a p ++ step b p
  | Rep lo hi c =>
      List.map (fun e => Pos (fst e) (snd e) (grp p)) (rep_ends c lo hi (prev p) (rest p))
  | Grp a =>
      List.map (fun q => Pos (prev q) (rest q) (Some (consumed (rest p) (rest q))))
               (step a p)
  | Bnd =>
      if xorb (word_at (prev p)) (word_at (next_char (rest p))) then [p] else []
  end.

(** A match object: [group(0)] and [group(1)]. *)
Record match_ : Type := Match { group0 : string; group1 : option string }.

Definition match_at (r : re) (pv : option ascii) (s : string) : option pos :=
  head (step r (Pos pv s None)).

(** [re.fullmatch(r, s)]: the first way to match that ends at the end. *)
Definition fullmatch (r : re) (s : string) : option match_ :=
  match List.find (fun q => negb (Py.truthy (rest q))) (step r (Pos None s None)) with
  | Some q => Some (Match s (grp q))
  | None => None
  end.

(** [re.search(r, s)]: the leftmost start at which [r] matches. *)
Fixpoint search_from (r : re) (pv : option ascii) (s : string) : option match_ :=
  match match_at r pv s with
  | Some q => Some (Match (consumed s (rest q)) (grp q))
  | None =>
      match s with
      | String c t => search_from r (Some c) t
      | EmptyString => None
      end
  end.

Definition search (r : re) (s : string) : option match_ := search_from r None s.

(** [re.sub(r, repl, s)] and [re.findall(r, s)] scan from the left, and
    after a match go on where it ended; [skip] counts the characters of
    the current match still to be passed over.  None of the source's
    patterns matches the empty string; a match of length 0 is passed
    over like a failure to match. *)
Fixpoint sub_from (r : re) (repl : string) (pv : option ascii) (s : string)
    (skip : nat) : string :=
  match s with
  | EmptyString => EmptyString
  | String c t =>
      match skip with
      | S k => sub_from r repl (Some c) t k
      | O =>
          match match_at r pv s with
          | Some q =>
              match String.length s - String.length (rest q) with
              | S k => repl ++ sub_from r repl (Some c) t k
              | O => String c (sub_from r repl (Some c) t 0)
              end
          | None => String c (sub_from r repl (Some c) t 0)
          end
      end
  end.

Definition sub (r : re) (repl s : string) : string := sub_from r repl None s 0.

Fixpoint findall_from (r : re) (pv : option ascii) (s : string) (skip : nat)
  : list string :=
  match s with
  | EmptyString => []
  | String c t =>
      match skip with
      | S k => findall_from r (Some c) t k
      | O =>
          match match_at r pv s with
          | Some q =>
              match String.length s - String.length (rest q) with
              | S k => consumed s (rest q) :: findall_from r (Some c) t k
              | O => findall_from r (Some c) t 0
              end
          | None => findall_from r (Some c) t 0
          end
      end
  end.

Definition findall (r : re) (s : string) : list string := findall_from r None s 0.

(** ** Pattern syntax *)

Definition chr (a : ascii) : re := Chr (Ascii.eqb a).

(** The same letter in either case, for [re.IGNORECASE]. *)
Definition chr_i (a : ascii) : re :=
  Chr (fun c => Ascii.eqb (Py.lower_char c) (Py.lower_char a)).

Fixpoint lit (s : string) : re :=
  match s with
  | EmptyString => Eps
  | String c EmptyString => chr c
  | String c t => Seq (chr c) (lit t)
  end.

Fixpoint lit_i (s : string) : re :=
  match s with
  | EmptyString => Eps
  | String c EmptyString => chr_i c
  | String c t => Seq (chr_i c) (lit_i t)
  end.

Fixpoint seq (rs : list re) : re :=
  match rs with
  | [] => Eps
  | [r] => r
  | r :: rs' => Seq r (seq rs')
  end.

Definition opt (p : ascii -> bool) : re := Rep 0 (Some 1) p.
Definition star (p : ascii -> bool) : re := Rep 0 None p.
Definition plus (p : ascii -> bool) : re := Rep 1 None p.

(** [[A-Z0-9]], [\S], and the other classes of the source. *)
Definition upper_alnum (c : ascii) : bool := Py.is_upper c || Py.is_digit c.
Definition non_space (c : ascii) : bool := negb (Py.is_space c).
Definition one_of (chars : string) (c : ascii) : bool := Py.mem_char c chars.

(** The first character of a text is there and satisfies [P]. *)
Definition first_is (P : ascii -> bool) (s : string) : bool :=
  match s with String c _ => P c | EmptyString => false end.

End Re.

(* ===================================================================== *)
(** * The fragment of [urllib.parse] used by [pipeline.py]                *)
(* ===================================================================== *)

(** [urlparse], the [hostname] attribute and [parse_qs] as in CPython
    3.11's [urllib/parse.py] (with its check of bracketed hosts, which
    calls [ipaddress.ip_address]).  [None] stands for [ValueError].  A
    percent escape decodes to the character with that code; escapes above
    127, which Python decodes as UTF-8, stay single characters here. *)

Module Url.

Definition is_hex (c : ascii) : bool :=
  Py.is_digit c || Py.between 65 70 c || Py.between 97 102 c.

Definition hex_value (c : ascii) : nat :=
  if Py.is_digit c then Py.code c - 48
  else if Py.between 65 70 c then Py.code c - 55
  else Py.code c - 87.

(** ** [ipaddress]: which strings are addresses *)

Fixpoint decimal_value (acc : nat) (s : string) : nat :=
  match s with
  | EmptyString => acc
  | String c t => decimal_value (10 * acc + (Py.code c - 48)) t
  end.

(** [IPv4Address._parse_octet] succeeds. *)
Definition valid_octet (s : string) : bool :=
  if Py.truthy s && Py.all_str Py.is_digit s && Nat.leb (String.length s) 3
     && negb (negb (String.eqb s "0") && Py.startswith "0" s)
  then Nat.leb (decimal_value 0 s) 255
  else false.

(** [IPv4Address(s)] succeeds. *)
Definition valid_ipv4 (s : string) : bool :=
  negb (Py.contains "/" s)
  && Py.truthy s
  && (let octets := Py.split "." s in
      Nat.eqb (List.length octets) 4 && forallb valid_octet octets).

(** [IPv6Address._parse_hextet] succeeds. *)
Definition valid_hextet (s : string) : bool :=
  Py.truthy s && Py.all_str is_hex s && Nat.leb (String.length s) 4.

(** The indices [i] with [lo <= i < lo + length parts] of empty parts. *)
Fixpoint empty_indices (lo : nat) (parts : list string) : list nat :=
  match parts with
  | [] => []
  | p :: ps =>
      if Py.truthy p then empty_indices (S lo) ps
      else lo :: empty_indices (S lo) ps
  end.

(** [IPv6Address._ip_int_from_string(s)] succeeds. *)
Definition valid_ipv6_groups (s : string) : bool :=
  Py.truthy s
  && (let parts := Py.split ":" s in
      Nat.leb 3 (List.length parts)
      && (let last_part := List.last parts EmptyString in
          let converted :=
            if Py.contains "." last_part
            then if valid_ipv4 last_part
                 then Some (List.app (List.removelast parts) ["0"; "0"])
                 else None
            else Some parts in
          match converted with
          | None => false
          | Some parts =>
              let n := List.length parts in
              Nat.leb n 9
              && match empty_indices 1 (List.firstn (n - 2) (List.tl parts)) with
                 | [] => Nat.eqb n 8 && forallb valid_hextet parts
                 | [skip_index] =>
                     let first_empty := negb (Py.truthy (List.hd EmptyString parts)) in
                     let last_empty := negb (Py.truthy (List.last parts EmptyString)) in
                     let parts_hi := if first_empty then skip_index - 1 else skip_index in
                     let parts_lo :=
                       if last_empty then n - skip_index - 1 - 1 else n - skip_index - 1 in
                     negb (first_empty && negb (Nat.eqb parts_hi 0))
                     && negb (last_empty && negb (Nat.eqb parts_lo 0))
                     && Nat.leb (parts_hi + parts_lo + 1) 8
                     && forallb valid_hextet (List.firstn parts_hi parts)
                     && forallb valid_hextet (List.skipn (n - parts_lo) parts)
                 | _ => false
                 end
          end)).

(** [IPv6Address(s)] succeeds. *)
Definition valid_ipv6 (s : string) : bool :=
  negb (Py.contains "/" s)
  && (let '(addr, sep, scope_id) := Py.partition "%" s in
      negb (sep && (negb (Py.truthy scope_id) || Py.contains "%" scope_id))
      && valid_ipv6_groups addr).

(** [\Av[a-fA-F0-9]+\..+\Z] *)
Definition re_ipvfuture : Re.re :=
  Re.seq [Re.chr "v"; Re.plus is_hex; Re.chr ".";
          Re.plus (fun c => negb (Ascii.eqb c "010"))].

(** [_check_bracketed_host(hostname)] returns without raising. *)
Definition _check_bracketed_host (hostname : string) : bool :=
  if Py.startswith "v" hostname
  then match Re.fullmatch re_ipvfuture hostname with Some _ => true | None => false end
  else if valid_ipv4 hostname then false
  else valid_ipv6 hostname.

(** [_check_bracketed_netloc(netloc)] returns without raising. *)
Definition _check_bracketed_netloc (netloc : string) : bool :=
  let '(_, _, hostname_and_port) := Py.rpartition "@" netloc in
  let '(before_bracket, have_open_br, bracketed) := Py.partition "[" hostname_and_port in
  if have_open_br then
    if Py.truthy before_bracket then false
    else
      let '(hostname, _, port) := Py.partition "]" bracketed in
      if Py.truthy port && negb (Py.startswith ":" port) then false
      else _check_bracketed_host hostname
  else
    let '(hostname, _, _) := Py.partition ":" hostname_and_port in
    _check_bracketed_host hostname.

(** ** [urlsplit] and [urlparse] *)

Record ParseResult : Type := {
  scheme : string;
  netloc : string;
  path : string;
  params : string;
  query : string;
  fragment : string
}.

Definition scheme_char (c : ascii) : bool :=
  Py.is_alnum c || Py.mem_char c "+-.".

Definition uses_params : list string :=
  [""; "ftp"; "hdl"; "prospero"; "http"; "imap"; "https"; "shttp"; "rtsp";
   "rtspu"; "sip"; "sips"; "mms"; "sftp"; "tel"].

(** [_splitnetloc(url, 2)] on a [url] that starts with two slashes: the
    text up to the first of [/], [?], [#], and the rest. *)
Fixpoint until_delim (s : string) : string * string :=
  match s with
  | EmptyString => (EmptyString, EmptyString)
  | String c t =>
      if Py.mem_char c "/?#" then (EmptyString, s)
      else let '(a, b) := until_delim t in (String c a, b)
  end.

(** The scheme of [url] and what follows its colon, when [url] starts
    with a letter and has only scheme characters before its first colon. *)
Definition split_scheme (url : string) : string * string :=
  let '(before, found, after) := Py.partition ":" url in
  if found && Py.truthy before
     && match before with String c _ => Py.is_alpha c | EmptyString => false end
     && Py.all_str scheme_char before
  then (Py.lower before, after)
  else (EmptyString, url).

(** [_splitparams(url)] when [url] contains a semicolon. *)
Definition _splitparams (url : string) : string * string :=
  if Py.contains "/" url then
    let '(dirs, _, leaf) := Py.rpartition "/" url in
    let '(before, found, after) := Py.partition ";" leaf in
    if found then (dirs ++ "/" ++ before, after) else (url, EmptyString)
  else
    let '(before, _, after) := Py.partition ";" url in (before, after).

Definition urlparse (url : string) : option ParseResult :=
  let url := Py.lstrip_by (fun c => Nat.leb (Py.code c) 32) url in
  let url := Py.filter_str (fun c => negb (Py.mem_char c (String "009" (String "013" (String "010" ""))))) url in
  let '(scheme, url) := split_scheme url in
  let split_netloc :=
    if Py.startswith "//" url then
      let '(netloc, url) := until_delim (Py.drop 2 url) in
      let open_br := Py.contains "[" netloc in
      let close_br := Py.contains "]" netloc in
      if (open_br && negb close_br) || (close_br && negb open_br) then None
      else if open_br && close_br then
        if _check_bracketed_netloc netloc then Some (netloc, url) else None
      else Some (netloc, url)
    else Some (EmptyString, url) in
  match split_netloc with
  | None => None
  | Some (netloc, url) =>
      let '(url, _, fragment) := Py.partition "#" url in
      let '(url, _, query) := Py.partition "?" url in
      let '(url, params) :=
        if Py.mem scheme uses_params && Py.contains ";" url
        then _splitparams url else (url, EmptyString) in
      Some {| scheme := scheme; netloc := netloc; path := url;
              params := params; query := query; fragment := fragment |}
  end.

(** The [hostname] attribute; [None] when the host part is empty. *)
Definition hostname (r : ParseResult) : option string :=
  let '(_, _, hostinfo) := Py.rpartition "@" (netloc r) in
  let '(_, have_open_br, bracketed) := Py.partition "[" hostinfo in
  let host :=
    if have_open_br then let '(h, _, _) := Py.partition "]" bracketed in h
    else let '(h, _, _) := Py.partition ":" hostinfo in h in
  if Py.truthy host then
    let '(h, percent, zone) := Py.partition "%" host in
    Some (Py.lower h ++ (if percent then "%" else "") ++ zone)
  else None.

(** ** [unquote] and [parse_qs] *)

Fixpoint unquote (s : string) : string :=
  match s with
  | EmptyString => EmptyString
  | String c s1 =>
      if Ascii.eqb c "%" then
        match s1 with
        | String a (String b t) =>
            if is_hex a && is_hex b
            then String (ascii_of_nat (16 * hex_value a + hex_value b)) (unquote t)
            else String c (unquote s1)
        | _ => String c (unquote s1)
        end
      else String c (unquote s1)
  end.

(** [parse_qsl(qs)] with the default arguments: fields are separated by
    [&], a field without [=] or with an empty value is dropped. *)
Definition parse_qsl (qs : string) : list (string * string) :=
  if Py.truthy qs then
    flat_map
      (fun name_value =>
         let '(name, found, value) := Py.partition "=" name_value in
         if found && Py.truthy value
         then [(unquote (Py.replace "+" " " name), unquote (Py.replace "+" " " value))]
         else [])
      (Py.split "&" qs)
  else [].

(** [parse_qs(qs).get(key)]: the values of [key], in order; the empty
    list stands for an absent key. *)
Definition parse_qs_get (key : string) (qs : string) : list string :=
  List.map snd (List.filter (fun nv => String.eqb (fst nv) key) (parse_qsl qs)).

End Url.

(* ===================================================================== *)
(** * [pipeline.py]: the identity normalizer and the source URL           *)
(* ===================================================================== *)

Module Pipeline.

Definition YAHOO_HOST_SUFFIXES : list string :=
  ["au.finance.yahoo.com"; "finance.yahoo.com"].

Definition OUTPUT_DIR_PLACEHOLDERS : list string :=
  ["/path/to/local/directory"; "path/to/local/directory"].

Definition ASX_CODE_STOPWORDS : list string :=
  ["A"; "AN"; "AND"; "ASX"; "AX"; "ATTACH"; "ATTACHED"; "BODY"; "CHART";
   "CHECK"; "CODE"; "COMPANY"; "CREATE"; "DAILY"; "EMAIL"; "FOR"; "FINANCE";
   "GENERATE"; "GRAPH"; "IS"; "MAIL"; "OF"; "PLEASE"; "QUOTE"; "REPORT";
   "SEND"; "STOCK"; "SUBJECT"; "THE"; "THIS"; "TO"; "TODAY"; "TODAYS";
   "WITH"; "YOUR"; "YAHOO"].

(** ** The patterns of [normalize_asx_code] *)

(** [([A-Z0-9]{1,6})\.AX] *)
Definition re_dot_ax : Re.re :=
  Re.Seq (Re.Grp (Re.Rep 1 (Some 6) Re.upper_alnum)) (Re.lit ".AX").

(** [[A-Z0-9]{2,6}] *)
Definition re_clean : Re.re := Re.Rep 2 (Some 6) Re.upper_alnum.

(** [https?://\S+] with [re.IGNORECASE], and without. *)
Definition re_url_ignorecase : Re.re :=
  Re.seq [Re.lit_i "http"; Re.Rep 0 (Some 1) (fun c => Ascii.eqb (Py.lower_char c) "s");
          Re.lit "://"; Re.plus Re.non_space].
Definition re_url : Re.re :=
  Re.seq [Re.lit "http"; Re.opt (Ascii.eqb "s"); Re.lit "://"; Re.plus Re.non_space].

(** [[^A-Z0-9.]] and [[^A-Z0-9]] *)
Definition code_or_dot (c : ascii) : bool := Re.upper_alnum c || Ascii.eqb c ".".
Definition re_not_code_or_dot : Re.re := Re.Chr (fun c => negb (code_or_dot c)).
Definition re_not_code : Re.re := Re.Chr (fun c => negb (Re.upper_alnum c)).

(** [[A-Z0-9._%+-]+@[A-Z0-9.-]+\.[A-Z]{2,}] *)
Definition re_email : Re.re :=
  Re.seq [Re.plus (fun c => Re.upper_alnum c || Re.one_of "._%+-" c);
          Re.chr "@";
          Re.plus (fun c => Re.upper_alnum c || Re.one_of ".-" c);
          Re.chr ".";
          Re.Rep 2 None Py.is_upper].

(** [([A-Z0-9]{2,6})\b], the tail of the four marker patterns. *)
Definition re_code_group : Re.re :=
  Re.Seq (Re.Grp (Re.Rep 2 (Some 6) Re.upper_alnum)) Re.Bnd.

(** [\bASX\s*[:\-]\s*([A-Z0-9]{2,6})\b] *)
Definition re_asx_colon : Re.re :=
  Re.seq [Re.Bnd; Re.lit "ASX"; Re.star Py.is_space; Re.Chr (Re.one_of ":-");
          Re.star Py.is_space; re_code_group].

(** [\bASX\s+([A-Z0-9]{2,6})\b] *)
Definition re_asx_space : Re.re :=
  Re.seq [Re.Bnd; Re.lit "ASX"; Re.plus Py.is_space; re_code_group].

(** [\bFOR\s+([A-Z0-9]{2,6})\b] *)
Definition re_for : Re.re :=
  Re.seq [Re.Bnd; Re.lit "FOR"; Re.plus Py.is_space; re_code_group].

(** [\b(?:CODE|TICKER|COMPANY)\s*[:\-]?\s*([A-Z0-9]{2,6})\b] *)
Definition re_label : Re.re :=
  Re.seq [Re.Bnd;
          Re.Alt (Re.lit "CODE") (Re.Alt (Re.lit "TICKER") (Re.lit "COMPANY"));
          Re.star Py.is_space; Re.opt (Re.one_of ":-"); Re.star Py.is_space;
          re_code_group].

(** [\b[A-Z][A-Z0-9]{1,5}\b] *)
Definition re_token : Re.re :=
  Re.seq [Re.Bnd; Re.Chr Py.is_upper; Re.Rep 1 (Some 5) Re.upper_alnum; Re.Bnd].

(** ** [normalize_asx_code] *)

(** The first element on which a loop body returns. *)
Fixpoint first_return {A B : Type} (body : A -> option B) (xs : list A) : option B :=
  match xs with
  | [] => None
  | x :: xs' =>
      match body x with
      | Some b => Some b
      | None => first_return body xs'
      end
  end.

(** [lo <= len(code) <= 6 and not code.isdigit() and code not in
    ASX_CODE_STOPWORDS] *)
Definition acceptable (lo : nat) (code : string) : bool :=
  Nat.leb lo (String.length code) && Nat.leb (String.length code) 6
  && negb (Py.isdigit code)
  && negb (Py.mem code ASX_CODE_STOPWORDS).

(** The body shared by the loop over the path segments and the loop over
    the query parameters: an upper-cased text that, cleaned, ends in
    [.AX]. *)
Definition code_before_ax (upper_text : string) : option string :=
  let cleaned := Re.sub re_not_code_or_dot "" upper_text in
  if Py.endswith ".AX" cleaned then
    let code := Py.take (String.length cleaned - 3) cleaned in
    if acceptable 1 code then Some code else None
  else None.

(** The characters stripped from the matched URL: the six punctuation
    marks and the two quote characters. *)
Definition url_trailers : string := ".,;:!?" ++ String "034" "'".

(** The [if url_match:] block; [None] when it does not return. *)
Definition code_from_url (raw : string) : option string :=
  match Re.search re_url_ignorecase raw with
  | None => None
  | Some url_match =>
      match Url.urlparse (Py.strip_chars url_trailers (Re.group0 url_match)) with
      | None => None                       (* except Exception: pass *)
      | Some parsed =>
          let parts := List.filter Py.truthy (Py.split "/" (Url.path parsed)) in
          match first_return (fun part => code_before_ax (Py.upper part)) parts with
          | Some code => Some code
          | None =>
              first_return
                (fun key =>
                   let value := List.hd EmptyString (Url.parse_qs_get key (Url.query parsed)) in
                   code_before_ax (Py.upper value))
                ["p"; "symbol"]
          end
      end
  end.

Definition marker_patterns : list Re.re :=
  [re_asx_colon; re_asx_space; re_for; re_label].

(** The loop over the marker patterns. *)
Definition code_from_markers (cleaned_text : string) : option string :=
  first_return
    (fun pattern =>
       match Re.search pattern cleaned_text with
       | None => None
       | Some m =>
           let code := Re.sub re_not_code "" (default EmptyString (Re.group1 m)) in
           if acceptable 2 code then Some code else None
       end)
    marker_patterns.

(** The loop over the tokens. *)
Definition code_from_tokens (cleaned_text : string) : option string :=
  first_return
    (fun token =>
       if Py.mem token ASX_CODE_STOPWORDS then None
       else if Py.isdigit token then None
       else Some token)
    (Re.findall re_token cleaned_text).

(** "Accept Yahoo style tickers like HUB.AX." *)
Definition code_from_dot_ax (upper : string) : option string :=
  match Re.fullmatch re_dot_ax upper with
  | Some dot_ax =>
      let group1 := default EmptyString (Re.group1 dot_ax) in
      if negb (Py.isdigit group1) then Some group1 else None
  | None => None
  end.

(** "If the user/tool already passed a clean ticker code, trust it." *)
Definition code_if_clean (upper : string) : option string :=
  match Re.fullmatch re_clean upper with
  | Some _ => if negb (Py.isdigit upper) then Some upper else None
  | None => None
  end.

(** [a otherwise b]: what [a] returns, and [b] when [a] falls through. *)
Local Notation "a 'otherwise' b" :=
  (match a with Some x => Some x | None => b end)
  (at level 60, right associativity, only parsing).

Definition normalize_asx_code (asx_code : option string) : option string :=
  match asx_code with
  | None => None
  | Some asx_code =>
      if negb (Py.truthy asx_code) then None
      else
        let raw := Py.strip asx_code in
        if negb (Py.truthy raw) then None
        else
          let upper := Py.upper raw in
          code_from_dot_ax upper
          otherwise code_if_clean upper
          otherwise code_from_url raw
          otherwise (let cleaned_text := Re.sub re_url " " upper in
                     let cleaned_text := Re.sub re_email " " cleaned_text in
                     code_from_markers cleaned_text
                     otherwise code_from_tokens cleaned_text)
  end.

(** What the results of the normalizer look like: made of [[A-Z0-9.]],
    one to six characters, not a number. *)
Definition ticker_like (y : string) : Prop :=
  Py.all_str code_or_dot y = true
  /\ 1 <= String.length y <= 6
  /\ Py.isdigit y = false.

(** ** [build_asx_url], [_hostname], [_is_asx_url] *)

Definition build_asx_url (asx_code : option string) : string :=
  let code :=
    Py.replace ".AX" ""
      (Py.upper (match asx_code with
                 | Some c => if Py.truthy c then c else "HUB"
                 | None => "HUB"
                 end)) in
  "https://au.finance.yahoo.com/quote/" ++ code ++ ".AX/".

Definition _hostname (url : string) : string :=
  match Url.urlparse url with
  | Some parsed => Py.lower (default EmptyString (Url.hostname parsed))
  | None => EmptyString                                (* except Exception *)
  end.

Definition _is_asx_url (url : string) : bool :=
  let host := _hostname url in
  if negb (existsb (fun suffix => String.eqb host suffix || Py.endswith ("." ++ suffix) host)
                   YAHOO_HOST_SUFFIXES)
  then false
  else
    match Url.urlparse url with
    | Some parsed => Py.contains "/quote/" (Py.lower (Url.path parsed))
    | None => false                                    (* except Exception *)
    end.

(* ===================================================================== *)
(** * [pipeline.py]: the stages that act on the machine                   *)
(* ===================================================================== *)

(** ** Exceptions and the host *)

(** An exception is [AsxReportError] or any other [Exception]; both carry
    [str(exc)]. *)
Inductive exn : Type :=
| AsxReportError (msg : string)
| OtherError (msg : string).

Definition str_exn (e : exn) : string :=
  match e with AsxReportError m => m | OtherError m => m end.

Inductive res (A : Type) : Type :=
| Ok (a : A)
| Raise (e : exn).
Arguments Ok {A} a.
Arguments Raise {A} e.

(** What the operating system, a library or a started program answers: a
    value, or the text of the exception raised (an [OSError], a
    [CalledProcessError], a [TimeoutExpired], ...; never an
    [AsxReportError], which only this package raises). *)
Inductive answer (A : Type) : Type :=
| Done (a : A)
| Failed (msg : string).
Arguments Done {A} a.
Arguments Failed {A} msg.

Definition lift {A : Type} (a : answer A) : res A :=
  match a with Done x => Ok x | Failed msg => Raise (OtherError msg) end.

Definition failure {A : Type} (a : answer A) : option string :=
  match a with Done _ => None | Failed msg => Some msg end.

(** The programs and collaborators started by the pipeline. *)
Inductive invocation : Type :=
| LibreOffice (cmd : list string) (timeout_seconds : Z)   (* subprocess.run(cmd, check=True, timeout=...) *)
| Docx2pdf (input_docx : string) (output_pdf : option string)  (* docx2pdf.convert *)
| Osascript (subject body recipient attachment : string)   (* subprocess.run(["osascript", ...], check=True) *)
| Browser (url output_image : string)                      (* the Playwright session *)
| WordDocument (title source_url image_path output_docx : string).  (* python-docx *)


(** What the machine answers.  [W] is its state: the file system, the
    environment, the clock, the installed programs.  A [pathlib.Path] is
    the string that [str] gives for it; the operations of [pathlib] on
    paths are part of the host.  [expanduser] raises for a user that
    is not known and [Path.home] when there is no home directory.
    [resolve] raises for a text that cannot be a path (a null byte) and
    for a loop of symbolic links: [path_resolve_error] is the text of
    that exception where [resolve] raises, and [path_resolve] the
    resolved form where it does not.  [_resolve_output_dir], which
    resolves what the caller wrote, asks for both; the stages after it
    resolve the files they name in the directory it has returned. *)
Class Host (W : Type) : Type := {
  os_getenv : W -> string -> option string;
  now_strftime : W -> string -> string;            (* dt.datetime.now().strftime(fmt) *)
  shutil_which : W -> string -> option string;
  os_access_x : W -> string -> bool;               (* os.access(path, os.X_OK) *)
  path_exists : W -> string -> answer bool;
  path_stat_size : W -> string -> answer Z;        (* path.stat().st_size *)
  path_resolve : W -> string -> string;            (* str(path.resolve()) *)
  path_resolve_error : W -> string -> option string;
  path_expanduser : W -> string -> answer string;
  path_home : W -> answer string;                  (* str(Path.home()) *)
  path_of : string -> string;                      (* str(Path(text)) *)
  path_join : string -> string -> string;          (* path / name *)
  path_parent : string -> string;
  path_name : string -> string;
  path_stem : string -> string;
  path_with_suffix : string -> string -> string;
  path_mkdir : string -> W -> answer unit * W;     (* mkdir(parents=True, exist_ok=True) *)
  path_unlink : string -> W -> answer unit * W;
  path_write_text : string -> string -> W -> answer unit * W;
  shutil_move : string -> string -> W -> answer unit * W;
  shutil_copy2 : string -> string -> W -> answer unit * W;
  (** a started program returns or raises *)
  run_external : invocation -> W -> answer unit * W;
  (** the Playwright session of [capture_asx_graph]: the final URL of
      the page and the selector of the chart it captured, if any did
      render within the watch window *)
  browser_session : string -> string -> W -> answer (string * option string) * W
}.

(** ** Programs over a host: state, log of invocations, exceptions *)

Section WithHost.

Context {W : Type} {host : Host W}.

(** The machine, and the programs started so far, oldest first, each with
    the text of the exception it raised, if it did. *)
Record state : Type := State {
  world : W;
  log : list (invocation * option string)
}.

Definition M (A : Type) : Type := state -> res A * state.

Definition ret {A : Type} (a : A) : M A := fun st => (Ok a, st).

Definition raise {A : Type} (e : exn) : M A := fun st => (Raise e, st).

Definition bind {A B : Type} (c : M A) (k : A -> M B) : M B :=
  fun st =>
    match c st with
    | (Ok a, st') => k a st'
    | (Raise e, st') => (Raise e, st')
    end.

(** [try: c except Exception as exc: ...]: what [c] did stays done. *)
Definition attempt {A : Type} (c : M A) : M (res A) :=
  fun st => let '(r, st') := c st in (Ok r, st').

(** Read the machine. *)
Definition ask {A : Type} (f : W -> A) : M A :=
  fun st => (Ok (f (world st)), st).

Definition ask_res {A : Type} (f : W -> answer A) : M A :=
  fun st => (lift (f (world st)), st).

(** Change the machine. *)
Definition act {A : Type} (f : W -> answer A * W) : M A :=
  fun st => let '(a, w) := f (world st) in (lift a, State w (log st)).

(** Start a program and wait for it; the invocation and its outcome are
    logged. *)
Definition invoke (i : invocation) : M unit :=
  fun st =>
    let '(a, w) := run_external i (world st) in
    (lift a, State w (log st ++ [(i, failure a)])%list).

(** Run the browser session; it is logged like a started program. *)
Definition browse (url output_image : string) : M (string * option string) :=
  fun st =>
    let '(a, w) := browser_session url output_image (world st) in
    (lift a, State w (log st ++ [(Browser url output_image, failure a)])%list).

End WithHost.

Arguments state W : clear implicits.
Arguments M W A : clear implicits.

Notation "x <- c1 ;; c2" := (bind c1 (fun x => c2))
  (at level 100, c1 at next level, right associativity).
Notation "c1 ;; c2" := (bind c1 (fun _ => c2))
  (at level 100, right associativity).

Section Stages.

Context {W : Type} {host : Host W}.

(** ** Environment *)

Definition _safe_int_env (name : string) (default_ minimum : Z) : M W Z :=
  raw <- ask (fun w => os_getenv w name) ;;
  match raw with
  | None => ret (Z.max minimum default_)        (* int(str(default)) is default *)
  | Some raw =>
      match Py.int (Py.strip raw) with
      | Some n => ret (Z.max minimum n)
      | None => ret (Z.max minimum default_)    (* except (TypeError, ValueError) *)
      end
  end.

(** ** Conversion to PDF *)

Definition mac_candidates (home : string) : list string :=
  ["/Applications/LibreOffice.app/Contents/MacOS/soffice";
   path_join (path_join (path_join (path_join (path_join home
     "Applications") "LibreOffice.app") "Contents") "MacOS") "soffice"].

Fixpoint first_executable (candidates : list string) : M W (option string) :=
  match candidates with
  | [] => ret None
  | candidate :: more =>
      let path := path_of candidate in
      found <- ask_res (fun w => path_exists w path) ;;
      executable <- ask (fun w => os_access_x w path) ;;
      if found && executable then ret (Some path) else first_executable more
  end.

Definition _resolve_libreoffice_binary : M W (option string) :=
  on_path <- ask (fun w =>
    first_return (fun command =>
                    match shutil_which w command with
                    | Some resolved => if Py.truthy resolved then Some resolved else None
                    | None => None
                    end)
                 ["soffice"; "libreoffice"]) ;;
  match on_path with
  | Some resolved => ret (Some resolved)
  | None => home <- ask_res path_home ;; first_executable (mac_candidates home)
  end.

Definition libreoffice_cmd (binary input_docx output_pdf : string) : list string :=
  [binary; "--headless"; "--nologo"; "--nofirststartwizard"; "--convert-to"; "pdf";
   "--outdir"; path_parent output_pdf; input_docx].

(** Returns the error text, or [None] when LibreOffice left the PDF at
    [output_pdf]. *)
Definition _convert_docx_to_pdf_with_libreoffice
    (input_docx output_pdf : string) (timeout_seconds : Z) : M W (option string) :=
  binary <- _resolve_libreoffice_binary ;;
  match binary with
  | None => ret (Some "LibreOffice binary not found")
  | Some binary =>
      if negb (Py.truthy binary) then ret (Some "LibreOffice binary not found")
      else
        let generated_pdf :=
          path_join (path_parent output_pdf) (path_stem input_docx ++ ".pdf") in
        ran <- attempt (invoke (LibreOffice (libreoffice_cmd binary input_docx output_pdf)
                                        timeout_seconds)) ;;
        match ran with
        | Raise exc => ret (Some ("LibreOffice convert failed: " ++ str_exn exc))
        | Ok _ =>
            found <- ask_res (fun w => path_exists w generated_pdf) ;;
            if negb found
            then ret (Some ("LibreOffice did not output: " ++ generated_pdf))
            else
              size <- attempt (ask_res (fun w => path_stat_size w generated_pdf)) ;;
              match size with
              | Raise exc => ret (Some ("LibreOffice output check failed: " ++ str_exn exc))
              | Ok size =>
                  if (size <=? 0)%Z
                  then ret (Some ("LibreOffice output is empty: " ++ generated_pdf))
                  else
                    moved <- attempt (
                      same <- ask (fun w => String.eqb (path_resolve w generated_pdf)
                                                       (path_resolve w output_pdf)) ;;
                      if negb same then act (shutil_move generated_pdf output_pdf)
                      else ret tt) ;;
                    match moved with
                    | Raise exc => ret (Some ("LibreOffice output move failed: " ++ str_exn exc))
                    | Ok _ => ret None
                    end
              end
        end
  end.

(** [exists() and stat().st_size > 0], with [except Exception]. *)
Definition present_and_non_empty (path : string) : M W bool :=
  found <- ask_res (fun w => path_exists w path) ;;
  if found
  then size <- ask_res (fun w => path_stat_size w path) ;; ret (0 <? size)%Z
  else ret false.

Definition output_ready (output_pdf : string) : M W bool :=
  r <- attempt (present_and_non_empty output_pdf) ;;
  match r with
  | Ok b => ret b
  | Raise _ => ret false
  end.

(** [errors.append(prefix + str(exc))] when [c] raises. *)
Definition recording (errors : list string) (prefix : string) (c : M W unit)
  : M W (list string) :=
  r <- attempt c ;;
  match r with
  | Ok _ => ret errors
  | Raise exc => ret (errors ++ [(prefix ++ str_exn exc)%string])%list
  end.

(** [try: c except Exception: pass] *)
Definition ignoring (c : M W unit) : M W unit :=
  _ <- attempt c ;; ret tt.

Definition conversion_failure (input_docx : string) (detail : string) : exn :=
  AsxReportError ("PDF conversion failed for " ++ input_docx ++ ". Details: " ++ detail).

(** Attempt 3: stage conversion in output folder then move. *)
Definition docx2pdf_staging (input_docx output_pdf : string) (errors : list string)
  : M W string :=
  let staging_dir := path_join (path_parent output_pdf) ".pdf-staging" in
  act (path_mkdir staging_dir) ;;
  let staging_docx := path_join staging_dir (path_name input_docx) in
  let staging_pdf := path_with_suffix staging_docx ".pdf" in
  errors <- recording errors "staging setup failed: " (
    act (shutil_copy2 input_docx staging_docx) ;;
    found <- ask_res (fun w => path_exists w staging_pdf) ;;
    if found then act (path_unlink staging_pdf) else ret tt) ;;
  errors <- recording errors "docx2pdf staging convert failed: " (
    invoke (Docx2pdf staging_docx None)) ;;
  errors <- recording errors "staging move failed: " (
    present <- present_and_non_empty staging_pdf ;;
    if present then act (shutil_move staging_pdf output_pdf) else ret tt) ;;
  ignoring (
    found <- ask_res (fun w => path_exists w staging_docx) ;;
    if found then act (path_unlink staging_docx) else ret tt) ;;
  ready <- output_ready output_pdf ;;
  if ready then ret output_pdf
  else
    let detail := match errors with [] => "unknown error" | _ => Py.join "; " errors end in
    raise (conversion_failure input_docx detail).

(** Attempt 2: in-place conversion beside DOCX, then move. *)
Definition docx2pdf_in_place (input_docx output_pdf : string) (errors : list string)
  : M W string :=
  let in_place_pdf := path_with_suffix input_docx ".pdf" in
  ignoring (
    found <- ask_res (fun w => path_exists w in_place_pdf) ;;
    if found && negb (String.eqb in_place_pdf output_pdf)
    then act (path_unlink in_place_pdf) else ret tt) ;;
  errors <- recording errors "docx2pdf in-place convert failed: " (
    invoke (Docx2pdf input_docx None)) ;;
  errors <- recording errors "move in-place pdf failed: " (
    present <- present_and_non_empty in_place_pdf ;;
    if present && negb (String.eqb in_place_pdf output_pdf)
    then act (shutil_move in_place_pdf output_pdf) else ret tt) ;;
  ready <- output_ready output_pdf ;;
  if ready then ret output_pdf
  else docx2pdf_staging input_docx output_pdf errors.

(** Attempt 1: direct convert to requested output path. *)
Definition docx2pdf_direct (input_docx output_pdf : string) (errors : list string)
  : M W string :=
  errors <- recording errors "docx2pdf direct convert failed: " (
    invoke (Docx2pdf input_docx (Some output_pdf))) ;;
  ready <- output_ready output_pdf ;;
  if ready then ret output_pdf
  else docx2pdf_in_place input_docx output_pdf errors.

(** [os.getenv("ASX_PDF_ENGINE", "auto").strip().lower()], and ["auto"]
    when that is empty. *)
Definition pdf_engine_of (w : W) : string :=
  let pdf_engine :=
    Py.lower (Py.strip (default "auto" (os_getenv w "ASX_PDF_ENGINE"))) in
  if negb (Py.truthy pdf_engine) then "auto" else pdf_engine.

Definition convert_docx_to_pdf (input_docx output_pdf : string) : M W string :=
  act (path_mkdir (path_parent output_pdf)) ;;
  input_docx <- ask (fun w => path_resolve w input_docx) ;;
  output_pdf <- ask (fun w => path_resolve w output_pdf) ;;
  let errors : list string := [] in
  pdf_engine <- ask pdf_engine_of ;;
  let allow_libreoffice := Py.mem pdf_engine ["auto"; "libreoffice"; "soffice"] in
  let allow_docx2pdf := Py.mem pdf_engine ["auto"; "docx2pdf"; "word"; "microsoft-word"] in
  libreoffice_timeout_seconds <- _safe_int_env "ASX_LIBREOFFICE_TIMEOUT_SECONDS" 120 30 ;;
  after_libreoffice <-
    (if allow_libreoffice then
       libreoffice_error <-
         _convert_docx_to_pdf_with_libreoffice input_docx output_pdf
                                               libreoffice_timeout_seconds ;;
       if Py.truthy (default "" libreoffice_error)
       then ret (false, (errors ++ [default "" libreoffice_error])%list)
       else ready <- output_ready output_pdf ;; ret (ready, errors)
     else ret (false, errors)) ;;
  let '(returned, errors) := after_libreoffice in
  if (returned : bool) then ret output_pdf
  else if negb allow_docx2pdf then
    let detail :=
      match errors with
      | [] => "unsupported ASX_PDF_ENGINE: " ++ pdf_engine
      | _ => Py.join "; " errors
      end in
    raise (conversion_failure input_docx detail)
  else docx2pdf_direct input_docx output_pdf errors.

(** [c] starts no program. *)
Definition quiet {A : Type} (c : M W A) : Prop :=
  forall st, log (snd (c st)) = log st.

(** [c] raises nothing but what the operating system raises. *)
Definition os_only {A : Type} (c : M W A) : Prop :=
  forall st e, fst (c st) = Raise e -> exists msg, e = OtherError msg.

(** From [st], [c] starts only programs that satisfy [P], whatever it
    ends with. *)
Definition starts_at {A : Type} (P : invocation -> Prop) (c : M W A) (st : state W)
  : Prop :=
  exists entries,
    log (snd (c st)) = (log st ++ entries)%list
    /\ Forall (fun entry => P (fst entry)) entries.








(** ** Delivery *)

Definition send_email_with_mail_app (recipient subject body attachment_path : string)
  : M W unit :=
  found <- ask_res (fun w => path_exists w attachment_path) ;;
  if negb found
  then raise (AsxReportError ("Attachment does not exist: " ++ attachment_path))
  else
    attachment_abs <- ask (fun w => path_resolve w attachment_path) ;;
    invoke (Osascript subject body recipient attachment_abs).

(** ** Output location *)

Definition _is_placeholder_output_dir (output_dir : string) : bool :=
  let raw :=
    Py.lower (Py.rstrip_chars "/" (Py.replace "\" "/" (Py.strip output_dir))) in
  Py.mem raw OUTPUT_DIR_PLACEHOLDERS.

Definition _can_write_directory (candidate : string) : M W bool :=
  r <- attempt (
    act (path_mkdir candidate) ;;
    let probe := path_join candidate ".asx-write-probe" in
    act (path_write_text probe "ok") ;;
    act (path_unlink probe)) ;;
  match r with
  | Ok _ => ret true
  | Raise _ => ret false
  end.

(** What the loop over the candidates keeps when every candidate
    resolves: the first candidate of each resolved form. *)
Fixpoint unique_by (key : string -> string) (seen : gset string)
    (candidates : list string) : list string :=
  match candidates with
  | [] => []
  | candidate :: more =>
      if decide (key candidate ∈ seen) then unique_by key seen more
      else candidate :: unique_by key ({[key candidate]} ∪ seen) more
  end.

(** The loop that returns the first writable candidate. *)
Fixpoint first_writable (candidates : list string) : M W (option string) :=
  match candidates with
  | [] => ret None
  | candidate :: more =>
      writable <- _can_write_directory candidate ;;
      if writable then ret (Some candidate) else first_writable more
  end.

(** Probing the candidates of [candidates] in turn from [st] finds none
    writable and leaves [st']. *)
Fixpoint probes_fail (candidates : list string) (st st' : state W) : Prop :=
  match candidates with
  | [] => st' = st
  | candidate :: more =>
      exists st1, _can_write_directory candidate st = (Ok false, st1)
                  /\ probes_fail more st1 st'
  end.

(** The candidates, in their order, for the expanded request and the
    home directory. *)
Definition output_candidates (requested_raw requested home : string) : list string :=
  ((if Py.truthy requested_raw && negb (_is_placeholder_output_dir requested)
    then [requested] else [])
   ++ [path_of "output";
       path_join (path_join home "Desktop") "asx-mcp-output";
       path_join (path_of "/tmp") "asx-mcp-output"])%list.

(** [candidate.resolve(strict=False)] on what the caller wrote. *)
Definition resolve (path : string) : M W string :=
  fun st =>
    match path_resolve_error (world st) path with
    | Some msg => (Raise (OtherError msg), st)
    | None => (Ok (path_resolve (world st) path), st)
    end.

(** The loop that resolves every candidate and keeps the first of each
    resolved form. *)
Fixpoint unique_candidates_from (seen : gset string) (candidates : list string)
  : M W (list string) :=
  match candidates with
  | [] => ret []
  | candidate :: more =>
      key <- resolve candidate ;;
      if decide (key ∈ seen) then unique_candidates_from seen more
      else
        kept <- unique_candidates_from ({[key]} ∪ seen) more ;;
        ret (candidate :: kept)
  end.

Definition _resolve_output_dir (output_dir : string) : M W string :=
  let requested_raw := Py.strip output_dir in
  requested <- ask_res (fun w =>
    path_expanduser w (path_of (if Py.truthy requested_raw then requested_raw
                                else "output"))) ;;
  home <- ask_res path_home ;;
  let candidates := output_candidates requested_raw requested home in
  unique_candidates <- unique_candidates_from ∅ candidates ;;
  chosen <- first_writable unique_candidates ;;
  match chosen with
  | Some candidate => ret candidate
  | None =>
      raise (AsxReportError ("No writable output directory available. Tried: "
                             ++ Py.join ", " unique_candidates))
  end.

(** ** Capture and rendering *)

(** The browser session of [capture_asx_graph] is the host's; the checks
    on what it found and the dictionary are the function's. *)
Definition capture_asx_graph (url output_image : string) : M W (gmap string string) :=
  act (path_mkdir (path_parent output_image)) ;;
  watch_window_ms <- _safe_int_env "ASX_WATCH_WINDOW_MS" 20000 1000 ;;
  session <- browse url output_image ;;
  let '(final_url, capture_selector) := session in
  if negb (_is_asx_url final_url)
  then raise (AsxReportError ("Failed to open Yahoo Finance quote page: " ++ url
                              ++ " (final URL: " ++ final_url ++ ")"))
  else
    match capture_selector with
    | None =>
        raise (AsxReportError ("Chart did not render within "
                               ++ Py.str_int watch_window_ms ++ "ms at " ++ final_url))
    | Some selector =>
        image_path <- ask (fun w => path_resolve w output_image) ;;
        ret (list_to_map
               [("source_url", url);
                ("final_url", final_url);
                ("image_path", image_path);
                ("capture_selector",
                  if Py.truthy selector then selector else "unavailable");
                ("capture_attempt", "1");
                ("capture_refreshes", "0")])
    end.

Definition create_word_report (title source_url image_path output_docx : string)
  : M W string :=
  act (path_mkdir (path_parent output_docx)) ;;
  invoke (WordDocument title source_url image_path output_docx) ;;
  ret output_docx.

(** ** [run_asx_report] *)

Definition str_bool_lower (b : bool) : string := if b then "true" else "false".

(** [text or fallback] for an optional text. *)
Definition or_text (text : option string) (fallback : string) : string :=
  match text with
  | Some t => if Py.truthy t then t else fallback
  | None => fallback
  end.

(** The generated subject and body. *)
Definition default_subject (slug generated_at : string) : string :=
  "Yahoo Finance Chart Report: " ++ Py.upper slug ++ " (" ++ generated_at ++ ")".

Definition default_body (normalized_code : option string)
    (source_url generated_at : string) : string :=
  "Attached is your Yahoo Finance chart report PDF." ++ String "010" (String "010" "")
  ++ "Ticker: " ++ Py.upper (or_text normalized_code "HUB") ++ ".AX" ++ String "010" ""
  ++ "Source URL: " ++ source_url ++ String "010" ""
  ++ "Generated: " ++ generated_at.

Definition run_asx_report (asx_code : option string) (recipient output_dir : string)
    (email_subject email_body : option string) (send_email : bool)
  : M W (gmap string string) :=
  let normalized_code := normalize_asx_code asx_code in
  let slug := or_text normalized_code "HUB" in
  timestamp <- ask (fun w => now_strftime w "%Y%m%d-%H%M%S") ;;
  resolved_output_dir <- _resolve_output_dir output_dir ;;
  let image_path := path_join resolved_output_dir ("asx-" ++ slug ++ "-" ++ timestamp ++ ".png") in
  let docx_path := path_join resolved_output_dir ("asx-" ++ slug ++ "-" ++ timestamp ++ ".docx") in
  let pdf_path := path_join resolved_output_dir ("asx-" ++ slug ++ "-" ++ timestamp ++ ".pdf") in
  let source_url := build_asx_url normalized_code in
  capture_result <- capture_asx_graph source_url image_path ;;
  generated_at <- ask (fun w => now_strftime w "%Y-%m-%d %H:%M:%S") ;;
  let subject := or_text email_subject (default_subject slug generated_at) in
  let body := or_text email_body (default_body normalized_code source_url generated_at) in
  create_word_report subject source_url image_path docx_path ;;
  convert_docx_to_pdf docx_path pdf_path ;;
  (if send_email
   then send_email_with_mail_app recipient subject body pdf_path
   else ret tt) ;;
  capture_selector <-
    match capture_result !! "capture_selector" with
    | Some selector => ret selector
    | None => raise (OtherError "'capture_selector'")       (* KeyError *)
    end ;;
  image_abs <- ask (fun w => path_resolve w image_path) ;;
  docx_abs <- ask (fun w => path_resolve w docx_path) ;;
  pdf_abs <- ask (fun w => path_resolve w pdf_path) ;;
  ret (list_to_map
         [("recipient", recipient);
          ("source_url", source_url);
          ("final_url", default source_url (capture_result !! "final_url"));
          ("image_path", image_abs);
          ("docx_path", docx_abs);
          ("pdf_path", pdf_abs);
          ("capture_selector", capture_selector);
          ("capture_attempt", default "1" (capture_result !! "capture_attempt"));
          ("capture_refreshes", default "0" (capture_result !! "capture_refreshes"));
          ("sent_email", str_bool_lower send_email)]).

End Stages.
End Pipeline.

(* ===================================================================== *)
(** * [server.py]: the request coordinator                                *)
(* ===================================================================== *)

(** [create_asx_report] is a coroutine with one suspension point that
    matters: [await task].  Acquiring [_IN_FLIGHT_LOCK] never suspends:
    no coroutine awaits while it holds the lock, so the lock is free
    whenever a coroutine runs.  The event loop runs one coroutine at a
    time, so the coroutine is two atomic segments: [begin], from the call
    to [await task] (or to an early [return] or [raise]), and [resume],
    from the completion of the task to the end.  Readings of
    [time.monotonic()] are rationals; cancellation is not modelled. *)

Module Server.

Import Pipeline.

(** The arguments of a call. *)
Record request : Type := Request {
  asx_code : string;
  recipient : string;
  output_dir : string;
  email_subject : string;
  email_body : string;
  send_email : bool
}.

(** The three module-level dictionaries.  A task is known by its number;
    [tasks] lists the arguments of every [asyncio.create_task(_run_report
    (...))] so far, that is, of every execution of the report pipeline
    that was started. *)
Record State : Type := {
  _RECENT_RESULTS : gmap string (Q * gmap string string);
  _RECENT_ERRORS : gmap string (Q * string);
  _IN_FLIGHT : gmap string nat;
  tasks : list request
}.

Definition initial : State :=
  {| _RECENT_RESULTS := ∅; _RECENT_ERRORS := ∅; _IN_FLIGHT := ∅; tasks := [] |}.

Definition _canonical_ticker (asx_code : string) : string :=
  or_text (normalize_asx_code (Some asx_code)) "HUB".

Definition _canonical_recipient (recipient : string) : string :=
  let value := Py.lower (Py.strip recipient) in
  if Py.truthy value then value else "test@gmail.com".

Definition _request_key (asx_code recipient : string) (send_email : bool) : string :=
  Py.join "|" [_canonical_ticker asx_code; _canonical_recipient recipient;
               str_bool_lower send_email].

(** [max(0, int(os.getenv(name, default)))], and [fallback] on
    [ValueError]. *)
Definition window_seconds (environ : gmap string string) (name default_ : string)
    (fallback : Z) : Z :=
  let raw := default default_ (environ !! name) in
  match Py.int raw with
  | Some n => Z.max 0 n
  | None => fallback
  end.

Definition _dedupe_window_seconds (environ : gmap string string) : Z :=
  window_seconds environ "MCP_DEDUPE_SECONDS" "90" 90.

Definition _error_dedupe_window_seconds (environ : gmap string string) : Z :=
  window_seconds environ "MCP_ERROR_DEDUPE_SECONDS" "25" 25.

(** [now - ts > window * 2] *)
Definition too_old {A : Type} (now : Q) (window : Z) (entry : Q * A) : bool :=
  negb (Qle_bool (now - fst entry) (inject_Z (window * 2))).

(** The sweep of one cache. *)
Definition prune {A : Type} (now : Q) (window : Z) (cache : gmap string (Q * A))
  : gmap string (Q * A) :=
  if (0 <? window)%Z
  then filter (fun kv => too_old now window (snd kv) = false) cache
  else ∅.

Definition _prune_cache (now : Q) (success_window error_window : Z) (s : State) : State :=
  {| _RECENT_RESULTS := prune now success_window (_RECENT_RESULTS s);
     _RECENT_ERRORS := prune now error_window (_RECENT_ERRORS s);
     _IN_FLIGHT := _IN_FLIGHT s;
     tasks := tasks s |}.

(** [now - entry[0] <= window], under [window > 0]. *)
Definition fresh {A : Type} (now : Q) (window : Z) (entry : Q * A) : bool :=
  (0 <? window)%Z && Qle_bool (now - fst entry) (inject_Z window).

(** [{**result, "deduplicated": ..., "dedupe_reason": ...,
    "dedupe_window_seconds": str(success_window)}] *)
Definition annotated (result : gmap string string) (deduplicated dedupe_reason : string)
    (success_window : Z) : gmap string string :=
  <["dedupe_window_seconds" := Py.str_int success_window]>
    (<["dedupe_reason" := dedupe_reason]>
       (<["deduplicated" := deduplicated]> result)).

(** The local variables that [resume] reads. *)
Record frame : Type := Frame {
  request_key : string;
  success_window : Z;
  task : nat;
  owns_task : bool
}.

Inductive outcome : Type :=
| Returned (result : gmap string string)
| Raised (e : exn)
| Awaiting (f : frame).

(** What a cache holds for the key if the entry is fresh. *)
Definition fresh_entry {A : Type} (now : Q) (window : Z) (cached : option (Q * A))
  : option A :=
  match cached with
  | Some entry => if fresh now window entry then Some (snd entry) else None
  | None => None
  end.

(** [async with _IN_FLIGHT_LOCK]: take the task in flight for the key, or
    create one and own it. *)
Definition register (r : request) (request_key : string) (success_window : Z)
    (s : State) : outcome * State :=
  match _IN_FLIGHT s !! request_key with
  | Some task => (Awaiting (Frame request_key success_window task false), s)
  | None =>
      let task := List.length (tasks s) in
      (Awaiting (Frame request_key success_window task true),
       {| _RECENT_RESULTS := _RECENT_RESULTS s;
          _RECENT_ERRORS := _RECENT_ERRORS s;
          _IN_FLIGHT := <[request_key := task]> (_IN_FLIGHT s);
          tasks := (tasks s ++ [r])%list |})
  end.

(** From the call to [await task]. *)
Definition begin (environ : gmap string string) (now : Q) (r : request) (s : State)
  : outcome * State :=
  let request_key := _request_key (asx_code r) (recipient r) (send_email r) in
  let success_window := _dedupe_window_seconds environ in
  let error_window := _error_dedupe_window_seconds environ in
  let s := _prune_cache now success_window error_window s in
  match fresh_entry now success_window (_RECENT_RESULTS s !! request_key) with
  | Some cached =>
      (Returned (annotated cached "true" "recent-cache" success_window), s)
  | None =>
      match fresh_entry now error_window (_RECENT_ERRORS s !! request_key) with
      | Some cached_error =>
          (Raised (AsxReportError ("Skipped duplicate retry after recent failure: "
                                   ++ cached_error)), s)
      | None => register r request_key success_window s
      end
  end.

(** [_IN_FLIGHT.pop(request_key, None)] and the cache writes of the
    owner. *)
Definition settle_failure (request_key : string) (clock : Q) (detail : string)
    (s : State) : State :=
  {| _RECENT_RESULTS := _RECENT_RESULTS s;
     _RECENT_ERRORS := <[request_key := (clock, detail)]> (_RECENT_ERRORS s);
     _IN_FLIGHT := delete request_key (_IN_FLIGHT s);
     tasks := tasks s |}.

Definition settle_success (request_key : string) (clock : Q)
    (result : gmap string string) (s : State) : State :=
  {| _RECENT_RESULTS := <[request_key := (clock, result)]> (_RECENT_RESULTS s);
     _RECENT_ERRORS := delete request_key (_RECENT_ERRORS s);
     _IN_FLIGHT := delete request_key (_IN_FLIGHT s);
     tasks := tasks s |}.

(** From the completion of the awaited task to the end; [awaited] is what
    [await task] gives and [clock] what [time.monotonic()] then reads. *)
Definition resume (f : frame) (awaited : res (gmap string string)) (clock : Q)
    (s : State) : outcome * State :=
  match awaited with
  | Raise exc =>
      (Raised (AsxReportError ("Failed to create Yahoo chart report: " ++ str_exn exc)),
       if owns_task f then settle_failure (request_key f) clock (str_exn exc) s else s)
  | Ok result =>
      if owns_task f
      then (Returned (annotated result "false" "none" (success_window f)),
            settle_success (request_key f) clock result s)
      else (Returned (annotated result "true" "in-flight" (success_window f)), s)
  end.

(** The body of a task: [run_asx_report] on the arguments of the call. *)
Definition _run_report {W : Type} {host : Host W} (r : request)
  : M W (gmap string string) :=
  let optional text := if Py.truthy text then Some text else None in
  run_asx_report (optional (asx_code r)) (recipient r) (path_of (output_dir r))
                 (optional (email_subject r)) (optional (email_body r)) (send_email r).

(** ** States the server can be in *)

(** The states reached from the fresh server by calls that run up to
    their suspension and by resumptions, in any order and with any
    frames, clocks and environments. *)
Inductive reachable : State -> Prop :=
| reachable_initial : reachable initial
| reachable_begin (environ : gmap string string) (now : Q) (r : request) (s : State) :
    reachable s -> reachable (snd (begin environ now r s))
| reachable_resume (f : frame) (awaited : res (gmap string string)) (clock : Q)
    (s : State) :
    reachable s -> reachable (snd (resume f awaited clock s)).

(** Every task in flight was created, and no task is in flight under two
    keys. *)
Definition in_flight_ok (s : State) : Prop :=
  (forall k n, _IN_FLIGHT s !! k = Some n -> n < List.length (tasks s))
  /\ (forall k k' n, _IN_FLIGHT s !! k = Some n -> _IN_FLIGHT s !! k' = Some n -> k = k').

End Server.

(* ===================================================================== *)
(** * [cli.py]: the command line                                          *)
(* ===================================================================== *)

Module Cli.

Import Pipeline.

(** The namespace that [parse_args] returns: the values of
    [--asx-code], [--recipient], [--output-dir], [--email-subject],
    [--email-body] and [--no-email]. *)
Record Namespace : Type := {
  asx_code : string;
  recipient : string;
  output_dir : string;
  email_subject : string;
  email_body : string;
  no_email : bool
}.

(** The defaults of the arguments. *)
Definition defaults : Namespace :=
  {| asx_code := ""; recipient := "test@gmail.com"; output_dir := "output";
     email_subject := ""; email_body := ""; no_email := false |}.

(** [main] once the arguments are parsed; the result is what it prints
    as JSON. *)
Definition main {W : Type} {host : Host W} (args : Namespace)
  : M W (gmap string string) :=
  let optional text := if Py.truthy text then Some text else None in
  run_asx_report (optional (asx_code args)) (recipient args) (path_of (output_dir args))
                 (optional (email_subject args)) (optional (email_body args))
                 (negb (no_email args)).

End Cli.

(* ===================================================================== *)
(** * Concrete requests, environments and runs                            *)
(* ===================================================================== *)

Module Examples.

Import Pipeline Server.

#[local] Open Scope Q_scope.

(** A request for BHP without delivery, its key, and a report for it. *)
Definition bhp : request :=
  Request "BHP" "Ops@Example.com" "output" "" "" false.

Definition bhp_key : string := "BHP|ops@example.com|false".

Definition bhp_report : gmap string string :=
  list_to_map
    [("recipient", "Ops@Example.com");
     ("source_url", "https://au.finance.yahoo.com/quote/BHP.AX/");
     ("final_url", "https://au.finance.yahoo.com/quote/BHP.AX/");
     ("image_path", "/srv/output/asx-BHP-20260105-090000.png");
     ("docx_path", "/srv/output/asx-BHP-20260105-090000.docx");
     ("pdf_path", "/srv/output/asx-BHP-20260105-090000.pdf");
     ("capture_selector", "section[data-testid='qsp-chart']");
     ("capture_attempt", "1");
     ("capture_refreshes", "0");
     ("sent_email", "false")].

(** The same request from another caller, with another output folder. *)
Definition bhp_again : request :=
  Request " bhp.ax " "ops@example.com " "/tmp/reports" "" "" false.

(** Environments: the defaults (90 s and 25 s), and one window set to 0. *)
Definition default_environ : gmap string string := ∅.
Definition no_success_window : gmap string string := {["MCP_DEDUPE_SECONDS" := "0"]}.
Definition no_error_window : gmap string string := {["MCP_ERROR_DEDUPE_SECONDS" := "0"]}.

(** The first call for BHP, made at time 0 on a fresh server, and the
    frame it is suspended in. *)
Definition first_frame (environ : gmap string string) : frame :=
  Frame bhp_key (_dedupe_window_seconds environ) 0 true.

Definition first_call (environ : gmap string string) : State :=
  snd (begin environ 0 bhp initial).

(** ... whose execution succeeds, or fails, at time 5. *)
Definition after_success (environ : gmap string string) : State :=
  snd (resume (first_frame environ) (Ok bhp_report) 5 (first_call environ)).

Definition after_failure (environ : gmap string string) : State :=
  snd (resume (first_frame environ)
              (Raise (AsxReportError "Chart did not render within 20000ms"))
              5 (first_call environ)).

(** After a success at time 5, a second execution that starts at time
    100, when the success window of 90 s has elapsed, and fails at time
    101. *)
Definition second_frame : frame := Frame bhp_key 90 1 true.

Definition success_then_failure : State :=
  snd (resume second_frame (Raise (AsxReportError "Chart did not render within 20000ms"))
              101 (snd (begin default_environ 100 bhp (after_success default_environ)))).

(** After a failure at time 5, a retry at time 40, when the failure
    window of 25 s has elapsed: its execution is in flight. *)
Definition retry_in_flight : State :=
  snd (begin default_environ 40 bhp (after_failure default_environ)).

(** ** A machine *)

(** A machine for runs of the pipeline: its environment, its regular
    files with their sizes, whether Word writes the PDF that docx2pdf
    asks for (when it does not, docx2pdf returns all the same), and
    whether Mail sends.  LibreOffice is not installed; relative paths
    resolve under [/srv]; every directory can be made.  Its one user is
    [ops], at home in [/home/ops]. *)
Record machine : Type := Machine {
  machine_environ : list (string * string);
  machine_files : list (string * Z);
  word_converts : bool;
  mail_sends : bool
}.

Fixpoint assoc {A : Type} (key : string) (pairs : list (string * A)) : option A :=
  match pairs with
  | [] => None
  | (k, v) :: more => if String.eqb k key then Some v else assoc key more
  end.

Definition without (path : string) (files : list (string * Z)) : list (string * Z) :=
  List.filter (fun file => negb (String.eqb (fst file) path)) files.

Definition with_file (path : string) (size : Z) (w : machine) : machine :=
  Machine (machine_environ w) ((path, size) :: without path (machine_files w))
          (word_converts w) (mail_sends w).

Definition without_file (path : string) (w : machine) : machine :=
  Machine (machine_environ w) (without path (machine_files w))
          (word_converts w) (mail_sends w).

Definition no_such_file (path : string) : string :=
  "[Errno 2] No such file or directory: '" ++ path ++ "'".

Definition before_last (sep : ascii) (path fallback : string) : string :=
  let '(head, found, _) := Py.rpartition sep path in if found then head else fallback.

Definition after_last (sep : ascii) (path : string) : string :=
  let '(_, _, tail) := Py.rpartition sep path in tail.

Definition machine_copy (source target : string) (w : machine) : answer unit * machine :=
  match assoc source (machine_files w) with
  | Some size => (Done tt, with_file target size w)
  | None => (Failed (no_such_file source), w)
  end.

Definition machine_run (i : invocation) (w : machine) : answer unit * machine :=
  match i with
  | LibreOffice _ _ => (Failed "[Errno 2] No such file or directory: 'soffice'", w)
  | Docx2pdf input_docx (Some output_pdf) =>
      (Done tt, if word_converts w then with_file output_pdf 4096 w else w)
  | Docx2pdf input_docx None =>
      (Done tt,
       if word_converts w then with_file (before_last "." input_docx input_docx ++ ".pdf") 4096 w
       else w)
  | Osascript _ _ _ _ =>
      if mail_sends w then (Done tt, w)
      else (Failed "Command '['osascript', '-e', ...]' returned non-zero exit status 1.", w)
  | Browser _ output_image => (Done tt, with_file output_image 2048 w)
  | WordDocument _ _ _ output_docx => (Done tt, with_file output_docx 1024 w)
  end.

(** [expanduser]: [~] and [~ops] are the home of [ops], and no other
    user is known. *)
Definition machine_expanduser (path : string) : answer string :=
  if Py.startswith "~" path then
    let '(user, found, rest) := Py.partition "/" (Py.drop 1 path) in
    if (user =? "")%string || (user =? "ops")%string
    then Done ("/home/ops" ++ (if found then "/" ++ rest else ""))
    else Failed "Could not determine home directory."
  else Done path.

#[export] Instance machine_host : Host machine := {|
  os_getenv w name := assoc name (machine_environ w);
  now_strftime w fmt :=
    if String.eqb fmt "%Y%m%d-%H%M%S" then "20260105-090000" else "2026-01-05 09:00:00";
  shutil_which w command := None;
  os_access_x w path := false;
  path_exists w path :=
    Done (match assoc path (machine_files w) with Some _ => true | None => false end);
  path_stat_size w path :=
    match assoc path (machine_files w) with
    | Some size => Done size
    | None => Failed (no_such_file path)
    end;
  path_resolve w path := if Py.startswith "/" path then path else "/srv/" ++ path;
  path_resolve_error w path :=
    if Py.mem_char "000" path then Some "embedded null byte" else None;
  path_expanduser w path := machine_expanduser path;
  path_home w := Done "/home/ops";
  path_of text := text;
  path_join path name := path ++ "/" ++ name;
  path_parent path := before_last "/" path ".";
  path_name path := after_last "/" path;
  path_stem path := before_last "." (after_last "/" path) (after_last "/" path);
  path_with_suffix path suffix := before_last "." path path ++ suffix;
  path_mkdir path w := (Done tt, w);
  path_unlink path w :=
    match assoc path (machine_files w) with
    | Some _ => (Done tt, without_file path w)
    | None => (Failed (no_such_file path), w)
    end;
  path_write_text path text w := (Done tt, with_file path (Z.of_nat (String.length text)) w);
  shutil_move source target w :=
    match machine_copy source target w with
    | (Done _, w') => (Done tt, without_file source w')
    | failed => failed
    end;
  shutil_copy2 := machine_copy;
  run_external := machine_run;
  browser_session url output_image w :=
    (Done (url, Some "section[data-testid='qsp-chart']"), with_file output_image 2048 w)
|}.


(** Word and Mail work. *)
Definition desk : state machine := Pipeline.State (Machine [] [] true true) [].

Definition desk_run : res (gmap string string) * state machine :=
  run_asx_report (Some "BHP") "ops@example.com" "output" None None false desk.

Definition desk_report : gmap string string :=
  match fst desk_run with Ok report => report | Raise _ => ∅ end.

Definition returned {A : Type} (r : res A) : bool :=
  match r with Ok _ => true | Raise _ => false end.

End Examples.

(* ===================================================================== *)
(** * Facts about the string functions                                    *)
(* ===================================================================== *)

Module PyFacts.

Import Py.

#[local] Arguments String.append !_ _ : simpl nomatch.

Lemma length_app (a b : string) :
  String.length (a ++ b) = String.length a + String.length b.
Proof. induction a as [|c a IH]; simpl; [reflexivity | now rewrite IH]. Qed.

Lemma app_empty_r (s : string) : s ++ "" = s.
Proof. induction s as [|c s IH]; simpl; [reflexivity | now rewrite IH]. Qed.

Lemma app_assoc (a b c : string) : (a ++ b) ++ c = a ++ (b ++ c).
Proof. induction a as [|x a IH]; simpl; [reflexivity | now rewrite IH]. Qed.

Lemma all_str_app (p : ascii -> bool) (a b : string) :
  all_str p (a ++ b) = all_str p a && all_str p b.
Proof.
  induction a as [|c a IH]; simpl; [reflexivity |].
  rewrite IH. now rewrite andb_assoc.
Qed.

Lemma all_str_impl (p q : ascii -> bool) (s : string) :
  (forall c, p c = true -> q c = true) ->
  all_str p s = true -> all_str q s = true.
Proof.
  intros Hpq. induction s as [|c s IH]; simpl; [reflexivity |].
  intros [Hc Hs]%andb_true_iff. rewrite (Hpq _ Hc). now apply IH.
Qed.

Lemma all_str_filter (p : ascii -> bool) (s : string) :
  all_str p (filter_str p s) = true.
Proof.
  induction s as [|c s IH]; simpl; [reflexivity |].
  destruct (p c) eqn:Hc; simpl; [now rewrite Hc |]; exact IH.
Qed.

Lemma all_str_take (p : ascii -> bool) (n : nat) (s : string) :
  all_str p s = true -> all_str p (take n s) = true.
Proof.
  revert s. induction n as [|n IH]; intros [|c s]; simpl; try reflexivity.
  intros [Hc Hs]%andb_true_iff. rewrite Hc. now apply IH.
Qed.

Lemma length_take (n : nat) (s : string) :
  String.length (take n s) = Nat.min n (String.length s).
Proof.
  revert s. induction n as [|n IH]; intros [|c s]; simpl; try reflexivity.
  now rewrite IH.
Qed.

Lemma take_app_length (a b : string) : take (String.length a) (a ++ b) = a.
Proof. induction a as [|c a IH]; simpl; [now destruct b | now rewrite IH]. Qed.

Lemma map_str_id (f : ascii -> ascii) (p : ascii -> bool) (s : string) :
  (forall c, p c = true -> f c = c) ->
  all_str p s = true -> map_str f s = s.
Proof.
  intros Hf. induction s as [|c s IH]; simpl; [reflexivity |].
  intros [Hc Hs]%andb_true_iff. now rewrite (Hf _ Hc), IH.
Qed.

Lemma lstrip_by_id (p : ascii -> bool) (s : string) :
  all_str (fun c => negb (p c)) s = true -> lstrip_by p s = s.
Proof.
  destruct s as [|c s]; simpl; [reflexivity |].
  intros [Hc _]%andb_true_iff. apply negb_true_iff in Hc. now rewrite Hc.
Qed.

Lemma rstrip_by_id (p : ascii -> bool) (s : string) :
  all_str (fun c => negb (p c)) s = true -> rstrip_by p s = s.
Proof.
  induction s as [|c s IH]; simpl; [reflexivity |].
  intros [Hc Hs]%andb_true_iff. apply negb_true_iff in Hc.
  rewrite (IH Hs), Hc. now destruct s.
Qed.

Lemma strip_by_id (p : ascii -> bool) (s : string) :
  all_str (fun c => negb (p c)) s = true -> strip_by p s = s.
Proof.
  intros H. unfold strip_by. rewrite (lstrip_by_id _ _ H). now apply rstrip_by_id.
Qed.

Lemma filter_str_app (p : ascii -> bool) (a b : string) :
  filter_str p (a ++ b) = filter_str p a ++ filter_str p b.
Proof.
  induction a as [|c a IH]; simpl; [reflexivity |].
  rewrite IH. now destruct (p c).
Qed.

Lemma contains_startswith (sub s : string) :
  startswith sub s = true -> contains sub s = true.
Proof. intros H. destruct s; simpl in *; now rewrite H. Qed.

Lemma contains_cons (sub : string) (c : ascii) (s : string) :
  contains sub s = true -> contains sub (String c s) = true.
Proof. intros H. simpl. rewrite H. apply orb_true_r. Qed.

Lemma contains_app_r (sub a b : string) :
  contains sub b = true -> contains sub (a ++ b) = true.
Proof.
  intros H. induction a as [|c a IH]; [exact H |].
  change (String c a ++ b) with (String c (a ++ b)). now apply contains_cons.
Qed.

Lemma startswith_app (p s : string) : startswith p (p ++ s) = true.
Proof.
  induction p as [|c p IH]; simpl; [reflexivity |].
  now rewrite Ascii.eqb_refl, IH.
Qed.

Lemma startswith_app_l (p a b : string) :
  startswith p a = true -> startswith p (a ++ b) = true.
Proof.
  revert a. induction p as [|c p IH]; intros [|d a]; simpl; try easy.
  intros [Hc Hp]%andb_true_iff. rewrite Hc. now apply IH.
Qed.

Lemma contains_app_l (sub a b : string) :
  contains sub a = true -> contains sub (a ++ b) = true.
Proof.
  induction a as [|c a IH].
  - destruct sub; simpl; [intros _ | discriminate].
    destruct b; reflexivity.
  - intros H. simpl in H. apply orb_true_iff in H as [H|H].
    + apply contains_startswith. now apply (startswith_app_l _ (String c a)).
    + change (String c a ++ b) with (String c (a ++ b)).
      apply contains_cons. now apply IH.
Qed.

Lemma startswith_refl (s : string) : startswith s s = true.
Proof.
  induction s as [|c s IH]; simpl; [reflexivity |].
  now rewrite Ascii.eqb_refl, IH.
Qed.

Lemma contains_refl (s : string) : contains s s = true.
Proof. apply contains_startswith, startswith_refl. Qed.

Lemma contains_middle (x a b : string) : contains x (a ++ x ++ b) = true.
Proof. apply contains_app_r, contains_startswith, startswith_app. Qed.

Lemma join_contains (sep u : string) (parts : list string) :
  In u parts -> contains u (join sep parts) = true.
Proof.
  induction parts as [|p ps IH]; [easy |].
  intros [->|Hin].
  - destruct ps; simpl; [apply contains_refl |].
    apply contains_app_l, contains_refl.
  - destruct ps as [|p' ps']; [easy |].
    change (join sep (p :: p' :: ps')) with (p ++ sep ++ join sep (p' :: ps')).
    do 2 apply contains_app_r. now apply IH.
Qed.




End PyFacts.

(* ===================================================================== *)
(** * Facts about the matcher                                             *)
(* ===================================================================== *)

Module ReFacts.

Import Py Re PyFacts.

#[local] Arguments String.append !_ _ : simpl nomatch.

Lemma within_pred (hi : option nat) (n : nat) :
  within (hi_pred hi) n -> hi_zero hi = false -> within hi (S n).
Proof. destruct hi as [[|h]|]; simpl; try easy. lia. Qed.

Lemma within_zero (hi : option nat) (n : nat) :
  within hi n -> hi_zero hi = true -> n = 0.
Proof. destruct hi as [[|h]|]; simpl; try easy. lia. Qed.

Lemma in_stop_here (lo : nat) (pv pv' : option ascii) (s s' : string) :
  In (pv', s') (stop_here lo pv s) <-> lo = 0 /\ pv' = pv /\ s' = s.
Proof.
  destruct lo; simpl; split; try easy.
  - intros [[= <- <-]|[]]. easy.
  - intros (_ & -> & ->). now left.
Qed.

(** Every end of a repetition is reached over a run of the class whose
    length is within the bounds. *)
Lemma rep_ends_sound (p : ascii -> bool) (s : string) :
  forall lo hi pv pv' s',
    In (pv', s') (rep_ends p lo hi pv s) ->
    exists m, s = m ++ s' /\ all_str p m = true
              /\ lo <= String.length m /\ within hi (String.length m).
Proof.
  induction s as [|c s IH]; intros lo hi pv pv' s' Hin.
  - simpl in Hin.
    assert (In (pv', s') (stop_here lo pv "")) as H by now destruct (hi_zero hi).
    apply in_stop_here in H as (-> & _ & ->).
    exists "". repeat split; simpl; try lia. destruct hi; simpl; lia.
  - simpl in Hin. destruct (hi_zero hi) eqn:Hz.
    + apply in_stop_here in Hin as (-> & _ & ->).
      exists "". repeat split; simpl; try lia. destruct hi; simpl; lia.
    + destruct (p c) eqn:Hc.
      * apply in_app_or in Hin as [Hin|Hin].
        -- apply IH in Hin as (m & -> & Hm & Hlo & Hhi).
           exists (String c m). simpl. rewrite Hc, Hm.
           repeat split; [lia | now apply within_pred].
        -- apply in_stop_here in Hin as (-> & _ & ->).
           exists "". repeat split; simpl; try lia. destruct hi; simpl; lia.
      * apply in_stop_here in Hin as (-> & _ & ->).
        exists "". repeat split; simpl; try lia. destruct hi; simpl; lia.
Qed.

(** Every run of the class within the bounds is an end of the
    repetition. *)
Lemma rep_ends_complete (p : ascii -> bool) (m : string) :
  forall lo hi pv s',
    all_str p m = true -> lo <= String.length m -> within hi (String.length m) ->
    exists pv', In (pv', s') (rep_ends p lo hi pv (m ++ s')).
Proof.
  induction m as [|c m IH]; intros lo hi pv s' Hm Hlo Hhi.
  - simpl in *. assert (lo = 0) as -> by lia. exists pv.
    assert (In (pv, s') (stop_here 0 pv s')) as H by now left.
    destruct s' as [|d s']; simpl.
    + now destruct (hi_zero hi).
    + destruct (hi_zero hi); [exact H |].
      destruct (p d); [apply in_or_app; now right | exact H].
  - simpl in Hm. apply andb_true_iff in Hm as [Hc Hm]. simpl in Hlo, Hhi.
    assert (hi_zero hi = false) as Hz.
    { destruct hi as [[|h]|]; simpl in *; first [easy | lia]. }
    destruct (IH (Nat.pred lo) (hi_pred hi) (Some c) s' Hm) as [pv' Hin].
    { lia. }
    { destruct hi as [h|]; simpl in *; [lia | exact I]. }
    exists pv'. simpl. rewrite Hz, Hc. apply in_or_app. now left.
Qed.

Lemma consumed_app (m s' : string) : consumed (m ++ s') s' = m.
Proof.
  unfold consumed. rewrite length_app.
  replace (String.length m + String.length s' - String.length s')
    with (String.length m) by lia.
  apply take_app_length.
Qed.

(** ** Inversion of [step] *)

Lemma in_step_seq (a b : re) (p q : pos) :
  In q (step (Seq a b) p) <-> exists x, In x (step a p) /\ In q (step b x).
Proof. simpl. apply in_flat_map. Qed.

Lemma in_step_chr (c : ascii -> bool) (p q : pos) :
  In q (step (Chr c) p) ->
  exists a t, rest p = String a t /\ c a = true /\ q = Pos (Some a) t (grp p).
Proof.
  simpl. destruct (rest p) as [|a t]; [easy |].
  destruct (c a) eqn:Hc; [| easy].
  intros [<-|[]]. now exists a, t.
Qed.

Lemma in_step_bnd (p q : pos) : In q (step Bnd p) -> q = p.
Proof. simpl. destruct (xorb _ _); [| easy]. now intros [<-|[]]. Qed.

Lemma in_step_rep (lo : nat) (hi : option nat) (c : ascii -> bool) (p q : pos) :
  In q (step (Rep lo hi c) p) ->
  exists m, rest p = m ++ rest q /\ all_str c m = true
            /\ lo <= String.length m /\ within hi (String.length m)
            /\ grp q = grp p.
Proof.
  simpl. intros ([pv' s'] & <- & Hin)%in_map_iff. simpl.
  apply rep_ends_sound in Hin as (m & Hs & Hm & Hlo & Hhi).
  now exists m.
Qed.

Lemma in_step_grp (a : re) (p q : pos) :
  In q (step (Grp a) p) ->
  exists q', In q' (step a p) /\ rest q = rest q'
             /\ grp q = Some (consumed (rest p) (rest q')).
Proof. simpl. intros (q' & <- & Hin)%in_map_iff. now exists q'. Qed.

Lemma head_In {A : Type} (l : list A) (x : A) : head l = Some x -> In x l.
Proof. destruct l; simpl; [easy |]. intros [= ->]. now left. Qed.

Lemma match_at_In (r : re) (pv : option ascii) (s : string) (q : pos) :
  match_at r pv s = Some q -> In q (step r (Pos pv s None)).
Proof. apply head_In. Qed.

(** ** [fullmatch] *)

Lemma fullmatch_Some (r : re) (s : string) (m : match_) :
  fullmatch r s = Some m ->
  exists q, In q (step r (Pos None s None)) /\ rest q = "" /\ m = Match s (grp q).
Proof.
  unfold fullmatch.
  destruct (List.find _ _) as [q|] eqn:Hfind; [| easy].
  intros [= <-]. apply find_some in Hfind as [Hin Hq].
  exists q. repeat split; [exact Hin |]. now destruct (rest q).
Qed.

Lemma fullmatch_None (r : re) (s : string) :
  (forall q, In q (step r (Pos None s None)) -> rest q <> "") ->
  fullmatch r s = None.
Proof.
  intros H. unfold fullmatch.
  destruct (List.find _ _) as [q|] eqn:Hfind; [| reflexivity].
  apply find_some in Hfind as [Hin Hq]. specialize (H q Hin).
  now destruct (rest q).
Qed.

Lemma fullmatch_is_Some (r : re) (s : string) (q : pos) :
  In q (step r (Pos None s None)) -> rest q = "" ->
  exists m, fullmatch r s = Some m.
Proof.
  intros Hin Hq. unfold fullmatch.
  destruct (List.find _ _) as [q'|] eqn:Hfind; [eauto |].
  eapply find_none in Hfind; [| exact Hin]. now rewrite Hq in Hfind.
Qed.

(** A repetition of a class matches a whole text exactly when the text is
    a run of the class within the bounds. *)
Lemma fullmatch_rep (lo : nat) (hi : option nat) (c : ascii -> bool) (s : string) :
  (exists m, fullmatch (Rep lo hi c) s = Some m)
  <-> all_str c s = true /\ lo <= String.length s /\ within hi (String.length s).
Proof.
  split.
  - intros [m (q & Hin & Hq & _)%fullmatch_Some].
    apply in_step_rep in Hin as (w & Hs & Hw & Hlo & Hhi & _).
    simpl in Hs. rewrite Hq, app_empty_r in Hs. now subst w.
  - intros (Hs & Hlo & Hhi).
    destruct (rep_ends_complete c s lo hi None "" Hs Hlo Hhi) as [pv' Hin].
    rewrite app_empty_r in Hin.
    apply (fullmatch_is_Some _ _ (Pos pv' "" None)); [| reflexivity].
    simpl. apply in_map_iff. now exists (pv', "").
Qed.

(** ** [sub] with a class and nothing as replacement is a filter *)

Lemma sub_from_chr (c : ascii -> bool) (s : string) (pv : option ascii) :
  sub_from (Chr c) "" pv s 0 = filter_str (fun a => negb (c a)) s.
Proof.
  revert pv. induction s as [|a t IH]; intros pv; simpl; [reflexivity |].
  unfold match_at. simpl. destruct (c a) eqn:Hc; simpl.
  - replace (S (String.length t) - String.length t) with 1 by lia.
    apply IH.
  - now rewrite IH.
Qed.

Lemma sub_chr (c : ascii -> bool) (s : string) :
  sub (Chr c) "" s = filter_str (fun a => negb (c a)) s.
Proof. apply sub_from_chr. Qed.

(** ** [findall] reports matches *)

Lemma findall_from_In (r : re) (s : string) :
  forall pv skip t,
    In t (findall_from r pv s skip) ->
    exists pv' s1 q, match_at r pv' s1 = Some q /\ t = consumed s1 (rest q).
Proof.
  induction s as [|a s IH]; intros pv skip t; simpl; [easy |].
  destruct skip as [|k]; [| apply IH].
  destruct (match_at r pv (String a s)) as [q|] eqn:Hm; [| apply IH].
  destruct (S (String.length s) - String.length (rest q)) eqn:Hlen; [apply IH |].
  intros [<-|Hin]; [| now apply IH in Hin].
  now exists pv, (String a s), q.
Qed.

End ReFacts.

(* ===================================================================== *)
(** * The source URL is a Yahoo Finance quote page                        *)
(* ===================================================================== *)

Module UrlFacts.

Import Py PyFacts Url.

#[local] Arguments String.append !_ _ : simpl nomatch.

Lemma partition_app (sep : ascii) (p s : string) :
  mem_char sep p = false ->
  partition sep (p ++ s)
  = let '(a, found, b) := partition sep s in (p ++ a, found, b).
Proof.
  induction p as [|c p IH]; simpl.
  - intros _. now destruct (partition sep s) as [[a f] b].
  - intros [Hc Hp]%orb_false_iff. rewrite Ascii.eqb_sym, Hc, (IH Hp).
    now destruct (partition sep s) as [[a f] b].
Qed.

Lemma rpartition_cons_found (sep c : ascii) (t a b : string) :
  rpartition sep t = (a, true, b) ->
  rpartition sep (String c t) = (String c a, true, b).
Proof. intros E. simpl. now rewrite E. Qed.

(** Splitting ["/quote/" ++ x] at its last slash leaves a directory part
    that, with a slash put back, still starts with ["/quote/"]. *)
Lemma rpartition_quote (x : string) :
  exists dirs leaf,
    rpartition "/" ("/quote/" ++ x) = (dirs, true, leaf)
    /\ forall rest, startswith "/quote/" (dirs ++ "/" ++ rest) = true.
Proof.
  assert (exists d0 leaf, rpartition "/" (String "/" x) = (d0, true, leaf)
                          /\ (d0 = "" \/ exists a, d0 = String "/" a))
    as (d0 & leaf & E & Hd0).
  { simpl. destruct (rpartition "/" x) as [[a [|]] b].
    - exists (String "/" a), b. split; [reflexivity | right; now exists a].
    - exists "", x. split; [reflexivity | now left]. }
  exists ("/quote" ++ d0), leaf. split.
  - change ("/quote/" ++ x) with ("/quote" ++ String "/" x).
    change ("/quote" ++ d0) with
      (String "/" (String "q" (String "u" (String "o" (String "t" (String "e" d0)))))).
    change ("/quote" ++ String "/" x) with
      (String "/" (String "q" (String "u" (String "o" (String "t" (String "e" (String "/" x))))))).
    now do 6 apply rpartition_cons_found.
  - intros rest. destruct Hd0 as [->|[a ->]]; reflexivity.
Qed.

Lemma until_delim_app (p u : string) :
  all_str (fun c => negb (mem_char c "/?#")) p = true ->
  until_delim (p ++ String "/" u) = (p, String "/" u).
Proof.
  induction p as [|c p IH]; simpl; [reflexivity |].
  intros [Hc Hp]%andb_true_iff. apply negb_true_iff in Hc.
  simpl in Hc. rewrite Hc. now rewrite (IH Hp).
Qed.

Lemma urlparse_quote (t : string) :
  exists r, urlparse ("https://au.finance.yahoo.com/quote/" ++ t) = Some r
            /\ netloc r = "au.finance.yahoo.com"
            /\ startswith "/quote/" (path r) = true.
Proof.
  unfold urlparse.
  change ("https://au.finance.yahoo.com/quote/" ++ t)
    with (String "h" ("ttps://au.finance.yahoo.com/quote/" ++ t)).
  cbn [lstrip_by].
  replace (Nat.leb (code "h") 32) with false by reflexivity. cbv iota.
  change (String "h" ("ttps://au.finance.yahoo.com/quote/" ++ t))
    with ("https://au.finance.yahoo.com/quote/" ++ t).
  rewrite filter_str_app.
  set (t' := filter_str _ t).
  replace (filter_str _ "https://au.finance.yahoo.com/quote/")
    with "https://au.finance.yahoo.com/quote/" by reflexivity.
  unfold split_scheme.
  change ("https://au.finance.yahoo.com/quote/" ++ t')
    with ("https" ++ String ":" ("//au.finance.yahoo.com/quote/" ++ t')).
  rewrite partition_app by reflexivity.
  remember ("//au.finance.yahoo.com/quote/" ++ t') as X eqn:EX.
  simpl. subst X.
  change ("//au.finance.yahoo.com/quote/" ++ t')
    with (String "/" (String "/" ("au.finance.yahoo.com" ++ String "/" ("quote/" ++ t')))).
  cbn [startswith drop].
  rewrite until_delim_app by reflexivity.
  replace (Ascii.eqb "/" "/") with true by reflexivity.
  cbv beta iota. replace (contains "[" "au.finance.yahoo.com") with false by reflexivity.
  replace (contains "]" "au.finance.yahoo.com") with false by reflexivity.
  cbv beta iota delta [andb orb negb].
  change (String "/" ("quote/" ++ t')) with ("/quote/" ++ t').
  rewrite (partition_app "#") by reflexivity.
  destruct (partition "#" t') as [[a1 f1] b1].
  rewrite (partition_app "?") by reflexivity.
  destruct (partition "?" a1) as [[a2 f2] b2].
  replace (mem "https" uses_params) with true by reflexivity.
  cbv beta iota delta [andb].
  destruct (contains ";" ("/quote/" ++ a2)).
  - unfold _splitparams.
    replace (contains "/" ("/quote/" ++ a2)) with true by reflexivity.
    destruct (rpartition_quote a2) as (dirs & leaf & E & Hdirs). rewrite E.
    destruct (partition ";" leaf) as [[before [|]] after].
    + eexists. split; [reflexivity |]. split; [reflexivity |]. apply Hdirs.
    + eexists. split; [reflexivity |]. split; reflexivity.
  - eexists. split; [reflexivity |]. split; reflexivity.
Qed.

Lemma startswith_lower (q p : string) :
  lower q = q -> startswith q p = true -> startswith q (lower p) = true.
Proof.
  revert p. induction q as [|a q IH]; intros [|b p]; simpl; try easy.
  intros [= Ha Hq] [Hab Hp]%andb_true_iff.
  apply Ascii.eqb_eq in Hab as <-. rewrite Ha, Ascii.eqb_refl. now apply IH.
Qed.

End UrlFacts.

(* ===================================================================== *)
(** * The identity normalizer                                             *)
(* ===================================================================== *)

Module NormalizerFacts.

Import Py Re PyFacts ReFacts UrlFacts Pipeline.

#[local] Arguments String.append !_ _ : simpl nomatch.

(** ** Character classes *)

Ltac by_cases_on_char c :=
  destruct c as [[] [] [] [] [] [] [] []]; vm_compute; congruence.

Lemma upper_alnum_upper_char (c : ascii) :
  upper_alnum c = true -> upper_char c = c.
Proof. by_cases_on_char c. Qed.

Lemma upper_alnum_not_space (c : ascii) :
  upper_alnum c = true -> negb (is_space c) = true.
Proof. by_cases_on_char c. Qed.

Lemma upper_alnum_not_dot (c : ascii) :
  upper_alnum c = true -> Ascii.eqb "." c = false.
Proof. by_cases_on_char c. Qed.

Lemma is_upper_not_digit (c : ascii) : is_upper c = true -> is_digit c = false.
Proof. by_cases_on_char c. Qed.

Lemma is_upper_upper_alnum (c : ascii) : is_upper c = true -> upper_alnum c = true.
Proof. unfold upper_alnum. now intros ->. Qed.

Lemma upper_alnum_code_or_dot (c : ascii) :
  upper_alnum c = true -> code_or_dot c = true.
Proof. unfold code_or_dot. now intros ->. Qed.

(** A text of [[A-Z0-9.]] without a dot is a text of [[A-Z0-9]]. *)
Lemma dot_free_upper_alnum (y : string) :
  all_str code_or_dot y = true -> contains "." y = false ->
  all_str upper_alnum y = true.
Proof.
  induction y as [|c y IH]; [reflexivity |].
  intros [Hc Hy]%andb_true_iff Hdot.
  change (contains "." (String c y))
    with (Ascii.eqb "." c && true || contains "." y) in Hdot.
  apply orb_false_iff in Hdot as [Hc' Hdot].
  rewrite andb_true_r in Hc'.
  simpl. rewrite (IH Hy Hdot), andb_true_r.
  unfold code_or_dot in Hc. rewrite Ascii.eqb_sym, Hc', orb_false_r in Hc. exact Hc.
Qed.

(** ** Loops that return *)

Lemma first_return_Some {A B : Type} (body : A -> option B) (xs : list A) (b : B) :
  first_return body xs = Some b -> exists x, In x xs /\ body x = Some b.
Proof.
  induction xs as [|x xs IH]; simpl; [easy |].
  destruct (body x) as [b'|] eqn:E.
  - intros [= ->]. exists x. split; [now left | exact E].
  - intros (x' & Hin & Hx')%IH. exists x'. split; [now right | exact Hx'].
Qed.

Lemma acceptable_true (lo : nat) (code : string) :
  acceptable lo code = true ->
  lo <= String.length code <= 6 /\ isdigit code = false.
Proof.
  unfold acceptable.
  intros [[[Hlo Hhi]%andb_true_iff Hd]%andb_true_iff _]%andb_true_iff.
  apply Nat.leb_le in Hlo, Hhi. apply negb_true_iff in Hd. easy.
Qed.

(** ** What each stage can return *)

Lemma lit_dot_ax_inv (x q : pos) :
  In q (step (lit ".AX") x) ->
  exists t, rest x = String "." t /\ grp q = grp x.
Proof.
  change (lit ".AX") with (Seq (chr ".") (Seq (chr "A") (chr "X"))).
  intros (x1 & H1 & (x2 & H2 & H3)%in_step_seq)%in_step_seq.
  apply in_step_chr in H1 as (a & t & Hx & Ha & ->).
  apply in_step_chr in H2 as (a2 & t2 & _ & _ & ->).
  apply in_step_chr in H3 as (a3 & t3 & _ & _ & ->).
  apply Ascii.eqb_eq in Ha as <-. now exists t.
Qed.

Lemma group_rep_inv (lo : nat) (hi : option nat) (c : ascii -> bool) (p x : pos) :
  In x (step (Grp (Rep lo hi c)) p) ->
  exists m, rest p = m ++ rest x /\ grp x = Some m
            /\ all_str c m = true /\ lo <= String.length m
            /\ within hi (String.length m).
Proof.
  intros (q' & Hin & Hrest & Hgrp)%in_step_grp.
  apply in_step_rep in Hin as (m & Hs & Hm & Hlo & Hhi & _).
  exists m. rewrite Hrest, Hgrp, Hs, consumed_app. easy.
Qed.

Lemma code_from_dot_ax_shape (u y : string) :
  code_from_dot_ax u = Some y ->
  all_str upper_alnum y = true /\ 1 <= String.length y <= 6 /\ isdigit y = false.
Proof.
  unfold code_from_dot_ax.
  destruct (fullmatch re_dot_ax u) as [m|] eqn:E; [| easy].
  apply fullmatch_Some in E as (q & Hin & _ & ->). simpl.
  apply in_step_seq in Hin as (x & Hx & Hq).
  apply lit_dot_ax_inv in Hq as (t & _ & ->).
  apply group_rep_inv in Hx as (w & _ & -> & Hw & Hlo & Hhi). simpl in *.
  destruct (isdigit w) eqn:Hd; [easy |]. intros [= <-]. easy.
Qed.

Lemma code_from_dot_ax_none (y : string) :
  all_str upper_alnum y = true -> code_from_dot_ax y = None.
Proof.
  intros Hy. unfold code_from_dot_ax.
  rewrite fullmatch_None; [reflexivity |].
  intros q (x & Hx & Hq)%in_step_seq. exfalso.
  apply lit_dot_ax_inv in Hq as (t & Hrest & _).
  apply group_rep_inv in Hx as (w & Hs & _). simpl in Hs.
  rewrite Hs, Hrest, all_str_app in Hy.
  apply andb_true_iff in Hy as [_ [Hdot _]%andb_true_iff].
  discriminate Hdot.
Qed.

Lemma code_if_clean_shape (u y : string) :
  code_if_clean u = Some y ->
  y = u /\ all_str upper_alnum y = true /\ 2 <= String.length y <= 6
  /\ isdigit y = false.
Proof.
  unfold code_if_clean, re_clean.
  destruct (fullmatch _ u) as [m|] eqn:E; [| easy].
  destruct (isdigit u) eqn:Hd; [easy |]. intros [= <-].
  assert (exists m, fullmatch (Rep 2 (Some 6) upper_alnum) u = Some m) as H by eauto.
  apply fullmatch_rep in H as (Hu & Hlo & Hhi). simpl in Hhi. easy.
Qed.

Lemma code_if_clean_complete (y : string) :
  all_str upper_alnum y = true -> 2 <= String.length y <= 6 -> isdigit y = false ->
  code_if_clean y = Some y.
Proof.
  intros Hy [Hlo Hhi] Hd. unfold code_if_clean, re_clean.
  destruct (proj2 (fullmatch_rep 2 (Some 6) upper_alnum y)) as [m ->]; [easy |].
  now rewrite Hd.
Qed.

Lemma code_before_ax_shape (text y : string) :
  code_before_ax text = Some y -> ticker_like y.
Proof.
  unfold code_before_ax, re_not_code_or_dot. rewrite sub_chr.
  destruct (endswith _ _); [| easy].
  destruct (acceptable 1 _) eqn:Hacc; [| easy]. intros [= <-].
  apply acceptable_true in Hacc as [Hlen Hd].
  split; [| easy].
  apply all_str_take.
  erewrite all_str_impl; [reflexivity | | apply all_str_filter].
  intros c Hc. cbv beta in Hc. now rewrite negb_involutive in Hc.
Qed.

Lemma code_from_url_shape (raw y : string) :
  code_from_url raw = Some y -> ticker_like y.
Proof.
  unfold code_from_url.
  destruct (search _ raw) as [url_match|]; [| easy].
  destruct (Url.urlparse _) as [parsed|]; [| easy].
  destruct (first_return _ (List.filter _ _)) as [code|] eqn:E.
  - intros [= <-]. apply first_return_Some in E as (part & _ & E).
    now apply code_before_ax_shape in E.
  - intros (key & _ & E')%first_return_Some.
    now apply code_before_ax_shape in E'.
Qed.

Lemma code_from_markers_shape (text y : string) :
  code_from_markers text = Some y ->
  all_str upper_alnum y = true /\ 2 <= String.length y <= 6 /\ isdigit y = false.
Proof.
  unfold code_from_markers. intros (pattern & _ & E)%first_return_Some.
  destruct (search pattern text) as [m|]; [| easy].
  unfold re_not_code in E. rewrite sub_chr in E.
  destruct (acceptable 2 _) eqn:Hacc; [| easy]. injection E as <-.
  apply acceptable_true in Hacc as [Hlen Hd].
  split; [| easy].
  erewrite all_str_impl; [reflexivity | | apply all_str_filter].
  intros c Hc. cbv beta in Hc. now rewrite negb_involutive in Hc.
Qed.

(** A token is a capital letter followed by one to five of [[A-Z0-9]]. *)
Lemma re_token_inv (pv : option ascii) (s : string) (q : pos) :
  In q (step re_token (Pos pv s None)) ->
  exists a m, consumed s (rest q) = String a m
              /\ is_upper a = true /\ all_str upper_alnum m = true
              /\ 1 <= String.length m <= 5.
Proof.
  change re_token
    with (Seq Bnd (Seq (Chr is_upper) (Seq (Rep 1 (Some 5) upper_alnum) Bnd))).
  intros (x0 & H0 & (x1 & H1 & (x2 & H2 & H3)%in_step_seq)%in_step_seq)%in_step_seq.
  apply in_step_bnd in H0 as ->. apply in_step_bnd in H3 as ->.
  apply in_step_chr in H1 as (a & t & Hs & Ha & ->). simpl in Hs. subst s.
  apply in_step_rep in H2 as (m & Ht & Hm & Hlo & Hhi & _). simpl in Ht, Hhi.
  exists a, m. repeat split; try easy.
  rewrite Ht. change (String a (m ++ rest x2)) with (String a m ++ rest x2).
  apply consumed_app.
Qed.

Lemma isdigit_upper_first (a : ascii) (m : string) :
  is_upper a = true -> isdigit (String a m) = false.
Proof. intros Ha. simpl. now rewrite (is_upper_not_digit _ Ha). Qed.

Lemma code_from_tokens_shape (text y : string) :
  code_from_tokens text = Some y ->
  all_str upper_alnum y = true /\ 2 <= String.length y <= 6 /\ isdigit y = false.
Proof.
  unfold code_from_tokens. intros (token & Hin & E)%first_return_Some.
  destruct (mem token _); [easy |]. destruct (isdigit token); [easy |].
  injection E as <-.
  apply findall_from_In in Hin as (pv & s1 & q & Hq%match_at_In & ->).
  apply re_token_inv in Hq as (a & m & -> & Ha & Hm & Hlen).
  simpl. rewrite (is_upper_upper_alnum _ Ha), Hm, (is_upper_not_digit _ Ha).
  repeat split; lia.
Qed.

Lemma clean_is_ticker_like (y : string) :
  all_str upper_alnum y = true /\ 2 <= String.length y <= 6 /\ isdigit y = false ->
  ticker_like y.
Proof.
  intros (Hy & Hlen & Hd). repeat split; try easy; [| lia].
  eapply all_str_impl; [| exact Hy]. apply upper_alnum_code_or_dot.
Qed.

(** Every result of the normalizer is ticker-like. *)
Lemma normalize_asx_code_shape (x : option string) (y : string) :
  normalize_asx_code x = Some y -> ticker_like y.
Proof.
  destruct x as [x|]; [| easy]. unfold normalize_asx_code.
  destruct (truthy x); [| easy]. destruct (truthy (strip x)); [| easy]. simpl.
  destruct (code_from_dot_ax _) as [c|] eqn:E1.
  { intros [= <-]. apply code_from_dot_ax_shape in E1 as (Hc & Hlen & Hd).
    repeat split; try easy.
    eapply all_str_impl; [| exact Hc]. apply upper_alnum_code_or_dot. }
  destruct (code_if_clean _) as [c|] eqn:E2.
  { intros [= <-]. apply clean_is_ticker_like.
    apply code_if_clean_shape in E2. easy. }
  destruct (code_from_url _) as [c|] eqn:E3.
  { intros [= <-]. now apply code_from_url_shape in E3. }
  destruct (code_from_markers _) as [c|] eqn:E4.
  { intros [= <-]. apply clean_is_ticker_like.
    now apply code_from_markers_shape in E4. }
  intros E5. apply clean_is_ticker_like. now apply code_from_tokens_shape in E5.
Qed.

(** A clean ticker is returned as it is. *)
Lemma normalize_asx_code_clean (y : string) :
  all_str upper_alnum y = true -> 2 <= String.length y <= 6 -> isdigit y = false ->
  normalize_asx_code (Some y) = Some y.
Proof.
  intros Hy Hlen Hd. unfold normalize_asx_code.
  assert (strip y = y) as ->.
  { apply strip_by_id. eapply all_str_impl; [| exact Hy].
    apply upper_alnum_not_space. }
  assert (upper y = y) as ->.
  { eapply map_str_id; [| exact Hy]. apply upper_alnum_upper_char. }
  assert (truthy y = true) as -> by (destruct y; simpl in *; [lia | reflexivity]).
  simpl. rewrite (code_from_dot_ax_none y Hy).
  now rewrite (code_if_clean_complete y Hy Hlen Hd).
Qed.

(** ** The reference inputs *)

(** C4.  On the five reference inputs of the specification the
    normalizer returns BHP, BHP, CBA, CSL and nothing; the last input has
    no code because each of its four tokens is a stopword. *)
Theorem normalize_asx_code_reference_inputs :
  normalize_asx_code (Some "BHP") = Some "BHP"
  /\ normalize_asx_code (Some "bhp.ax") = Some "BHP"
  /\ normalize_asx_code (Some "https://au.finance.yahoo.com/quote/CBA.AX/") = Some "CBA"
  /\ normalize_asx_code (Some "please send me the report for csl") = Some "CSL"
  /\ normalize_asx_code (Some "send the daily report") = None
  /\ findall re_token (upper "send the daily report") = ["SEND"; "THE"; "DAILY"; "REPORT"]
  /\ forallb (fun token => mem token ASX_CODE_STOPWORDS)
             (findall re_token (upper "send the daily report")) = true.
Proof. repeat split; vm_compute; reflexivity. Qed.

(** ** Idempotence *)

(** C3, as stated, fails in two ways: [A.AX] normalizes to [A], and [A]
    has no code; and a quote URL for [AB.CD.AX] normalizes to [AB.CD],
    which normalizes to [AB]. *)
Lemma normalize_asx_code_not_idempotent :
  normalize_asx_code (Some "A.AX") = Some "A"
  /\ normalize_asx_code (normalize_asx_code (Some "A.AX")) = None
  /\ normalize_asx_code (Some "https://au.finance.yahoo.com/quote/AB.CD.AX/")
     = Some "AB.CD"
  /\ normalize_asx_code
       (normalize_asx_code (Some "https://au.finance.yahoo.com/quote/AB.CD.AX/"))
     = Some "AB"
  /\ ~ (forall x : string,
          normalize_asx_code (Some x) <> None ->
          normalize_asx_code (normalize_asx_code (Some x)) = normalize_asx_code (Some x)).
Proof.
  assert (normalize_asx_code (Some "A.AX") = Some "A") as E1 by (vm_compute; reflexivity).
  assert (normalize_asx_code (normalize_asx_code (Some "A.AX")) = None) as E2
    by (vm_compute; reflexivity).
  split; [exact E1 |]. split; [exact E2 |].
  split; [vm_compute; reflexivity |]. split; [vm_compute; reflexivity |].
  intros H. specialize (H "A.AX"). rewrite E2, E1 in H.
  discriminate H. discriminate.
Qed.

(** C3, amended.  Normalizing a result of the normalizer again changes
    nothing whenever that result has at least two characters and no
    dot. *)
Theorem normalize_asx_code_idempotent (x y : string) :
  normalize_asx_code (Some x) = Some y ->
  2 <= String.length y ->
  contains "." y = false ->
  normalize_asx_code (normalize_asx_code (Some x)) = normalize_asx_code (Some x).
Proof.
  intros E Hlen Hdot. rewrite E.
  destruct (normalize_asx_code_shape _ _ E) as (Hy & Hlen' & Hd).
  apply normalize_asx_code_clean; [| lia | exact Hd].
  now apply dot_free_upper_alnum.
Qed.

Lemma normalize_asx_code_idempotent_witness :
  normalize_asx_code (Some "bhp.ax") = Some "BHP"
  /\ normalize_asx_code (normalize_asx_code (Some "bhp.ax"))
     = normalize_asx_code (Some "bhp.ax").
Proof.
  split; [vm_compute; reflexivity |].
  apply (normalize_asx_code_idempotent "bhp.ax" "BHP");
    [vm_compute; reflexivity | simpl; lia | vm_compute; reflexivity].
Defined.

(** ** The source URL *)

(** The URL built for any code is a Yahoo Finance quote page. *)
Lemma build_asx_url_is_asx_url (asx_code : option string) :
  _hostname (build_asx_url asx_code) = "au.finance.yahoo.com"
  /\ (exists parsed, Url.urlparse (build_asx_url asx_code) = Some parsed
                     /\ contains "/quote/" (lower (Url.path parsed)) = true)
  /\ _is_asx_url (build_asx_url asx_code) = true.
Proof.
  unfold build_asx_url. set (code := replace _ _ _).
  destruct (urlparse_quote (code ++ ".AX/")) as (parsed & E & Hnet & Hpath).
  assert (_hostname ("https://au.finance.yahoo.com/quote/" ++ code ++ ".AX/")
          = "au.finance.yahoo.com") as Hhost.
  { unfold _hostname. rewrite E. unfold Url.hostname. rewrite Hnet. reflexivity. }
  assert (contains "/quote/" (lower (Url.path parsed)) = true) as Hquote.
  { apply contains_startswith. now apply startswith_lower. }
  split; [exact Hhost |]. split; [now exists parsed |].
  unfold _is_asx_url. rewrite Hhost, E. exact Hquote.
Qed.

(** C10.  Whatever the input, the URL built from its normalization (from
    the default code when there is none) passes the identity check of the
    capture: its host is a Yahoo Finance host and its path contains
    [/quote/]. *)
Theorem source_url_is_asx_url (s : string) :
  let url := build_asx_url (normalize_asx_code (Some s)) in
  _is_asx_url url = true
  /\ In (_hostname url) YAHOO_HOST_SUFFIXES
  /\ exists parsed, Url.urlparse url = Some parsed
                    /\ contains "/quote/" (lower (Url.path parsed)) = true.
Proof.
  intros url.
  destruct (build_asx_url_is_asx_url (normalize_asx_code (Some s)))
    as (Hhost & Hpath & Hok).
  split; [exact Hok |]. split; [| exact Hpath].
  fold url in Hhost. rewrite Hhost. now left.
Qed.

End NormalizerFacts.

(* ===================================================================== *)
(** * The request coordinator                                             *)
(* ===================================================================== *)

Module ServerFacts.

Import Pipeline Server Examples.

#[local] Open Scope Q_scope.

(** ** The sweep *)

Lemma too_old_false {A : Type} (now : Q) (window : Z) (entry : Q * A) :
  too_old now window entry = false <-> now - fst entry <= inject_Z (window * 2).
Proof. unfold too_old. rewrite negb_false_iff. apply Qle_bool_iff. Qed.

Lemma lookup_prune_Some {A : Type} (now : Q) (window : Z)
    (cache : gmap string (Q * A)) (k : string) (entry : Q * A) :
  prune now window cache !! k = Some entry
  <-> (0 < window)%Z /\ cache !! k = Some entry
      /\ now - fst entry <= inject_Z (window * 2).
Proof.
  unfold prune. destruct (0 <? window)%Z eqn:Hw.
  - apply Z.ltb_lt in Hw. rewrite map_lookup_filter_Some. simpl.
    rewrite too_old_false. tauto.
  - apply Z.ltb_ge in Hw. rewrite lookup_empty. split; [easy |]. lia.
Qed.

Lemma fresh_true {A : Type} (now : Q) (window : Z) (entry : Q * A) :
  fresh now window entry = true
  <-> (0 < window)%Z /\ now - fst entry <= inject_Z window.
Proof.
  unfold fresh. rewrite andb_true_iff, Z.ltb_lt. now rewrite Qle_bool_iff.
Qed.

Lemma inject_Z_double (window : Z) :
  (0 < window)%Z -> inject_Z window <= inject_Z (window * 2).
Proof. intros H. rewrite <- Zle_Qle. lia. Qed.

(** The sweep neither hides nor reveals a fresh entry. *)
Lemma fresh_entry_prune {A : Type} (now : Q) (window : Z)
    (cache : gmap string (Q * A)) (k : string) :
  fresh_entry now window (prune now window cache !! k)
  = fresh_entry now window (cache !! k).
Proof.
  unfold fresh_entry.
  destruct (prune now window cache !! k) as [e|] eqn:E.
  - apply lookup_prune_Some in E as (_ & -> & _). reflexivity.
  - destruct (cache !! k) as [e|] eqn:E'; [| reflexivity].
    destruct (fresh now window e) eqn:Hf; [| reflexivity].
    apply fresh_true in Hf as [Hw Hage].
    assert (prune now window cache !! k = Some e) as E''.
    { apply lookup_prune_Some. repeat split; try easy.
      eapply Qle_trans; [exact Hage | now apply inject_Z_double]. }
    congruence.
Qed.

Lemma fresh_entry_Some {A : Type} (now : Q) (window : Z) (ts : Q) (a : A) :
  (0 < window)%Z -> now - ts <= inject_Z window ->
  fresh_entry now window (Some (ts, a)) = Some a.
Proof.
  intros Hw Hage. unfold fresh_entry.
  now rewrite (proj2 (fresh_true now window (ts, a)) (conj Hw Hage)).
Qed.

Lemma fresh_entry_elapsed {A : Type} (now : Q) (window : Z) (ts : Q) (a : A) :
  inject_Z window < now - ts ->
  fresh_entry now window (Some (ts, a)) = None.
Proof.
  intros Hage. unfold fresh_entry.
  destruct (fresh now window (ts, a)) eqn:Hf; [| reflexivity].
  apply fresh_true in Hf as [_ Hle]. simpl in Hle.
  exfalso. apply (Qlt_not_le _ _ Hage Hle).
Qed.

Lemma fresh_entry_zero {A : Type} (now : Q) (cached : option (Q * A)) :
  fresh_entry now 0 cached = None.
Proof. now destruct cached. Qed.

Lemma prune_zero {A : Type} (now : Q) (cache : gmap string (Q * A)) :
  prune now 0 cache = ∅.
Proof. reflexivity. Qed.

(** ** The annotation *)

Lemma annotated_lookup (result : gmap string string) (deduplicated reason : string)
    (window : Z) :
  annotated result deduplicated reason window !! "deduplicated" = Some deduplicated
  /\ annotated result deduplicated reason window !! "dedupe_reason" = Some reason
  /\ annotated result deduplicated reason window !! "dedupe_window_seconds"
     = Some (Py.str_int window)
  /\ forall k, k <> "deduplicated" -> k <> "dedupe_reason" ->
               k <> "dedupe_window_seconds" ->
               annotated result deduplicated reason window !! k = result !! k.
Proof.
  unfold annotated. repeat split.
  - rewrite lookup_insert_ne by discriminate.
    rewrite lookup_insert_ne by discriminate. apply lookup_insert_eq.
  - rewrite lookup_insert_ne by discriminate. apply lookup_insert_eq.
  - apply lookup_insert_eq.
  - intros k H1 H2 H3. now rewrite !lookup_insert_ne by congruence.
Qed.

(** ** [begin] *)

(** What [begin] does once the caches were swept: a fresh success is
    returned, else a fresh failure is raised, else the call registers. *)
Lemma begin_unfold (environ : gmap string string) (now : Q) (r : request) (s : State) :
  let request_key := _request_key (asx_code r) (recipient r) (send_email r) in
  let success_window := _dedupe_window_seconds environ in
  let error_window := _error_dedupe_window_seconds environ in
  let swept := _prune_cache now success_window error_window s in
  begin environ now r s
  = match fresh_entry now success_window (_RECENT_RESULTS s !! request_key) with
    | Some cached =>
        (Returned (annotated cached "true" "recent-cache" success_window), swept)
    | None =>
        match fresh_entry now error_window (_RECENT_ERRORS s !! request_key) with
        | Some cached_error =>
            (Raised (AsxReportError ("Skipped duplicate retry after recent failure: "
                                     ++ cached_error)), swept)
        | None => register r request_key success_window swept
        end
    end.
Proof.
  intros. unfold begin. fold request_key success_window error_window swept.
  unfold swept, _prune_cache at 1 2. simpl. now rewrite !fresh_entry_prune.
Qed.

(** Every invocation sweeps both caches: afterwards no entry is older
    than twice its window, and, for a positive window, every entry that
    is not older is still there. *)
Lemma begin_sweeps (environ : gmap string string) (now : Q) (r : request) (s : State) :
  let success_window := _dedupe_window_seconds environ in
  let error_window := _error_dedupe_window_seconds environ in
  let s' := snd (begin environ now r s) in
  _RECENT_RESULTS s' = prune now success_window (_RECENT_RESULTS s)
  /\ _RECENT_ERRORS s' = prune now error_window (_RECENT_ERRORS s)
  /\ (forall k entry, _RECENT_RESULTS s' !! k = Some entry ->
                      now - fst entry <= inject_Z (success_window * 2))
  /\ (forall k entry, _RECENT_ERRORS s' !! k = Some entry ->
                      now - fst entry <= inject_Z (error_window * 2))
  /\ (forall k entry, (0 < success_window)%Z -> _RECENT_RESULTS s !! k = Some entry ->
                      now - fst entry <= inject_Z (success_window * 2) ->
                      _RECENT_RESULTS s' !! k = Some entry)
  /\ (forall k entry, (0 < error_window)%Z -> _RECENT_ERRORS s !! k = Some entry ->
                      now - fst entry <= inject_Z (error_window * 2) ->
                      _RECENT_ERRORS s' !! k = Some entry).
Proof.
  intros success_window error_window s'.
  assert (_RECENT_RESULTS s' = prune now success_window (_RECENT_RESULTS s)
          /\ _RECENT_ERRORS s' = prune now error_window (_RECENT_ERRORS s)) as [E1 E2].
  { unfold s'. rewrite begin_unfold. cbv zeta.
    fold success_window error_window.
    destruct (fresh_entry now success_window _); [easy |].
    destruct (fresh_entry now error_window _); [easy |].
    unfold register. simpl. now destruct (_IN_FLIGHT s !! _). }
  rewrite E1, E2. repeat split.
  - now intros k entry (_ & _ & H)%lookup_prune_Some.
  - now intros k entry (_ & _ & H)%lookup_prune_Some.
  - intros k entry Hw Hk Hage. now apply lookup_prune_Some.
  - intros k entry Hw Hk Hage. now apply lookup_prune_Some.
Qed.

Lemma register_attaches (r : request) (k : string) (window : Z) (s : State) (n : nat) :
  _IN_FLIGHT s !! k = Some n ->
  register r k window s = (Awaiting (Frame k window n false), s).
Proof. intros E. unfold register. now rewrite E. Qed.

Lemma register_starts (r : request) (k : string) (window : Z) (s : State) :
  _IN_FLIGHT s !! k = None ->
  fst (register r k window s) = Awaiting (Frame k window (List.length (tasks s)) true)
  /\ tasks (snd (register r k window s)) = (tasks s ++ [r])%list
  /\ _IN_FLIGHT (snd (register r k window s)) !! k = Some (List.length (tasks s))
  /\ _RECENT_RESULTS (snd (register r k window s)) = _RECENT_RESULTS s
  /\ _RECENT_ERRORS (snd (register r k window s)) = _RECENT_ERRORS s.
Proof.
  intros E. unfold register. rewrite E. simpl. repeat split.
  apply lookup_insert_eq.
Qed.

(** ** Success cache *)

(** C6, as stated, fails when the success window is configured as 0: an
    entry written at time 5 has age 0 at time 5, which is within the
    window, yet the call starts the pipeline again. *)
Lemma zero_success_window_disables_cache :
  _dedupe_window_seconds no_success_window = 0%Z
  /\ _RECENT_RESULTS (after_success no_success_window) !! bhp_key = Some (5, bhp_report)
  /\ 5 - 5 <= inject_Z (_dedupe_window_seconds no_success_window)
  /\ fst (begin no_success_window 5 bhp (after_success no_success_window))
     = Awaiting (Frame bhp_key 0 1 true)
  /\ tasks (snd (begin no_success_window 5 bhp (after_success no_success_window)))
     = [bhp; bhp].
Proof.
  split; [reflexivity |]. split; [reflexivity |].
  split; [vm_compute; congruence |]. split; reflexivity.
Qed.

(** C6, amended.  With a positive success window, a call whose identity
    has a success entry not older than the window returns the cached
    result annotated as a cache hit, with the window, and starts no
    execution.  And every invocation first sweeps each cache: of a cache
    whose window is positive it drops the entries older than twice the
    window and keeps every other entry, and a cache whose window is 0 it
    empties, whatever the age of its entries. *)
Theorem recent_success_is_returned
    (environ : gmap string string) (now ts : Q) (r : request) (s : State)
    (cached : gmap string string) :
  let request_key := _request_key (asx_code r) (recipient r) (send_email r) in
  let success_window := _dedupe_window_seconds environ in
  let error_window := _error_dedupe_window_seconds environ in
  _RECENT_RESULTS s !! request_key = Some (ts, cached) ->
  (0 < success_window)%Z ->
  now - ts <= inject_Z success_window ->
  let result := annotated cached "true" "recent-cache" success_window in
  let s' := snd (begin environ now r s) in
  fst (begin environ now r s) = Returned result
  /\ result !! "deduplicated" = Some "true"
  /\ result !! "dedupe_reason" = Some "recent-cache"
  /\ result !! "dedupe_window_seconds" = Some (Py.str_int success_window)
  /\ (forall k, k <> "deduplicated" -> k <> "dedupe_reason" ->
                k <> "dedupe_window_seconds" -> result !! k = cached !! k)
  /\ tasks s' = tasks s
  /\ _IN_FLIGHT s' = _IN_FLIGHT s
  /\ (forall environ' now' r' s0,
        let swept := snd (begin environ' now' r' s0) in
        let success_window' := _dedupe_window_seconds environ' in
        let error_window' := _error_dedupe_window_seconds environ' in
        (forall k entry,
           _RECENT_RESULTS swept !! k = Some entry
           <-> (0 < success_window')%Z /\ _RECENT_RESULTS s0 !! k = Some entry
               /\ now' - fst entry <= inject_Z (success_window' * 2))
        /\ (forall k entry,
              _RECENT_ERRORS swept !! k = Some entry
              <-> (0 < error_window')%Z /\ _RECENT_ERRORS s0 !! k = Some entry
                  /\ now' - fst entry <= inject_Z (error_window' * 2))
        /\ (success_window' = 0%Z -> _RECENT_RESULTS swept = ∅)
        /\ (error_window' = 0%Z -> _RECENT_ERRORS swept = ∅)).
Proof.
  intros request_key success_window error_window Hcached Hwindow Hage result s'.
  assert (begin environ now r s
          = (Returned result, _prune_cache now success_window error_window s)) as E.
  { rewrite begin_unfold. cbv zeta. fold request_key success_window. rewrite Hcached.
    now rewrite fresh_entry_Some. }
  destruct (annotated_lookup cached "true" "recent-cache" success_window)
    as (A1 & A2 & A3 & A4).
  unfold s'. rewrite E. simpl.
  do 7 (split; [easy |]).
  intros environ' now' r' s0. cbv zeta.
  destruct (begin_sweeps environ' now' r' s0) as (E1 & E2 & _).
  cbv zeta in E1, E2. rewrite E1, E2.
  split; [intros k entry; apply lookup_prune_Some |].
  split; [intros k entry; apply lookup_prune_Some |].
  split; intros ->; apply prune_zero.
Qed.

Lemma recent_success_is_returned_witness :
  fst (begin default_environ 60 bhp_again (after_success default_environ))
  = Returned (annotated bhp_report "true" "recent-cache"
                        (_dedupe_window_seconds default_environ))
  /\ _RECENT_RESULTS (snd (begin no_success_window 5 bhp
                             (after_success default_environ))) = ∅.
Proof.
  pose proof (recent_success_is_returned default_environ 60 5 bhp_again
                (after_success default_environ) bhp_report) as H.
  cbv zeta in H.
  assert (_RECENT_RESULTS (after_success default_environ)
            !! _request_key (asx_code bhp_again) (recipient bhp_again)
                 (send_email bhp_again)
          = Some (5, bhp_report)) as H1 by reflexivity.
  assert (0 < _dedupe_window_seconds default_environ)%Z as H2 by reflexivity.
  assert (60 - 5 <= inject_Z (_dedupe_window_seconds default_environ)) as H3
    by (vm_compute; congruence).
  destruct (H H1 H2 H3) as (Hcall & _ & _ & _ & _ & _ & _ & Hsweep).
  split; [exact Hcall |].
  refine (proj1 (proj2 (proj2 (Hsweep no_success_window 5 bhp
                                 (after_success default_environ)))) _).
  reflexivity.
Defined.

(** ** Failure cache *)

(** C5, as stated, fails in two ways.  When the failure window is
    configured as 0, a failure recorded at time 5 has age 0 at time 5,
    which is within the window, yet the call is not rejected and starts
    the pipeline.  And once the default window of 25 s has elapsed, a
    repeated call that arrives while a retry is in flight attaches to it
    and starts nothing. *)
Lemma recent_failure_counterexamples :
  (_error_dedupe_window_seconds no_error_window = 0%Z
   /\ _RECENT_ERRORS (after_failure no_error_window) !! bhp_key
      = Some (5, "Chart did not render within 20000ms")
   /\ _RECENT_RESULTS (after_failure no_error_window) !! bhp_key = None
   /\ 5 - 5 <= inject_Z (_error_dedupe_window_seconds no_error_window)
   /\ fst (begin no_error_window 5 bhp (after_failure no_error_window))
      = Awaiting (Frame bhp_key 90 1 true)
   /\ tasks (snd (begin no_error_window 5 bhp (after_failure no_error_window)))
      = [bhp; bhp])
  /\ (_RECENT_ERRORS retry_in_flight !! bhp_key
      = Some (5, "Chart did not render within 20000ms")
      /\ inject_Z (_error_dedupe_window_seconds default_environ) < 41 - 5
      /\ tasks retry_in_flight = [bhp; bhp]
      /\ fst (begin default_environ 41 bhp retry_in_flight)
         = Awaiting (Frame bhp_key 90 1 false)
      /\ tasks (snd (begin default_environ 41 bhp retry_in_flight)) = [bhp; bhp]).
Proof.
  split.
  - split; [reflexivity |]. split; [reflexivity |]. split; [reflexivity |].
    split; [vm_compute; congruence |]. split; reflexivity.
  - split; [reflexivity |]. split; [vm_compute; reflexivity |].
    split; [reflexivity |]. split; reflexivity.
Qed.

(** C5, amended.  For a call whose identity has a failure entry and no
    fresh success entry: with a positive failure window and the entry
    not older than the window, the call raises at once the error
    "Skipped duplicate retry after recent failure: " followed by the
    recorded detail, returns nothing, and starts no execution; once the
    window has elapsed, and at once, whatever the age of the entry, when
    the window is 0, the call starts an execution when none is in
    flight for the identity, and attaches to the one in flight
    otherwise. *)
Theorem recent_failure_suppresses_retry
    (environ : gmap string string) (now ts : Q) (r : request) (s : State)
    (detail : string) :
  let request_key := _request_key (asx_code r) (recipient r) (send_email r) in
  let success_window := _dedupe_window_seconds environ in
  let error_window := _error_dedupe_window_seconds environ in
  _RECENT_ERRORS s !! request_key = Some (ts, detail) ->
  fresh_entry now success_window (_RECENT_RESULTS s !! request_key) = None ->
  let call := begin environ now r s in
  ((0 < error_window)%Z -> now - ts <= inject_Z error_window ->
     fst call = Raised (AsxReportError
                          ("Skipped duplicate retry after recent failure: " ++ detail))
     /\ Py.contains detail
          ("Skipped duplicate retry after recent failure: " ++ detail) = true
     /\ tasks (snd call) = tasks s
     /\ _IN_FLIGHT (snd call) = _IN_FLIGHT s)
  /\ (error_window = 0%Z \/ inject_Z error_window < now - ts ->
      (_IN_FLIGHT s !! request_key = None ->
         fst call = Awaiting (Frame request_key success_window
                                    (List.length (tasks s)) true)
         /\ tasks (snd call) = (tasks s ++ [r])%list)
      /\ (forall running, _IN_FLIGHT s !! request_key = Some running ->
            fst call = Awaiting (Frame request_key success_window running false)
            /\ tasks (snd call) = tasks s)).
Proof.
  intros request_key success_window error_window Herror Hsuccess call.
  unfold call. rewrite begin_unfold. cbv zeta.
  fold request_key success_window error_window. rewrite Hsuccess, Herror.
  split.
  - intros Hwindow Hage. rewrite (fresh_entry_Some _ _ _ _ Hwindow Hage).
    split; [reflexivity |].
    split; [apply PyFacts.contains_app_r, PyFacts.contains_refl |].
    split; reflexivity.
  - intros Helapsed.
    assert (fresh_entry now error_window (Some (ts, detail)) = None) as ->.
    { destruct Helapsed as [->|Helapsed];
        [apply fresh_entry_zero | now apply fresh_entry_elapsed]. }
    split.
    + intros Hidle.
      destruct (register_starts r request_key success_window
                  (_prune_cache now success_window error_window s) Hidle)
        as (E1 & E2 & _).
      now rewrite E1, E2.
    + intros running Hrunning.
      now rewrite (register_attaches r request_key success_window
                     (_prune_cache now success_window error_window s) running Hrunning).
Qed.

Lemma recent_failure_suppresses_retry_witness :
  fst (begin default_environ 20 bhp_again (after_failure default_environ))
  = Raised (AsxReportError
              ("Skipped duplicate retry after recent failure: "
               ++ "Chart did not render within 20000ms"))
  /\ fst (begin default_environ 40 bhp_again (after_failure default_environ))
     = Awaiting (Frame (_request_key (asx_code bhp_again) (recipient bhp_again)
                                     (send_email bhp_again))
                       (_dedupe_window_seconds default_environ) 1 true)
  /\ fst (begin no_error_window 5 bhp_again (after_failure default_environ))
     = Awaiting (Frame (_request_key (asx_code bhp_again) (recipient bhp_again)
                                     (send_email bhp_again))
                       (_dedupe_window_seconds no_error_window) 1 true).
Proof.
  split; [| split].
  - refine (proj1 (proj1 (recent_failure_suppresses_retry default_environ 20 5 bhp_again
                            (after_failure default_environ)
                            "Chart did not render within 20000ms" _ _) _ _)).
    + reflexivity.
    + reflexivity.
    + reflexivity.
    + vm_compute. congruence.
  - refine (proj1 (proj1 (proj2 (recent_failure_suppresses_retry default_environ 40 5
                                   bhp_again (after_failure default_environ)
                                   "Chart did not render within 20000ms" _ _) _) _)).
    + reflexivity.
    + reflexivity.
    + right. vm_compute. reflexivity.
    + reflexivity.
  - refine (proj1 (proj1 (proj2 (recent_failure_suppresses_retry no_error_window 5 5
                                   bhp_again (after_failure default_environ)
                                   "Chart did not render within 20000ms" _ _) _) _)).
    + reflexivity.
    + reflexivity.
    + left. reflexivity.
    + reflexivity.
Defined.

(** ** Singleflight *)

(** C1.  Take two calls with the same identity.  The first finds no
    fresh cache entry and nothing in flight: it starts an execution and
    owns it.  The second arrives, in whatever state the server then is,
    while that execution is still in flight and finds no fresh cache
    entry: it starts nothing and awaits the same task.  When the task
    gives a result, the owner returns it annotated "false"/"none", the
    other caller returns it annotated "true"/"in-flight", and both carry
    the artifact paths of that one result. *)
Theorem concurrent_calls_share_one_execution
    (environ1 environ2 : gmap string string) (now1 now2 : Q) (r1 r2 : request)
    (s0 s1' : State) :
  let request_key := _request_key (asx_code r1) (recipient r1) (send_email r1) in
  let first := begin environ1 now1 r1 s0 in
  let second := begin environ2 now2 r2 s1' in
  let window1 := _dedupe_window_seconds environ1 in
  let window2 := _dedupe_window_seconds environ2 in
  _request_key (asx_code r2) (recipient r2) (send_email r2) = request_key ->
  fresh_entry now1 window1 (_RECENT_RESULTS s0 !! request_key) = None ->
  fresh_entry now1 (_error_dedupe_window_seconds environ1)
              (_RECENT_ERRORS s0 !! request_key) = None ->
  _IN_FLIGHT s0 !! request_key = None ->
  _IN_FLIGHT s1' !! request_key = _IN_FLIGHT (snd first) !! request_key ->
  fresh_entry now2 window2 (_RECENT_RESULTS s1' !! request_key) = None ->
  fresh_entry now2 (_error_dedupe_window_seconds environ2)
              (_RECENT_ERRORS s1' !! request_key) = None ->
  exists running,
    let owner := Frame request_key window1 running true in
    let attached := Frame request_key window2 running false in
    fst first = Awaiting owner
    /\ tasks (snd first) = (tasks s0 ++ [r1])%list
    /\ fst second = Awaiting attached
    /\ tasks (snd second) = tasks s1'
    /\ _IN_FLIGHT (snd second) = _IN_FLIGHT s1'
    /\ forall (result : gmap string string) (clock clock' : Q) (s s' : State),
         fst (resume owner (Ok result) clock s)
         = Returned (annotated result "false" "none" window1)
         /\ fst (resume attached (Ok result) clock' s')
            = Returned (annotated result "true" "in-flight" window2)
         /\ snd (resume attached (Ok result) clock' s') = s'
         /\ annotated result "true" "in-flight" window2 !! "deduplicated" = Some "true"
         /\ annotated result "true" "in-flight" window2 !! "dedupe_reason"
            = Some "in-flight"
         /\ annotated result "false" "none" window1 !! "dedupe_reason" = Some "none"
         /\ forall k, k <> "deduplicated" -> k <> "dedupe_reason" ->
                      k <> "dedupe_window_seconds" ->
                      annotated result "false" "none" window1 !! k = result !! k
                      /\ annotated result "true" "in-flight" window2 !! k = result !! k.
Proof.
  intros request_key first second window1 window2 Hkey H1 H2 Hidle Hflight H3 H4.
  assert (first = register r1 request_key window1
                    (_prune_cache now1 window1 (_error_dedupe_window_seconds environ1) s0))
    as Efirst.
  { unfold first. rewrite begin_unfold. cbv zeta. fold request_key window1.
    now rewrite H1, H2. }
  destruct (register_starts r1 request_key window1
              (_prune_cache now1 window1 (_error_dedupe_window_seconds environ1) s0) Hidle)
    as (F1 & F2 & F3 & _).
  rewrite <- Efirst in F1, F2, F3. simpl in F1, F2, F3.
  rewrite F3 in Hflight.
  assert (second = (Awaiting (Frame request_key window2 (List.length (tasks s0)) false),
                    _prune_cache now2 window2 (_error_dedupe_window_seconds environ2) s1'))
    as Esecond.
  { unfold second. rewrite begin_unfold. cbv zeta. rewrite Hkey. fold window2.
    rewrite H3, H4. now apply register_attaches. }
  exists (List.length (tasks s0)). cbv zeta. rewrite Esecond. simpl.
  repeat split; try easy.
  - apply annotated_lookup.
  - apply annotated_lookup.
  - apply annotated_lookup.
  - now apply annotated_lookup.
  - now apply annotated_lookup.
Qed.

Lemma concurrent_calls_share_one_execution_witness :
  exists running,
    fst (begin default_environ 0 bhp initial)
    = Awaiting (Frame (_request_key (asx_code bhp) (recipient bhp) (send_email bhp))
                      (_dedupe_window_seconds default_environ) running true)
    /\ fst (begin default_environ 1 bhp_again (first_call default_environ))
       = Awaiting (Frame (_request_key (asx_code bhp) (recipient bhp) (send_email bhp))
                         (_dedupe_window_seconds default_environ) running false)
    /\ tasks (snd (begin default_environ 1 bhp_again (first_call default_environ)))
       = tasks (first_call default_environ).
Proof.
  destruct (concurrent_calls_share_one_execution default_environ default_environ 0 1
              bhp bhp_again initial (first_call default_environ))
    as (running & A1 & _ & A3 & A4 & _); try reflexivity.
  exists running. now rewrite A1, A3, A4.
Defined.

(** ** The two caches *)

(** C2 fails on the code.  A success settles at time 5; at time 100 its
    window of 90 s has elapsed but twice the window has not, so the entry
    is still in the success cache, a second execution starts, and it
    fails at time 101.  The owner records the failure and leaves the
    success entry: both caches now hold the identity.  The success path
    does remove the failure entry. *)
Theorem failure_leaves_success_entry :
  fst (begin default_environ 100 bhp (after_success default_environ))
  = Awaiting second_frame
  /\ _RECENT_RESULTS success_then_failure !! bhp_key = Some (5, bhp_report)
  /\ _RECENT_ERRORS success_then_failure !! bhp_key
     = Some (101, "Chart did not render within 20000ms")
  /\ (forall k clock detail s,
        _RECENT_RESULTS (settle_failure k clock detail s) = _RECENT_RESULTS s)
  /\ (forall k clock result s,
        _RECENT_ERRORS (settle_success k clock result s) !! k = None).
Proof.
  split; [reflexivity |]. split; [reflexivity |]. split; [reflexivity |].
  split; [reflexivity |]. intros k clock result s. apply lookup_delete_eq.
Qed.

End ServerFacts.

(* ===================================================================== *)
(** * The stages that act on the machine                                  *)
(* ===================================================================== *)

Module PipelineFacts.

Import Pipeline.

Section WithHost.

Context {W : Type} {host : Host W}.

(** ** Sequencing *)

Lemma bind_Ok {A B : Type} (c : M W A) (k : A -> M W B) (st st' : state W) (a : A) :
  c st = (Ok a, st') -> bind c k st = k a st'.
Proof. intros E. unfold bind. now rewrite E. Qed.

Lemma bind_Raise {A B : Type} (c : M W A) (k : A -> M W B) (st st' : state W) (e : exn) :
  c st = (Raise e, st') -> bind c k st = (Raise e, st').
Proof. intros E. unfold bind. now rewrite E. Qed.

Lemma bind_ask {A B : Type} (f : W -> A) (k : A -> M W B) (st : state W) :
  bind (ask f) k st = k (f (world st)) st.
Proof. reflexivity. Qed.


(** ** Output location *)

(** The probe answers, and answers [True] exactly when the directory
    could be made and the probe file written and removed. *)
Lemma _can_write_directory_spec (candidate : string) (st : state W) :
  let probe := path_join candidate ".asx-write-probe" in
  let made := path_mkdir candidate (world st) in
  let written := path_write_text probe "ok" (snd made) in
  let removed := path_unlink probe (snd written) in
  exists st',
    _can_write_directory candidate st
    = (Ok (match fst made, fst written, fst removed with
           | Done _, Done _, Done _ => true
           | _, _, _ => false
           end), st')
    /\ log st' = log st.
Proof.
  unfold _can_write_directory, bind, attempt, act. simpl.
  destruct (path_mkdir candidate (world st)) as [[[]|e1] w1]; simpl; [| eauto].
  destruct (path_write_text _ "ok" w1) as [[[]|e2] w2]; simpl; [| eauto].
  destruct (path_unlink _ w2) as [[[]|e3] w3]; simpl; eauto.
Qed.

Lemma first_writable_spec (candidates : list string) (st : state W) :
  match first_writable candidates st with
  | (Ok (Some chosen), st') =>
      exists before after st1,
        candidates = (before ++ chosen :: after)%list
        /\ probes_fail before st st1
        /\ _can_write_directory chosen st1 = (Ok true, st')
  | (Ok None, st') => probes_fail candidates st st'
  | (Raise _, _) => False
  end.
Proof.
  revert st. induction candidates as [|c more IH]; intros st; simpl; [reflexivity |].
  pose proof (_can_write_directory_spec c st) as (s1' & E & _). cbv zeta in E.
  unfold bind.
  destruct (_can_write_directory c st) as [[[|]|e] s1] eqn:E'; [| | discriminate E].
  - exists [], more, st. easy.
  - specialize (IH s1). unfold ret in *.
    destruct (first_writable more s1) as [[[chosen|]|e] st']; [| | easy].
    + destruct IH as (before & after & st1 & -> & Hfail & Hok).
      exists (c :: before), after, st1. simpl. repeat split; [| exact Hok].
      exists s1. easy.
    + exists s1. easy.
Qed.

(** The loop over the candidates keeps exactly the first candidate of
    each resolved form, in the order of the candidates. *)
Lemma unique_by_first (key : string -> string) (candidates : list string) :
  forall (seen : gset string) (u : string),
    In u (unique_by key seen candidates)
    <-> exists before after,
          candidates = (before ++ u :: after)%list
          /\ (key u ∉ seen)
          /\ forall c, In c before -> key c <> key u.
Proof.
  induction candidates as [|c more IH]; intros seen u; simpl.
  - split; [easy |]. now intros ([|? ?] & after & ? & _).
  - destruct (decide (key c ∈ seen)) as [Hseen|Hnew].
    + rewrite IH. split.
      * intros (before & after & -> & Hu & Hfirst).
        exists (c :: before), after. repeat split; [exact Hu |].
        intros c' [<-|Hc']; [congruence | now apply Hfirst].
      * intros ([|c' before] & after & E & Hu & Hfirst);
          injection E as <- ->; [easy |].
        exists before, after. repeat split; [exact Hu |].
        intros c' Hc'. apply Hfirst. now right.
    + simpl. rewrite IH. split.
      * intros [<-|(before & after & -> & Hu & Hfirst)].
        -- now exists [], more.
        -- apply not_elem_of_union in Hu as [Hc%not_elem_of_singleton Hu].
           exists (c :: before), after. repeat split; [exact Hu |].
           intros c' [<-|Hc']; [congruence | now apply Hfirst].
      * intros ([|c' before] & after & E & Hu & Hfirst);
          injection E as <- ->; [now left |].
        right. exists before, after. repeat split.
        -- apply not_elem_of_union. split; [| exact Hu].
           apply not_elem_of_singleton. intros E. symmetry in E. revert E.
           apply Hfirst. now left.
        -- intros c' Hc'. apply Hfirst. now right.
Qed.

Lemma unique_by_sublist (key : string -> string) (candidates : list string) :
  forall seen : gset string, sublist (unique_by key seen candidates) candidates.
Proof.
  induction candidates as [|c more IH]; intros seen; simpl; [constructor |].
  destruct (decide _); [apply sublist_cons | apply sublist_skip]; apply IH.
Qed.

Lemma bind_ask_res {A B : Type} (f : W -> answer A) (k : A -> M W B) (st : state W) :
  bind (ask_res f) k st
  = match f (world st) with
    | Done a => k a st
    | Failed msg => (Raise (OtherError msg), st)
    end.
Proof. unfold bind, ask_res. now destruct (f (world st)). Qed.

(** The loop over the candidates resolves every candidate in turn: it
    raises what the first [resolve] that raises does, and else keeps the
    first candidate of each resolved form. *)
Lemma unique_candidates_from_spec (candidates : list string) :
  forall (seen : gset string) (st : state W),
    unique_candidates_from seen candidates st
    = match first_return (path_resolve_error (world st)) candidates with
      | Some msg => (Raise (OtherError msg), st)
      | None => (Ok (unique_by (path_resolve (world st)) seen candidates), st)
      end.
Proof.
  induction candidates as [|c more IH]; intros seen st; simpl; [reflexivity |].
  unfold bind at 1, resolve.
  destruct (path_resolve_error (world st) c) as [msg|]; [reflexivity |].
  destruct (decide (path_resolve (world st) c ∈ seen)); [apply IH |].
  unfold bind. rewrite IH. now destruct (first_return _ more).
Qed.

(** C8, amended.  [_resolve_output_dir] expands the requested path, or
    [output] when the request is blank, asks for the home directory and
    resolves, in this order, the requested path (unless it is blank or a
    placeholder), then [output], then the folder on the user's desktop,
    then the folder under [/tmp]; the first of these steps that raises
    ends the call with its exception, and nothing is probed.  When none
    raises, it keeps of the candidates with the same resolved form the
    first; it returns the first kept candidate whose probe (make the
    directory, write the probe file, remove it) succeeds, after the
    probes of all candidates before it failed; and when every probe
    fails it raises an error whose message lists every kept
    candidate. *)
Theorem _resolve_output_dir_spec (output_dir : string) (st : state W) :
  let w := world st in
  let requested_raw := Py.strip output_dir in
  let wanted := path_of (if Py.truthy requested_raw then requested_raw else "output") in
  (forall p, In p OUTPUT_DIR_PLACEHOLDERS -> _is_placeholder_output_dir p = true)
  /\ (forall candidate s,
        fst (_can_write_directory candidate s) = Ok true
        <-> let probe := path_join candidate ".asx-write-probe" in
            let made := path_mkdir candidate (world s) in
            let written := path_write_text probe "ok" (snd made) in
            let removed := path_unlink probe (snd written) in
            fst made = Done tt /\ fst written = Done tt /\ fst removed = Done tt)
  /\ match path_expanduser w wanted, path_home w with
     | Failed msg, _ =>
         _resolve_output_dir output_dir st = (Raise (OtherError msg), st)
     | Done _, Failed msg =>
         _resolve_output_dir output_dir st = (Raise (OtherError msg), st)
     | Done requested, Done home =>
         let defaults :=
           [path_of "output";
            path_join (path_join home "Desktop") "asx-mcp-output";
            path_join (path_of "/tmp") "asx-mcp-output"] in
         let candidates :=
           if Py.truthy requested_raw && negb (_is_placeholder_output_dir requested)
           then requested :: defaults else defaults in
         match first_return (path_resolve_error w) candidates with
         | Some msg =>
             _resolve_output_dir output_dir st = (Raise (OtherError msg), st)
         | None =>
             let unique_candidates := unique_by (path_resolve w) ∅ candidates in
             sublist unique_candidates candidates
             /\ (forall u, In u unique_candidates
                           <-> exists before after,
                                 candidates = (before ++ u :: after)%list
                                 /\ forall c, In c before ->
                                      path_resolve w c <> path_resolve w u)
             /\ match _resolve_output_dir output_dir st with
                | (Ok chosen, st') =>
                    exists before after st1,
                      unique_candidates = (before ++ chosen :: after)%list
                      /\ probes_fail before st st1
                      /\ _can_write_directory chosen st1 = (Ok true, st')
                | (Raise e, st') =>
                    e = AsxReportError ("No writable output directory available. Tried: "
                                        ++ Py.join ", " unique_candidates)
                    /\ probes_fail unique_candidates st st'
                    /\ forall u, In u unique_candidates ->
                                 Py.contains u (str_exn e) = true
                end
         end
     end.
Proof.
  intros w requested_raw wanted.
  split.
  { intros p [<-|[<-|[]]]; reflexivity. }
  split.
  { intros candidate s.
    destruct (_can_write_directory_spec candidate s) as (s' & E & _).
    cbv zeta in *. rewrite E. simpl.
    destruct (fst (path_mkdir candidate (world s))) as [[]|];
      [| split; [discriminate | now intros (? & _)]].
    destruct (fst (path_write_text _ "ok" _)) as [[]|];
      [| split; [discriminate | now intros (_ & ? & _)]].
    destruct (fst (path_unlink _ _)) as [[]|];
      [easy | split; [discriminate | now intros (_ & _ & ?)]]. }
  unfold _resolve_output_dir. fold requested_raw. fold wanted.
  rewrite bind_ask_res. fold w.
  destruct (path_expanduser w wanted) as [requested|msg].
  2: { now destruct (path_home w). }
  rewrite bind_ask_res. fold w.
  destruct (path_home w) as [home|msg]; [| reflexivity].
  cbv beta iota zeta.
  set (candidates := if _ && _ then _ else _).
  assert (output_candidates requested_raw requested home = candidates) as ->.
  { unfold candidates, output_candidates. now destruct (_ && _). }
  pose proof (unique_candidates_from_spec candidates ∅ st) as Hunique. fold w in Hunique.
  destruct (first_return (path_resolve_error w) candidates) as [msg|];
    [now rewrite (bind_Raise _ _ _ _ _ Hunique) |].
  rewrite (bind_Ok _ _ _ _ _ Hunique).
  set (unique_candidates := unique_by (path_resolve w) ∅ candidates).
  split; [apply unique_by_sublist |].
  split.
  { intros u. unfold unique_candidates. rewrite unique_by_first.
    split; intros (before & after & E & H); exists before, after.
    - easy.
    - repeat split; [exact E | apply not_elem_of_empty | exact H]. }
  unfold bind.
  pose proof (first_writable_spec unique_candidates st) as H.
  destruct (first_writable unique_candidates st) as [[[chosen|]|e] st']; [| | easy].
  - exact H.
  - split; [reflexivity |]. split; [exact H |].
    intros u Hu. unfold str_exn.
    apply PyFacts.contains_app_r. now apply PyFacts.join_contains.
Qed.

(** ** Delivery *)

(** What [send_email_with_mail_app] does: without the attachment it
    raises before anything is started; with it, [osascript] is started
    once, with the subject, the body, the recipient and the resolved
    attachment, and its failure is the failure of the call. *)
Lemma send_email_with_mail_app_spec (recipient subject body attachment : string)
    (st : state W) :
  match path_exists (world st) attachment with
  | Failed msg =>
      send_email_with_mail_app recipient subject body attachment st
      = (Raise (OtherError msg), st)
  | Done false =>
      send_email_with_mail_app recipient subject body attachment st
      = (Raise (AsxReportError ("Attachment does not exist: " ++ attachment)), st)
  | Done true =>
      let sent := Osascript subject body recipient (path_resolve (world st) attachment) in
      let outcome := fst (run_external sent (world st)) in
      send_email_with_mail_app recipient subject body attachment st
      = (lift outcome,
         State (snd (run_external sent (world st)))
               (log st ++ [(sent, failure outcome)])%list)
  end.
Proof.
  unfold send_email_with_mail_app, bind, ask_res.
  destruct (path_exists (world st) attachment) as [[|]|e]; simpl; try reflexivity.
  unfold invoke. now destruct (run_external _ _).
Qed.

(** C9.  Take a run in which the stages before delivery succeed, that
    is, one that returns a report when no delivery is requested.  The
    same run with delivery requested goes on, from the state those
    stages left, with [send_email_with_mail_app] on the recipient, the
    subject, the body and the final PDF.  The subject is the caller's
    when the caller gave one that is not empty, and else the generated
    text with the canonical code and the time read after the capture;
    so is the body.  The run returns a report only if the delivery
    returns, and raises the delivery's error otherwise: when the
    attachment is missing, and when [osascript] fails. *)
Theorem delivery_is_mandatory
    (asx_code : option string) (recipient output_dir : string)
    (email_subject email_body : option string)
    (st st1 : state W) (report : gmap string string) :
  run_asx_report asx_code recipient output_dir email_subject email_body false st
  = (Ok report, st1) ->
  exists (dir : string) (s1 s2 : state W) (capture_result : gmap string string),
    let code := normalize_asx_code asx_code in
    let slug := match code with
                | Some c => if Py.truthy c then c else "HUB"
                | None => "HUB"
                end in
    let name extension :=
      "asx-" ++ slug ++ "-" ++ now_strftime (world st) "%Y%m%d-%H%M%S" ++ extension in
    let pdf_path := path_join dir (name ".pdf") in
    let generated_at := now_strftime (world s2) "%Y-%m-%d %H:%M:%S" in
    let source_url := build_asx_url code in
    let generated_subject :=
      "Yahoo Finance Chart Report: " ++ Py.upper slug ++ " (" ++ generated_at ++ ")" in
    let generated_body :=
      "Attached is your Yahoo Finance chart report PDF." ++ String "010" (String "010" "")
      ++ "Ticker: " ++ Py.upper slug ++ ".AX" ++ String "010" ""
      ++ "Source URL: " ++ source_url ++ String "010" ""
      ++ "Generated: " ++ generated_at in
    let subject := match email_subject with
                   | Some text => if Py.truthy text then text else generated_subject
                   | None => generated_subject
                   end in
    let body := match email_body with
                | Some text => if Py.truthy text then text else generated_body
                | None => generated_body
                end in
    let delivery := send_email_with_mail_app recipient subject body pdf_path st1 in
    let with_delivery :=
      run_asx_report asx_code recipient output_dir email_subject email_body true st in
    _resolve_output_dir output_dir st = (Ok dir, s1)
    /\ capture_asx_graph source_url (path_join dir (name ".png")) s1
       = (Ok capture_result, s2)
    /\ report !! "pdf_path" = Some (path_resolve (world st1) pdf_path)
    /\ (email_subject = None -> subject = generated_subject)
    /\ (email_body = None -> body = generated_body)
    /\ Py.contains (Py.upper slug) generated_subject = true
    /\ Py.contains generated_at generated_subject = true
    /\ Py.contains (Py.upper slug) generated_body = true
    /\ Py.contains generated_at generated_body = true
    /\ snd with_delivery = snd delivery
    /\ (forall e, fst delivery = Raise e -> fst with_delivery = Raise e)
    /\ (fst delivery = Ok tt ->
        exists report', fst with_delivery = Ok report'
                        /\ report' !! "sent_email" = Some "true")
    /\ (path_exists (world st1) pdf_path = Done false ->
        fst with_delivery
        = Raise (AsxReportError ("Attachment does not exist: " ++ pdf_path)))
    /\ (path_exists (world st1) pdf_path = Done true ->
        let sent := Osascript subject body recipient (path_resolve (world st1) pdf_path) in
        let outcome := fst (run_external sent (world st1)) in
        log (snd with_delivery) = (log st1 ++ [(sent, failure outcome)])%list
        /\ forall msg, outcome = Failed msg ->
                       fst with_delivery = Raise (OtherError msg)).
Proof.
  unfold run_asx_report.
  change (or_text (normalize_asx_code asx_code) "HUB")
    with (match normalize_asx_code asx_code with
          | Some c => if Py.truthy c then c else "HUB"
          | None => "HUB"
          end).
  set (slug := match normalize_asx_code asx_code with
               | Some c => if Py.truthy c then c else "HUB"
               | None => "HUB"
               end).
  set (source_url := build_asx_url (normalize_asx_code asx_code)).
  cbv beta iota delta [bind ask ret].
  set (timestamp := now_strftime (world st) "%Y%m%d-%H%M%S").
  destruct (_resolve_output_dir output_dir st) as [[dir|e] s1] eqn:Edir; [| discriminate].
  set (image_path := path_join dir _). set (docx_path := path_join dir _).
  set (pdf_path := path_join dir _).
  destruct (capture_asx_graph source_url image_path s1) as [[capture_result|e] s2]
    eqn:Ecapture; [| discriminate].
  set (generated_at := now_strftime (world s2) "%Y-%m-%d %H:%M:%S").
  change (or_text email_subject (default_subject slug generated_at))
    with (match email_subject with
          | Some text =>
              if Py.truthy text then text
              else "Yahoo Finance Chart Report: " ++ Py.upper slug
                   ++ " (" ++ generated_at ++ ")"
          | None => "Yahoo Finance Chart Report: " ++ Py.upper slug
                    ++ " (" ++ generated_at ++ ")"
          end).
  set (generated_subject :=
         "Yahoo Finance Chart Report: " ++ Py.upper slug ++ " (" ++ generated_at ++ ")").
  change (or_text email_body
            (default_body (normalize_asx_code asx_code) source_url generated_at))
    with (match email_body with
          | Some text =>
              if Py.truthy text then text
              else default_body (normalize_asx_code asx_code) source_url generated_at
          | None => default_body (normalize_asx_code asx_code) source_url generated_at
          end).
  change (default_body (normalize_asx_code asx_code) source_url generated_at)
    with ("Attached is your Yahoo Finance chart report PDF."
          ++ String "010" (String "010" "")
          ++ "Ticker: " ++ Py.upper slug ++ ".AX" ++ String "010" ""
          ++ "Source URL: " ++ source_url ++ String "010" ""
          ++ "Generated: " ++ generated_at).
  set (generated_body :=
         "Attached is your Yahoo Finance chart report PDF."
         ++ String "010" (String "010" "")
         ++ "Ticker: " ++ Py.upper slug ++ ".AX" ++ String "010" ""
         ++ "Source URL: " ++ source_url ++ String "010" ""
         ++ "Generated: " ++ generated_at).
  set (subject := match email_subject with Some _ => _ | None => _ end).
  set (body := match email_body with Some _ => _ | None => _ end).
  destruct (create_word_report subject source_url image_path docx_path s2)
    as [[docx|e] s3]; [| discriminate].
  destruct (convert_docx_to_pdf docx_path pdf_path s3) as [[pdf|e] s4]; [| discriminate].
  destruct (capture_result !! "capture_selector") as [selector|]; [| discriminate].
  intros [= <- <-]. exists dir, s1, s2, capture_result.
  cbv beta zeta. fold timestamp. fold image_path pdf_path. fold generated_at.
  fold generated_subject generated_body. fold subject body.
  pose proof (send_email_with_mail_app_spec recipient subject body pdf_path s4) as Hsend.
  split; [reflexivity |]. split; [exact Ecapture |]. split; [reflexivity |].
  split; [now intros -> |]. split; [now intros -> |].
  split; [apply PyFacts.contains_middle |].
  split.
  { unfold generated_subject. do 3 apply PyFacts.contains_app_r.
    apply PyFacts.contains_app_l, PyFacts.contains_refl. }
  split.
  { unfold generated_body. do 3 apply PyFacts.contains_app_r.
    apply PyFacts.contains_app_l, PyFacts.contains_refl. }
  split.
  { unfold generated_body. do 10 apply PyFacts.contains_app_r.
    apply PyFacts.contains_refl. }
  clearbody subject body.
  destruct (send_email_with_mail_app recipient subject body pdf_path s4)
    as [[[]|e] s5] eqn:Edelivery; simpl.
  - split; [reflexivity |]. split; [discriminate |].
    split; [intros _; eexists; split; reflexivity |].
    destruct (path_exists (world s4) pdf_path) as [[|]|e']; try discriminate Hsend.
    split; [discriminate |]. intros _. injection Hsend as Hout ->. simpl.
    split; [reflexivity |]. intros e He. rewrite He in Hout. discriminate.
  - split; [reflexivity |]. split; [now intros e' [= ->] |].
    split; [discriminate |].
    destruct (path_exists (world s4) pdf_path) as [[|]|e']; try discriminate Hsend.
    + split; [discriminate |]. intros _. injection Hsend as Hout ->. simpl.
      split; [reflexivity |]. intros e' He. rewrite He in Hout. now injection Hout as ->.
    + split; [| discriminate]. intros _. now injection Hsend as ->.
    + split; discriminate.
Qed.

(** ** Programs that start nothing *)

Lemma quiet_ret {A : Type} (a : A) : quiet (ret a : M W A).
Proof. now intros st. Qed.

Lemma quiet_raise {A : Type} (e : exn) : quiet (raise e : M W A).
Proof. now intros st. Qed.

Lemma quiet_ask {A : Type} (f : W -> A) : quiet (ask f).
Proof. now intros st. Qed.

Lemma quiet_ask_res {A : Type} (f : W -> answer A) : quiet (ask_res f).
Proof. now intros st. Qed.

Lemma quiet_act {A : Type} (f : W -> answer A * W) : quiet (act f).
Proof. intros st. unfold act. now destruct (f (world st)). Qed.

Lemma quiet_bind {A B : Type} (c : M W A) (k : A -> M W B) :
  quiet c -> (forall a, quiet (k a)) -> quiet (bind c k).
Proof.
  intros Hc Hk st. unfold bind. specialize (Hc st).
  destruct (c st) as [[a|e] st']; simpl in *; [| exact Hc].
  now rewrite Hk.
Qed.

Lemma quiet_attempt {A : Type} (c : M W A) : quiet c -> quiet (attempt c).
Proof.
  intros Hc st. unfold attempt. specialize (Hc st). now destruct (c st).
Qed.

Lemma quiet_if {A : Type} (b : bool) (c1 c2 : M W A) :
  quiet c1 -> quiet c2 -> quiet (if b then c1 else c2).
Proof. now destruct b. Qed.

Ltac quiet :=
  repeat first
    [ apply quiet_ret | apply quiet_raise | apply quiet_ask | apply quiet_ask_res
    | apply quiet_act | apply quiet_attempt | apply quiet_if
    | apply quiet_bind; [| intros ?] ].

Lemma quiet_present_and_non_empty (path : string) :
  quiet (present_and_non_empty path).
Proof. unfold present_and_non_empty. quiet. Qed.

(** [output_ready] answers and changes nothing. *)
Lemma output_ready_pure (output_pdf : string) (st : state W) :
  exists b, output_ready output_pdf st = (Ok b, st).
Proof.
  unfold output_ready, present_and_non_empty, bind, attempt, ask_res, ret.
  destruct (path_exists (world st) output_pdf) as [[|]|]; simpl; eauto.
  destruct (path_stat_size (world st) output_pdf); simpl; eauto.
Qed.

(** ** Recording *)











(** ** Programs that raise only what the operating system raises *)

Lemma os_only_ret {A : Type} (a : A) : os_only (ret a : M W A).
Proof. now intros st e. Qed.

Lemma os_only_ask {A : Type} (f : W -> A) : os_only (ask f).
Proof. now intros st e. Qed.

Lemma os_only_ask_res {A : Type} (f : W -> answer A) : os_only (ask_res f).
Proof.
  intros st e. unfold ask_res. simpl.
  destruct (f (world st)) as [a|msg]; [easy |]. intros [= <-]. eauto.
Qed.

Lemma os_only_act {A : Type} (f : W -> answer A * W) : os_only (act f).
Proof.
  intros st e. unfold act. destruct (f (world st)) as [[a|msg] w]; [easy |].
  intros [= <-]. eauto.
Qed.

Lemma os_only_bind {A B : Type} (c : M W A) (k : A -> M W B) :
  os_only c -> (forall a, os_only (k a)) -> os_only (bind c k).
Proof.
  intros Hc Hk st e. unfold bind. specialize (Hc st).
  destruct (c st) as [[a|e'] st']; simpl in *; [apply Hk |].
  intros [= <-]. now apply Hc.
Qed.

Lemma os_only_if {A : Type} (b : bool) (c1 c2 : M W A) :
  os_only c1 -> os_only c2 -> os_only (if b then c1 else c2).
Proof. now destruct b. Qed.

(** ** LibreOffice *)

Lemma first_executable_pure (candidates : list string) (st : state W) :
  snd (first_executable candidates st) = st
  /\ forall e, fst (first_executable candidates st) = Raise e ->
               exists msg, e = OtherError msg.
Proof.
  induction candidates as [|c more IH]; simpl; [easy |].
  unfold bind, ask_res, ask. simpl.
  destruct (path_exists (world st) (path_of c)) as [found|msg]; simpl;
    [| split; [easy | intros e [= <-]; eauto]].
  destruct (found && os_access_x (world st) (path_of c)); [easy | exact IH].
Qed.

(** Looking for the binary changes nothing, and raises only what
    [Path.home] or [exists] raises. *)
Lemma _resolve_libreoffice_binary_pure (st : state W) :
  snd (_resolve_libreoffice_binary st) = st
  /\ forall e, fst (_resolve_libreoffice_binary st) = Raise e ->
               exists msg, e = OtherError msg.
Proof.
  unfold _resolve_libreoffice_binary. rewrite bind_ask.
  destruct (first_return _ _); [easy |]. rewrite bind_ask_res.
  destruct (path_home (world st)) as [home|msg].
  - apply first_executable_pure.
  - split; [reflexivity |]. intros e [= <-]. eauto.
Qed.

(** Without the binary, the failure is returned and nothing is started
    or changed. *)
Lemma libreoffice_binary_missing (input_docx output_pdf : string) (timeout : Z)
    (st : state W) :
  fst (_resolve_libreoffice_binary st) = Ok None ->
  _convert_docx_to_pdf_with_libreoffice input_docx output_pdf timeout st
  = (Ok (Some "LibreOffice binary not found"), st).
Proof.
  intros E. unfold _convert_docx_to_pdf_with_libreoffice, bind.
  destruct (_resolve_libreoffice_binary_pure st) as [Hst _].
  destruct (_resolve_libreoffice_binary st) as [r st']. simpl in *. now subst.
Qed.





(** ** docx2pdf *)

Lemma act_spec {A : Type} (f : W -> answer A * W) (st : state W) :
  exists r st', act f st = (r, st') /\ log st' = log st
                /\ forall e, r = Raise e -> exists msg, e = OtherError msg.
Proof.
  unfold act. destruct (f (world st)) as [[a|msg] w]; simpl.
  - exists (Ok a), (State w (log st)). easy.
  - exists (Raise (OtherError msg)), (State w (log st)).
    repeat split. intros e [= <-]. eauto.
Qed.




(** ** The whole conversion *)

Lemma bind_bind {A B C : Type} (c : M W A) (k1 : A -> M W B) (k2 : B -> M W C)
    (st : state W) :
  bind (bind c k1) k2 st = bind c (fun a => bind (k1 a) k2) st.
Proof. unfold bind. destruct (c st) as [[a|e] st']; reflexivity. Qed.

Lemma _safe_int_env_pure (name : string) (default_ minimum : Z) (st : state W) :
  exists n, _safe_int_env name default_ minimum st = (Ok n, st).
Proof.
  unfold _safe_int_env. rewrite bind_ask.
  destruct (os_getenv (world st) name) as [raw|]; [| now eexists].
  destruct (Py.int (Py.strip raw)); now eexists.
Qed.



End WithHost.

(** ** Runs on a machine *)

Import Examples.


(** C8, as stated, fails for a requested path that [expanduser] cannot
    expand: the user [nosuchuser] is not known, the call ends with the
    exception of [expanduser], which lists no candidate, and it returns
    no directory although [output], the next candidate of the claim,
    can be written. *)
Lemma unknown_user_is_not_resolved :
  _resolve_output_dir "~nosuchuser/reports" desk
  = (Raise (OtherError "Could not determine home directory."), desk)
  /\ fst (_can_write_directory "output" desk) = Ok true
  /\ Py.contains "output" "Could not determine home directory." = false.
Proof. repeat split; vm_compute; reflexivity. Qed.

(** The run for BHP on the desk returns. *)
Lemma desk_run_returns : returned (fst desk_run) = true.
Proof. vm_compute. reflexivity. Qed.

(** The run for BHP on the desk, without delivery, is one to which C9
    applies. *)
Lemma delivery_is_mandatory_witness :
  run_asx_report (Some "BHP") "ops@example.com" "output" None None false desk
  = (Ok desk_report, snd desk_run)
  /\ exists pdf_path : string,
       desk_report !! "pdf_path" = Some (path_resolve (world (snd desk_run)) pdf_path).
Proof.
  assert (run_asx_report (Some "BHP") "ops@example.com" "output" None None false desk
          = (Ok desk_report, snd desk_run)) as H.
  { change (desk_run = (Ok desk_report, snd desk_run)).
    pose proof desk_run_returns as Hr. unfold desk_report.
    destruct desk_run as [[report|e] st']; [reflexivity | discriminate Hr]. }
  split; [exact H |].
  destruct (delivery_is_mandatory _ _ _ _ _ _ _ _ H)
    as (dir & s1 & s2 & capture_result & _ & _ & Hpdf & _).
  eexists. exact Hpdf.
Defined.

End PipelineFacts.

(* ===================================================================== *)
(** * More on Python's [str]                                              *)
(* ===================================================================== *)

Module PyExtras.

Import Py PyFacts.

#[local] Arguments String.append !_ _ : simpl nomatch.

Ltac by_cases_on_ascii c :=
  destruct c as [[] [] [] [] [] [] [] []]; vm_compute; congruence.

(** ** Concatenation *)

Lemma app_inv_tail_str (a b c : string) : (a ++ c = b ++ c)%string -> a = b.
Proof.
  revert b. induction a as [|x a IH]; intros [|y b] E; simpl in *.
  - reflexivity.
  - apply (f_equal String.length) in E. simpl in E. rewrite length_app in E. lia.
  - apply (f_equal String.length) in E. simpl in E. rewrite length_app in E. lia.
  - injection E as <- E. now rewrite (IH b E).
Qed.

Lemma map_str_app (f : ascii -> ascii) (a b : string) :
  map_str f (a ++ b) = map_str f a ++ map_str f b.
Proof. induction a as [|c a IH]; simpl; [reflexivity | now rewrite IH]. Qed.

Lemma truthy_length (s : string) : truthy s = true <-> 1 <= String.length s.
Proof. destruct s; simpl; split; intros; try easy; lia. Qed.

Lemma filter_str_id (p : ascii -> bool) (s : string) :
  all_str p s = true -> filter_str p s = s.
Proof.
  induction s as [|c s IH]; simpl; [reflexivity |].
  intros [-> Hs]%andb_true_iff. now rewrite IH.
Qed.

Lemma partition_absent (sep : ascii) (s : string) :
  mem_char sep s = false -> partition sep s = (s, false, "").
Proof.
  induction s as [|c s IH]; simpl; [reflexivity |].
  intros [Hc Hs]%orb_false_iff. rewrite Ascii.eqb_sym, Hc. now rewrite (IH Hs).
Qed.

Lemma contains_char_absent (c : ascii) (s : string) :
  mem_char c s = false -> contains (String c "") s = false.
Proof.
  induction s as [|d s IH]; simpl; [reflexivity |].
  intros [Hc Hs]%orb_false_iff. now rewrite Hc, (IH Hs).
Qed.

Lemma mem_char_all_str (c : ascii) (s : string) :
  mem_char c s = false <-> all_str (fun d => negb (Ascii.eqb c d)) s = true.
Proof.
  induction s as [|d s IH]; simpl; [easy |].
  rewrite orb_false_iff, andb_true_iff, negb_true_iff. now rewrite IH.
Qed.

Lemma split_app_sep (sep : ascii) (a b : string) :
  mem_char sep a = false -> split sep (a ++ String sep b) = a :: split sep b.
Proof.
  induction a as [|c a IH]; simpl.
  - now rewrite Ascii.eqb_refl.
  - intros [Hc Ha]%orb_false_iff. rewrite Ascii.eqb_sym, Hc. now rewrite (IH Ha).
Qed.

Lemma drop_app_length (a b : string) : drop (String.length a) (a ++ b) = b.
Proof. induction a as [|c a IH]; simpl; [reflexivity | exact IH]. Qed.

Lemma endswith_app (a suffix : string) : endswith suffix (a ++ suffix) = true.
Proof.
  unfold endswith. rewrite length_app.
  replace (String.length a + String.length suffix - String.length suffix)
    with (String.length a) by lia.
  rewrite drop_app_length, String.eqb_refl, andb_true_r.
  apply Nat.leb_le. lia.
Qed.

Lemma take_drop (n : nat) (s : string) : take n s ++ drop n s = s.
Proof.
  revert n. induction s as [|c s IH]; intros [|n]; simpl; try reflexivity.
  now rewrite IH.
Qed.

(** [s.endswith(p)] says that [s] is some text followed by [p]. *)
Lemma endswith_spec (p s : string) :
  endswith p s = true <-> exists a, s = a ++ p.
Proof.
  split.
  - unfold endswith. intros [_ E%String.eqb_eq]%andb_true_iff.
    exists (take (String.length s - String.length p) s).
    rewrite <- E at 2. apply eq_sym, take_drop.
  - intros [a ->]. apply endswith_app.
Qed.

Lemma rstrip_by_snoc (p : ascii -> bool) (a : string) (c : ascii) :
  p c = false -> rstrip_by p (a ++ String c "") = a ++ String c "".
Proof.
  intros Hc. induction a as [|x a IH]; simpl; [now rewrite Hc |].
  rewrite IH. now destruct a.
Qed.

(** A replacement whose first character does not occur replaces
    nothing. *)
Lemma replace_absent (c : ascii) (old new s : string) :
  mem_char c s = false -> replace (String c old) new s = s.
Proof.
  unfold replace. induction s as [|d s IH]; simpl; [reflexivity |].
  intros [Hc Hs]%orb_false_iff. rewrite Hc. simpl. now rewrite (IH Hs).
Qed.

(** ** Case *)

Lemma lower_char_lower_char (c : ascii) : lower_char (lower_char c) = lower_char c.
Proof. by_cases_on_ascii c. Qed.

Lemma lower_char_upper_char (c : ascii) : lower_char (upper_char c) = lower_char c.
Proof. by_cases_on_ascii c. Qed.

Lemma is_space_lower_char (c : ascii) : is_space (lower_char c) = is_space c.
Proof. by_cases_on_ascii c. Qed.

Lemma is_space_upper_char (c : ascii) : is_space (upper_char c) = is_space c.
Proof. by_cases_on_ascii c. Qed.

Lemma map_str_map_str (f g : ascii -> ascii) (s : string) :
  map_str f (map_str g s) = map_str (fun c => f (g c)) s.
Proof. induction s as [|c s IH]; simpl; [reflexivity | now rewrite IH]. Qed.

Lemma map_str_ext (f g : ascii -> ascii) (s : string) :
  (forall c, f c = g c) -> map_str f s = map_str g s.
Proof. intros H. induction s as [|c s IH]; simpl; [reflexivity | now rewrite H, IH]. Qed.

Lemma lower_lower (s : string) : lower (lower s) = lower s.
Proof.
  unfold lower. rewrite map_str_map_str. apply map_str_ext, lower_char_lower_char.
Qed.

Lemma lower_upper (s : string) : lower (upper s) = lower s.
Proof.
  unfold lower, upper. rewrite map_str_map_str. apply map_str_ext, lower_char_upper_char.
Qed.

Lemma map_str_empty (f : ascii -> ascii) (s : string) :
  map_str f s = "" <-> s = "".
Proof. now destruct s. Qed.

(** ** Stripping *)

Lemma lstrip_by_map (p : ascii -> bool) (f : ascii -> ascii) (s : string) :
  (forall c, p (f c) = p c) ->
  lstrip_by p (map_str f s) = map_str f (lstrip_by p s).
Proof.
  intros H. induction s as [|c s IH]; simpl; [reflexivity |].
  rewrite H. now destruct (p c).
Qed.

Lemma rstrip_by_map (p : ascii -> bool) (f : ascii -> ascii) (s : string) :
  (forall c, p (f c) = p c) ->
  rstrip_by p (map_str f s) = map_str f (rstrip_by p s).
Proof.
  intros H. induction s as [|c s IH]; simpl; [reflexivity |].
  rewrite IH, H. destruct (rstrip_by p s) as [|d r]; simpl; [| reflexivity].
  now destruct (p c).
Qed.

Lemma strip_by_map (p : ascii -> bool) (f : ascii -> ascii) (s : string) :
  (forall c, p (f c) = p c) ->
  strip_by p (map_str f s) = map_str f (strip_by p s).
Proof.
  intros H. unfold strip_by. now rewrite lstrip_by_map, rstrip_by_map.
Qed.

Lemma strip_lower (s : string) : strip (lower s) = lower (strip s).
Proof. apply strip_by_map, is_space_lower_char. Qed.

Lemma strip_upper (s : string) : strip (upper s) = upper (strip s).
Proof. apply strip_by_map, is_space_upper_char. Qed.

Lemma rstrip_by_cons (p : ascii -> bool) (c : ascii) (t : string) :
  rstrip_by p (String c t)
  = match rstrip_by p t with
    | EmptyString => if p c then EmptyString else String c EmptyString
    | r => String c r
    end.
Proof. reflexivity. Qed.

Lemma rstrip_by_idem (p : ascii -> bool) (s : string) :
  rstrip_by p (rstrip_by p s) = rstrip_by p s.
Proof.
  induction s as [|c s IH]; [reflexivity |].
  rewrite rstrip_by_cons. destruct (rstrip_by p s) as [|d r] eqn:E.
  - destruct (p c) eqn:Hc; [reflexivity |]. rewrite rstrip_by_cons. simpl. now rewrite Hc.
  - rewrite rstrip_by_cons, IH. reflexivity.
Qed.

(** What is left of [lstrip] is empty or starts with a character that
    stays. *)
Lemma lstrip_by_head (p : ascii -> bool) (s : string) :
  lstrip_by p s = "" \/ exists c t, lstrip_by p s = String c t /\ p c = false.
Proof.
  induction s as [|c s IH]; simpl; [now left |].
  destruct (p c) eqn:Hc; [exact IH |]. right. now exists c, s.
Qed.

Lemma rstrip_by_head (p : ascii -> bool) (c : ascii) (t : string) :
  p c = false -> exists r, rstrip_by p (String c t) = String c r.
Proof.
  intros Hc. simpl. destruct (rstrip_by p t); [rewrite Hc |]; now eexists.
Qed.

Lemma strip_by_idem (p : ascii -> bool) (s : string) :
  strip_by p (strip_by p s) = strip_by p s.
Proof.
  unfold strip_by.
  assert (lstrip_by p (rstrip_by p (lstrip_by p s)) = rstrip_by p (lstrip_by p s)) as ->.
  { destruct (lstrip_by_head p s) as [->|(c & t & -> & Hc)]; [reflexivity |].
    destruct (rstrip_by_head p c t Hc) as [r ->]. simpl. now rewrite Hc. }
  apply rstrip_by_idem.
Qed.

Lemma lstrip_by_all (p : ascii -> bool) (s : string) :
  all_str p s = true -> lstrip_by p s = "".
Proof.
  induction s as [|c s IH]; simpl; [reflexivity |].
  intros [-> Hs]%andb_true_iff. now apply IH.
Qed.

Lemma rstrip_by_all (p : ascii -> bool) (s : string) :
  all_str p s = true -> rstrip_by p s = "".
Proof.
  induction s as [|c s IH]; simpl; [reflexivity |].
  intros [-> Hs]%andb_true_iff. now rewrite (IH Hs).
Qed.

(** A blank text strips to nothing. *)
Lemma strip_blank (s : string) : all_str is_space s = true -> strip s = "".
Proof. intros H. unfold strip, strip_by. now rewrite (lstrip_by_all _ _ H). Qed.

Lemma lstrip_by_app_all (p : ascii -> bool) (ws s : string) :
  all_str p ws = true -> lstrip_by p (ws ++ s) = lstrip_by p s.
Proof.
  induction ws as [|c ws IH]; simpl; [reflexivity |].
  intros [-> Hs]%andb_true_iff. now apply IH.
Qed.

Lemma rstrip_by_app_all (p : ascii -> bool) (s ws : string) :
  all_str p ws = true -> rstrip_by p (s ++ ws) = rstrip_by p s.
Proof.
  intros H. induction s as [|c s IH]; simpl; [now apply rstrip_by_all |].
  now rewrite IH.
Qed.

Lemma lstrip_by_app_r (p : ascii -> bool) (s ws : string) :
  all_str p ws = true ->
  rstrip_by p (lstrip_by p (s ++ ws)) = rstrip_by p (lstrip_by p s).
Proof.
  intros H. induction s as [|c s IH]; simpl.
  - now rewrite (lstrip_by_all _ _ H).
  - destruct (p c); [exact IH |].
    change (String c (s ++ ws)) with (String c s ++ ws).
    now apply rstrip_by_app_all.
Qed.

(** Blanks around a text do not survive [strip]. *)
Lemma strip_padded (ws s ws' : string) :
  all_str is_space ws = true -> all_str is_space ws' = true ->
  strip (ws ++ s ++ ws') = strip s.
Proof.
  intros H H'. unfold strip, strip_by.
  rewrite (lstrip_by_app_all _ _ _ H). now apply lstrip_by_app_r.
Qed.

(** Replacing one character by another maps over the text. *)
Lemma replace_char (c d : ascii) (s : string) :
  replace (String c "") (String d "") s
  = map_str (fun x => if Ascii.eqb c x then d else x) s.
Proof.
  unfold replace. induction s as [|x s IH]; simpl; [reflexivity |].
  destruct (Ascii.eqb c x); simpl; now rewrite IH.
Qed.

Lemma rstrip_by_none (p : ascii -> bool) (s : string) :
  all_str (fun c => negb (p c)) s = true -> rstrip_by p s = s.
Proof.
  induction s as [|c s IH]; [reflexivity |].
  intros [Hc Hs]%andb_true_iff. rewrite rstrip_by_cons, (IH Hs).
  apply negb_true_iff in Hc. rewrite Hc. now destruct s.
Qed.

Lemma rstrip_by_app_none (p : ascii -> bool) (a t : string) :
  t <> "" -> all_str (fun c => negb (p c)) t = true ->
  rstrip_by p (a ++ t) = a ++ t.
Proof.
  intros Ht H. induction a as [|c a IH]; [now apply rstrip_by_none |].
  change (String c a ++ t) with (String c (a ++ t)).
  rewrite rstrip_by_cons, IH.
  destruct (a ++ t) eqn:E; [| reflexivity].
  destruct a; [now destruct Ht | discriminate E].
Qed.

(** A text that stripping leaves alone stays so when characters that are
    not stripped are added at its end. *)
Lemma strip_by_app_none (p : ascii -> bool) (s t : string) :
  strip_by p s = s -> all_str (fun c => negb (p c)) t = true ->
  strip_by p (s ++ t) = s ++ t.
Proof.
  unfold strip_by. intros Hs Ht.
  destruct t as [|d t]; [now rewrite PyFacts.app_empty_r |].
  assert (lstrip_by p (s ++ String d t) = s ++ String d t) as ->.
  { destruct s as [|c s]; simpl.
    - apply andb_true_iff in Ht as [Hd _]. apply negb_true_iff in Hd. now rewrite Hd.
    - destruct (lstrip_by_head p (String c s)) as [E|(c' & r & E & Hc')].
      + rewrite E in Hs. discriminate Hs.
      + rewrite E in Hs. destruct (rstrip_by_head p c' r Hc') as [r' Hr'].
        rewrite Hr' in Hs. injection Hs as <- _. now rewrite Hc'. }
  now apply rstrip_by_app_none.
Qed.

End PyExtras.

(* ===================================================================== *)
(** * More on the identity normalizer                                     *)
(* ===================================================================== *)

Module NormalizerExtras.

Import Py Re PyFacts PyExtras ReFacts UrlFacts Pipeline NormalizerFacts.

#[local] Arguments String.append !_ _ : simpl nomatch.

(** ** Literals *)

Lemma in_step_lit (l : string) (x q : pos) :
  In q (step (lit l) x) -> rest x = l ++ rest q /\ grp q = grp x.
Proof.
  revert x. induction l as [|c l IH]; intros x; simpl.
  - intros [<-|[]]. easy.
  - destruct l as [|d l].
    + intros (a & t & Hrest & Ha & ->)%in_step_chr. simpl.
      apply Ascii.eqb_eq in Ha as <-. easy.
    + intros (y & (a & t & Hrest & Ha & ->)%in_step_chr & Hq)%in_step_seq.
      apply Ascii.eqb_eq in Ha as <-.
      destruct (IH _ Hq) as [Hr Hg]. simpl in Hr, Hg. rewrite Hrest, Hr. easy.
Qed.

(** ** The Yahoo symbol *)

Lemma code_from_dot_ax_complete (y : string) :
  all_str upper_alnum y = true -> 1 <= String.length y <= 6 -> isdigit y = false ->
  code_from_dot_ax (y ++ ".AX") = Some y.
Proof.
  intros Hy Hlen Hd. unfold code_from_dot_ax.
  assert (exists m, fullmatch re_dot_ax (y ++ ".AX") = Some m) as [m E].
  { destruct (rep_ends_complete upper_alnum y 1 (Some 6) None ".AX" Hy)
      as [pv' Hin]; [lia | simpl; lia |].
    apply (fullmatch_is_Some _ _ (Pos (Some "X"%char) "" (Some y))); [| reflexivity].
    apply in_step_seq.
    exists (Pos pv' ".AX" (Some (consumed (y ++ ".AX") ".AX"))). split.
    - unfold re_dot_ax. cbn [step].
      apply (in_map (fun q => Pos (prev q) (rest q)
                                  (Some (consumed (y ++ ".AX") (rest q))))
                    _ (Pos pv' ".AX" None)).
      now apply (in_map (fun e => Pos (fst e) (snd e) None) _ (pv', ".AX")).
    - rewrite consumed_app. now left. }
  rewrite E. apply fullmatch_Some in E as (q & Hin & Hq & ->). simpl.
  apply in_step_seq in Hin as (x & Hx & Hin).
  apply in_step_lit in Hin as [Hrest ->].
  apply group_rep_inv in Hx as (w & Hs & -> & _). simpl in *.
  rewrite Hrest, Hq in Hs. apply app_inv_tail_str in Hs as <-.
  now rewrite Hd.
Qed.

(** A text that is, once stripped and upper-cased, a Yahoo symbol
    [CODE.AX] with a code of one to six characters of [[A-Z0-9]], not all
    digits, normalizes to that code. *)
Theorem normalize_asx_code_yahoo_symbol (x y : string) :
  upper (strip x) = y ++ ".AX" ->
  all_str upper_alnum y = true -> 1 <= String.length y <= 6 -> isdigit y = false ->
  normalize_asx_code (Some x) = Some y.
Proof.
  intros E Hy Hlen Hd. unfold normalize_asx_code.
  assert (truthy (strip x) = true) as Hraw.
  { destruct (strip x); [| reflexivity]. now destruct y. }
  assert (truthy x = true) as ->.
  { destruct x; [| reflexivity]. discriminate Hraw. }
  rewrite Hraw, E. simpl. now rewrite code_from_dot_ax_complete.
Qed.

Lemma normalize_asx_code_yahoo_symbol_witness :
  normalize_asx_code (Some " bhp.ax ") = Some "BHP".
Proof.
  apply (normalize_asx_code_yahoo_symbol " bhp.ax " "BHP");
    [reflexivity | reflexivity | simpl; lia | reflexivity].
Defined.

(** ** The clean code *)

(** A text that is, once stripped and upper-cased, two to six characters
    of [[A-Z0-9]], not all digits, normalizes to that upper-cased text:
    the caller's code is trusted, and is not checked against the
    stopwords. *)
Theorem normalize_asx_code_trusts_clean_code (x : string) :
  all_str upper_alnum (upper (strip x)) = true ->
  2 <= String.length (upper (strip x)) <= 6 ->
  isdigit (upper (strip x)) = false ->
  normalize_asx_code (Some x) = Some (upper (strip x)).
Proof.
  intros Hy Hlen Hd. unfold normalize_asx_code.
  assert (truthy (strip x) = true) as Hraw.
  { destruct (strip x); [simpl in Hlen; lia | reflexivity]. }
  assert (truthy x = true) as ->.
  { destruct x; [| reflexivity]. discriminate Hraw. }
  rewrite Hraw. simpl. rewrite (code_from_dot_ax_none _ Hy).
  now rewrite (code_if_clean_complete _ Hy Hlen Hd).
Qed.

Lemma normalize_asx_code_trusts_clean_code_witness :
  mem "THE" ASX_CODE_STOPWORDS = true
  /\ normalize_asx_code (Some " the ") = Some "THE".
Proof.
  split; [reflexivity |].
  apply (normalize_asx_code_trusts_clean_code " the ");
    [reflexivity | simpl; lia | reflexivity].
Defined.

(** ** What a result looks like *)

Lemma code_or_dot_plain (c : ascii) :
  code_or_dot c = true -> upper_char c = c /\ negb (is_space c) = true.
Proof.
  destruct c as [[] [] [] [] [] [] [] []]; vm_compute; try congruence;
    intros _; repeat split.
Qed.

Lemma upper_alnum_no_dot (y : string) :
  all_str upper_alnum y = true -> contains "." y = false.
Proof.
  intros Hy. apply contains_char_absent, mem_char_all_str.
  eapply all_str_impl; [| exact Hy]. intros c Hc.
  now rewrite (upper_alnum_not_dot c Hc).
Qed.

(** Every code the normalizer returns is one to six characters of
    [[A-Z0-9.]], not all digits; it is in upper case and has no blank
    around it; and it holds a dot only when it was read from a URL in
    the text. *)
Theorem normalize_asx_code_result (x y : string) :
  normalize_asx_code (Some x) = Some y ->
  all_str code_or_dot y = true
  /\ 1 <= String.length y <= 6
  /\ isdigit y = false
  /\ upper y = y
  /\ strip y = y
  /\ (contains "." y = true -> code_from_url (strip x) = Some y).
Proof.
  intros E. destruct (normalize_asx_code_shape _ _ E) as (Hy & Hlen & Hd).
  split; [exact Hy |]. split; [exact Hlen |]. split; [exact Hd |].
  split; [| split].
  - apply (map_str_id _ code_or_dot); [| exact Hy].
    intros c Hc. apply (code_or_dot_plain c Hc).
  - apply strip_by_id. eapply all_str_impl; [| exact Hy].
    intros c Hc. apply (code_or_dot_plain c Hc).
  - intros Hdot. revert E. unfold normalize_asx_code.
    destruct (truthy x); [| easy]. destruct (truthy (strip x)); [| easy]. simpl.
    destruct (code_from_dot_ax _) as [c|] eqn:E1.
    { intros [= ->]. apply code_from_dot_ax_shape in E1 as (Hc & _).
      apply upper_alnum_no_dot in Hc. congruence. }
    destruct (code_if_clean _) as [c|] eqn:E2.
    { intros [= ->]. apply code_if_clean_shape in E2 as (_ & Hc & _).
      apply upper_alnum_no_dot in Hc. congruence. }
    destruct (code_from_url _) as [c|] eqn:E3; [easy |].
    destruct (code_from_markers _) as [c|] eqn:E4.
    { intros [= ->]. apply code_from_markers_shape in E4 as (Hc & _).
      apply upper_alnum_no_dot in Hc. congruence. }
    intros E5. apply code_from_tokens_shape in E5 as (Hc & _).
    apply upper_alnum_no_dot in Hc. congruence.
Qed.

Lemma normalize_asx_code_result_witness :
  normalize_asx_code (Some "ASX: cba today") = Some "CBA" /\ upper "CBA" = "CBA".
Proof.
  assert (normalize_asx_code (Some "ASX: cba today") = Some "CBA") as E
    by (vm_compute; reflexivity).
  split; [exact E |].
  exact (proj1 (proj2 (proj2 (proj2 (normalize_asx_code_result _ _ E))))).
Defined.

(** ** Stopwords *)

Lemma acceptable_not_stopword (lo : nat) (code : string) :
  acceptable lo code = true -> mem code ASX_CODE_STOPWORDS = false.
Proof.
  unfold acceptable. intros [_ H]%andb_true_iff. now apply negb_true_iff in H.
Qed.

Lemma code_before_ax_not_stopword (text y : string) :
  code_before_ax text = Some y -> mem y ASX_CODE_STOPWORDS = false.
Proof.
  unfold code_before_ax. destruct (endswith _ _); [| easy].
  destruct (acceptable 1 _) eqn:Hacc; [| easy]. intros [= <-].
  now apply acceptable_not_stopword in Hacc.
Qed.

Lemma code_from_url_not_stopword (raw y : string) :
  code_from_url raw = Some y -> mem y ASX_CODE_STOPWORDS = false.
Proof.
  unfold code_from_url.
  destruct (search _ raw) as [url_match|]; [| easy].
  destruct (Url.urlparse _) as [parsed|]; [| easy].
  destruct (first_return _ (List.filter _ _)) as [code|] eqn:E.
  - intros [= <-]. apply first_return_Some in E as (part & _ & E).
    now apply code_before_ax_not_stopword in E.
  - intros (key & _ & E')%first_return_Some.
    now apply code_before_ax_not_stopword in E'.
Qed.

Lemma code_from_markers_not_stopword (text y : string) :
  code_from_markers text = Some y -> mem y ASX_CODE_STOPWORDS = false.
Proof.
  unfold code_from_markers. intros (pattern & _ & E)%first_return_Some.
  destruct (search pattern text) as [m|]; [| easy].
  destruct (acceptable 2 _) eqn:Hacc; [| easy]. injection E as <-.
  now apply acceptable_not_stopword in Hacc.
Qed.

Lemma code_from_tokens_not_stopword (text y : string) :
  code_from_tokens text = Some y -> mem y ASX_CODE_STOPWORDS = false.
Proof.
  unfold code_from_tokens. intros (token & Hin & E)%first_return_Some.
  destruct (mem token _) eqn:Hm; [easy |]. destruct (isdigit token); [easy |].
  now injection E as <-.
Qed.

Lemma code_from_dot_ax_symbol (u y : string) :
  code_from_dot_ax u = Some y -> u = y ++ ".AX".
Proof.
  unfold code_from_dot_ax.
  destruct (fullmatch re_dot_ax u) as [m|] eqn:E; [| easy].
  apply fullmatch_Some in E as (q & Hin & Hq & ->). simpl.
  apply in_step_seq in Hin as (x & Hx & Hin).
  apply in_step_lit in Hin as [Hrest ->].
  apply group_rep_inv in Hx as (w & Hs & -> & _). simpl in *.
  rewrite Hrest, Hq in Hs. destruct (isdigit w); [easy |]. now intros [= <-].
Qed.

(** The normalizer returns a stopword only when the whole text, stripped
    and upper-cased, is that word or that word followed by [.AX]: a code
    found in a URL, after a marker or among the tokens is never a
    stopword. *)
Theorem stopword_only_when_explicit (x y : string) :
  normalize_asx_code (Some x) = Some y ->
  mem y ASX_CODE_STOPWORDS = true ->
  upper (strip x) = y \/ upper (strip x) = y ++ ".AX".
Proof.
  intros E H. revert E. unfold normalize_asx_code.
  destruct (truthy x); [| easy]. destruct (truthy (strip x)); [| easy]. simpl.
  destruct (code_from_dot_ax _) as [c|] eqn:E1.
  { intros [= ->]. right. now apply code_from_dot_ax_symbol. }
  destruct (code_if_clean _) as [c|] eqn:E2.
  { intros [= ->]. left. now apply code_if_clean_shape in E2 as (-> & _). }
  destruct (code_from_url _) as [c|] eqn:E3.
  { intros [= ->]. apply code_from_url_not_stopword in E3. congruence. }
  destruct (code_from_markers _) as [c|] eqn:E4.
  { intros [= ->]. apply code_from_markers_not_stopword in E4. congruence. }
  intros E5. apply code_from_tokens_not_stopword in E5. congruence.
Qed.

Lemma stopword_only_when_explicit_witness :
  upper (strip "report.ax") = "REPORT" \/ upper (strip "report.ax") = "REPORT" ++ ".AX".
Proof.
  apply (stopword_only_when_explicit "report.ax" "REPORT");
    [vm_compute; reflexivity | reflexivity].
Defined.

(** ** Patterns that cannot match *)

Lemma step_chr_first (f P : ascii -> bool) (p : pos) :
  (forall c, f c = true -> P c = true) ->
  first_is P (rest p) = false -> step (Chr f) p = [].
Proof.
  intros Hf. simpl. destruct (rest p) as [|c t]; [reflexivity |]. simpl. intros Hc.
  destruct (f c) eqn:E; [| reflexivity]. apply Hf in E. congruence.
Qed.

Lemma step_seq_eq (a b : re) (p : pos) :
  step (Seq a b) p = flat_map (step b) (step a p).
Proof. reflexivity. Qed.

Lemma step_seq_nil (a b : re) (p : pos) : step a p = [] -> step (Seq a b) p = [].
Proof. intros E. simpl. now rewrite E. Qed.

Lemma step_bnd_seq_nil (b : re) (p : pos) : step b p = [] -> step (Seq Bnd b) p = [].
Proof.
  intros E. simpl. destruct (xorb _ _); simpl; [| reflexivity]. now rewrite E.
Qed.

Lemma step_alt_nil (a b : re) (p : pos) :
  step a p = [] -> step b p = [] -> step (Alt a b) p = [].
Proof. intros Ea Eb. simpl. now rewrite Ea, Eb. Qed.

Lemma step_lit_first (P : ascii -> bool) (c : ascii) (l : string) (p : pos) :
  P c = true -> first_is P (rest p) = false -> step (lit (String c l)) p = [].
Proof.
  intros Hc Hp.
  assert (step (chr c) p = []) as E.
  { apply (step_chr_first _ P); [| exact Hp]. now intros d <-%Ascii.eqb_eq. }
  destruct l; [exact E | now apply step_seq_nil].
Qed.

Lemma step_lit_i_first (P : ascii -> bool) (c : ascii) (l : string) (p : pos) :
  (forall d, Ascii.eqb (lower_char d) (lower_char c) = true -> P d = true) ->
  first_is P (rest p) = false -> step (lit_i (String c l)) p = [].
Proof.
  intros Hc Hp.
  assert (step (chr_i c) p = []) as E by now apply (step_chr_first _ P).
  destruct l; [exact E | now apply step_seq_nil].
Qed.

(** A pattern that matches nowhere a text starts with a character
    outside [P] finds nothing in a text without characters of [P]. *)
Section NoMatch.

Variables (r : re) (P : ascii -> bool).
Hypothesis no_match :
  forall pv s, first_is P s = false -> step r (Pos pv s None) = [].

Lemma match_at_no_match (pv : option ascii) (s : string) :
  first_is P s = false -> match_at r pv s = None.
Proof. intros H. unfold match_at. now rewrite no_match. Qed.

Lemma search_no_match (s : string) :
  all_str (fun c => negb (P c)) s = true -> search r s = None.
Proof.
  unfold search. generalize (@None ascii).
  induction s as [|c s IH]; intros pv Hs; simpl.
  - now rewrite match_at_no_match.
  - apply andb_true_iff in Hs as [Hc%negb_true_iff Hs].
    rewrite match_at_no_match by exact Hc. now apply IH.
Qed.

Lemma sub_no_match (repl s : string) :
  all_str (fun c => negb (P c)) s = true -> sub r repl s = s.
Proof.
  unfold sub. generalize (@None ascii).
  induction s as [|c s IH]; intros pv Hs; simpl; [reflexivity |].
  apply andb_true_iff in Hs as [Hc%negb_true_iff Hs].
  rewrite match_at_no_match by exact Hc. now rewrite IH.
Qed.

Lemma findall_no_match (s : string) :
  all_str (fun c => negb (P c)) s = true -> findall r s = [].
Proof.
  unfold findall. generalize (@None ascii).
  induction s as [|c s IH]; intros pv Hs; simpl; [reflexivity |].
  apply andb_true_iff in Hs as [Hc%negb_true_iff Hs].
  rewrite match_at_no_match by exact Hc. now apply IH.
Qed.

End NoMatch.

Lemma all_str_map_str (p : ascii -> bool) (f : ascii -> ascii) (s : string) :
  all_str p (map_str f s) = all_str (fun c => p (f c)) s.
Proof. induction s as [|c s IH]; simpl; [reflexivity | now rewrite IH]. Qed.

Lemma all_str_true (p : ascii -> bool) (s : string) :
  (forall c, p c = true) -> all_str p s = true.
Proof. intros H. induction s as [|c s IH]; simpl; [reflexivity | now rewrite H]. Qed.

(** ** The removal of URLs *)

Lemma re_url_needs_h (pv : option ascii) (s : string) :
  first_is (Ascii.eqb "h") s = false -> step re_url (Pos pv s None) = [].
Proof.
  intros H. unfold re_url. cbn [seq]. apply step_seq_nil.
  now apply (step_lit_first (Ascii.eqb "h")).
Qed.

Lemma upper_char_not_h (c : ascii) : negb (Ascii.eqb "h" (upper_char c)) = true.
Proof. by_cases_on_char c. Qed.

(** The removal of URLs from the upper-cased text removes nothing: the
    pattern is matched without [re.IGNORECASE], it starts with a small
    [h], and the text was upper-cased.  So a URL from which the
    normalizer reads no code stays in the text that is searched for
    markers and tokens, where [HTTPS] is a token. *)
Theorem url_removal_removes_nothing (x : string) :
  sub re_url " " (upper x) = upper x
  /\ normalize_asx_code (Some "https://example.com") = Some "HTTPS".
Proof.
  split; [| vm_compute; reflexivity].
  apply (sub_no_match re_url (Ascii.eqb "h") re_url_needs_h).
  unfold upper. rewrite all_str_map_str. apply all_str_true, upper_char_not_h.
Qed.

(** ** Texts without letters *)

Lemma h_is_alpha (d : ascii) :
  Ascii.eqb (lower_char d) (lower_char "h") = true -> is_alpha d = true.
Proof. by_cases_on_char d. Qed.

Lemma is_upper_is_alpha (c : ascii) : is_upper c = true -> is_alpha c = true.
Proof. unfold is_alpha. now intros ->. Qed.

Lemma is_alpha_upper_char (c : ascii) : is_alpha (upper_char c) = is_alpha c.
Proof. by_cases_on_char c. Qed.

Lemma upper_alnum_digit (c : ascii) :
  upper_alnum c = true -> is_alpha c = false -> is_digit c = true.
Proof. by_cases_on_char c. Qed.

Lemma re_url_ignorecase_needs_letter (pv : option ascii) (s : string) :
  first_is is_alpha s = false -> step re_url_ignorecase (Pos pv s None) = [].
Proof.
  intros H. unfold re_url_ignorecase. cbn [seq]. apply step_seq_nil.
  apply (step_lit_i_first is_alpha); [apply h_is_alpha | exact H].
Qed.

Lemma re_token_needs_letter (pv : option ascii) (s : string) :
  first_is is_alpha s = false -> step re_token (Pos pv s None) = [].
Proof.
  intros H. unfold re_token. cbn [seq]. apply step_bnd_seq_nil, step_seq_nil.
  apply (step_chr_first _ is_alpha); [apply is_upper_is_alpha | exact H].
Qed.

Lemma marker_needs_letter (pattern : re) (pv : option ascii) (s : string) :
  In pattern marker_patterns ->
  first_is is_alpha s = false -> step pattern (Pos pv s None) = [].
Proof.
  intros [<-|[<-|[<-|[<-|[]]]]] H;
    unfold re_asx_colon, re_asx_space, re_for, re_label; cbn [seq];
    apply step_bnd_seq_nil, step_seq_nil.
  1-3: now apply (step_lit_first is_alpha).
  repeat apply step_alt_nil; now apply (step_lit_first is_alpha).
Qed.

Lemma all_str_lstrip_by (p q : ascii -> bool) (s : string) :
  all_str p s = true -> all_str p (lstrip_by q s) = true.
Proof.
  induction s as [|c s IH]; simpl; [easy |].
  intros H. destruct (q c); [| exact H].
  apply andb_true_iff in H as [_ H]. now apply IH.
Qed.

Lemma all_str_rstrip_by (p q : ascii -> bool) (s : string) :
  all_str p s = true -> all_str p (rstrip_by q s) = true.
Proof.
  induction s as [|c s IH]; [easy |].
  intros [Hc Hs]%andb_true_iff. rewrite rstrip_by_cons.
  specialize (IH Hs). destruct (rstrip_by q s) as [|d r].
  - destruct (q c); simpl; [reflexivity | now rewrite Hc].
  - simpl in *. now rewrite Hc.
Qed.

Lemma all_str_strip (p : ascii -> bool) (s : string) :
  all_str p s = true -> all_str p (strip s) = true.
Proof. intros H. now apply all_str_rstrip_by, all_str_lstrip_by. Qed.

(** What [re.sub] returns is made of the text and of the replacement. *)
Lemma all_str_sub (p : ascii -> bool) (r : re) (repl s : string) :
  all_str p repl = true -> all_str p s = true -> all_str p (sub r repl s) = true.
Proof.
  intros Hrepl. unfold sub. generalize (@None ascii) 0.
  induction s as [|c s IH]; intros pv skip Hs; simpl; [reflexivity |].
  apply andb_true_iff in Hs as [Hc Hs].
  destruct skip as [|k]; [| now apply IH].
  destruct (match_at r pv (String c s)) as [q|].
  - destruct (_ - _) as [|k]; simpl.
    + now rewrite Hc, IH.
    + now rewrite all_str_app, Hrepl, IH.
  - simpl. now rewrite Hc, IH.
Qed.

Lemma first_return_None {A B : Type} (body : A -> option B) (xs : list A) :
  (forall x, In x xs -> body x = None) -> first_return body xs = None.
Proof.
  induction xs as [|x xs IH]; intros H; simpl; [reflexivity |].
  rewrite (H x) by now left. apply IH. intros y Hy. apply H. now right.
Qed.

(** An ASCII text without a letter has no code: [None], an empty or
    blank text, a number, punctuation. *)
Theorem normalize_asx_code_needs_a_letter (x : string) :
  isascii x = true ->
  all_str (fun c => negb (is_alpha c)) x = true ->
  normalize_asx_code None = None /\ normalize_asx_code (Some x) = None.
Proof.
  intros _ Hx. split; [reflexivity |]. unfold normalize_asx_code.
  destruct (truthy x); [| reflexivity]. cbn [negb].
  destruct (truthy (strip x)); [| reflexivity]. cbn [negb]. cbv zeta.
  assert (all_str (fun c => negb (is_alpha c)) (strip x) = true) as Hraw
    by now apply all_str_strip.
  assert (all_str (fun c => negb (is_alpha c)) (upper (strip x)) = true) as Hupper.
  { unfold upper. rewrite all_str_map_str. erewrite <- Hraw.
    clear. induction (strip x) as [|c s IH]; simpl; [reflexivity |].
    now rewrite is_alpha_upper_char, IH. }
  set (u := upper (strip x)) in *.
  assert (code_from_dot_ax u = None) as ->.
  { unfold code_from_dot_ax. rewrite fullmatch_None; [reflexivity |].
    intros q (y & Hy & Hq)%in_step_seq. exfalso.
    apply in_step_lit in Hq as [Hrest _].
    apply group_rep_inv in Hy as (w & Hs & _). simpl in Hs.
    rewrite Hs, Hrest, !all_str_app in Hupper.
    apply andb_true_iff in Hupper as [_ [H _]%andb_true_iff]. discriminate H. }
  assert (code_if_clean u = None) as ->.
  { destruct (code_if_clean u) as [y|] eqn:E; [| reflexivity]. exfalso.
    apply code_if_clean_shape in E as (-> & Hy & Hlen & Hd).
    assert (all_str is_digit u = true) as Hdigits.
    { clear Hlen Hd. induction u as [|c u IH]; [reflexivity |]. simpl in *.
      apply andb_true_iff in Hy as [Hc Hy].
      apply andb_true_iff in Hupper as [Ha%negb_true_iff Hu].
      now rewrite (upper_alnum_digit c Hc Ha), IH. }
    destruct u; simpl in *; [lia | congruence]. }
  assert (code_from_url (strip x) = None) as ->.
  { unfold code_from_url.
    now rewrite (search_no_match _ is_alpha re_url_ignorecase_needs_letter). }
  assert (all_str (fun c => negb (is_alpha c))
                  (sub re_email " " (sub re_url " " u)) = true) as Hclean
    by now repeat apply all_str_sub.
  assert (code_from_markers (sub re_email " " (sub re_url " " u)) = None) as ->.
  { unfold code_from_markers. apply first_return_None. intros pattern Hin.
    rewrite (search_no_match pattern is_alpha); [reflexivity | | exact Hclean].
    intros pv s. now apply marker_needs_letter. }
  unfold code_from_tokens.
  now rewrite (findall_no_match _ is_alpha re_token_needs_letter).
Qed.

Lemma normalize_asx_code_needs_a_letter_witness :
  normalize_asx_code (Some " 1234.56 ") = None.
Proof.
  apply (normalize_asx_code_needs_a_letter " 1234.56 "); reflexivity.
Defined.

(** ** From the source URL back to the code *)

(** The characters of a path segment that [urlparse] leaves alone. *)
Lemma upper_alnum_plain (c : ascii) :
  upper_alnum c = true ->
  negb (mem_char c (String "009" (String "013" (String "010" "")))) = true
  /\ Ascii.eqb "#" c = false /\ Ascii.eqb "?" c = false /\ Ascii.eqb ";" c = false
  /\ Ascii.eqb "/" c = false /\ Ascii.eqb "." c = false
  /\ negb (is_space c) = true /\ upper_char c = c /\ code_or_dot c = true.
Proof.
  destruct c as [[] [] [] [] [] [] [] []]; vm_compute; try congruence;
    intros _; repeat split.
Qed.

Lemma all_str_upper_alnum (p : ascii -> bool) (u : string) :
  (forall c, upper_alnum c = true -> p c = true) ->
  all_str upper_alnum u = true -> all_str p u = true.
Proof. intros H. now apply all_str_impl. Qed.

Lemma urlparse_quote_page (u : string) :
  all_str upper_alnum u = true ->
  Url.urlparse ("https://au.finance.yahoo.com/quote/" ++ u ++ ".AX/")
  = Some {| Url.scheme := "https"; Url.netloc := "au.finance.yahoo.com";
            Url.path := "/quote/" ++ u ++ ".AX/"; Url.params := "";
            Url.query := ""; Url.fragment := "" |}.
Proof.
  intros Hu. set (t := u ++ ".AX/").
  assert (forall p, (forall c, upper_alnum c = true -> p c = true) ->
                    all_str p ".AX/" = true -> all_str p t = true) as Ht.
  { intros p Hp Hs. unfold t. rewrite all_str_app, Hs, andb_true_r.
    now apply all_str_upper_alnum. }
  assert (forall c, mem_char c ".AX/" = false ->
                    (forall d, upper_alnum d = true -> Ascii.eqb c d = false) ->
                    mem_char c t = false) as Habsent.
  { intros c Hc Hd. apply mem_char_all_str, Ht; [| now apply mem_char_all_str].
    intros d Hd'. now rewrite (Hd d Hd'). }
  unfold Url.urlparse.
  change ("https://au.finance.yahoo.com/quote/" ++ t)
    with (String "h" ("ttps://au.finance.yahoo.com/quote/" ++ t)).
  cbn [lstrip_by].
  replace (Nat.leb (code "h") 32) with false by reflexivity. cbv iota.
  change (String "h" ("ttps://au.finance.yahoo.com/quote/" ++ t))
    with ("https://au.finance.yahoo.com/quote/" ++ t).
  rewrite filter_str_app.
  rewrite (filter_str_id _ t)
    by (apply Ht; [intros c Hc; apply (upper_alnum_plain c Hc) | reflexivity]).
  replace (filter_str _ "https://au.finance.yahoo.com/quote/")
    with "https://au.finance.yahoo.com/quote/" by reflexivity.
  unfold Url.split_scheme.
  change ("https://au.finance.yahoo.com/quote/" ++ t)
    with ("https" ++ String ":" ("//au.finance.yahoo.com/quote/" ++ t)).
  rewrite partition_app by reflexivity.
  remember ("//au.finance.yahoo.com/quote/" ++ t) as X eqn:EX.
  simpl. subst X.
  change ("//au.finance.yahoo.com/quote/" ++ t)
    with (String "/" (String "/" ("au.finance.yahoo.com" ++ String "/" ("quote/" ++ t)))).
  cbn [startswith drop].
  rewrite until_delim_app by reflexivity.
  replace (Ascii.eqb "/" "/") with true by reflexivity.
  cbv beta iota. replace (contains "[" "au.finance.yahoo.com") with false by reflexivity.
  replace (contains "]" "au.finance.yahoo.com") with false by reflexivity.
  cbv beta iota delta [andb orb negb].
  change (String "/" ("quote/" ++ t)) with ("/quote/" ++ t).
  rewrite (partition_app "#") by reflexivity.
  rewrite (partition_absent "#" t)
    by (apply Habsent; [reflexivity | intros d Hd; apply (upper_alnum_plain d Hd)]).
  rewrite (partition_app "?") by reflexivity.
  rewrite (partition_absent "?" t)
    by (apply Habsent; [reflexivity | intros d Hd; apply (upper_alnum_plain d Hd)]).
  replace (mem "https" Url.uses_params) with true by reflexivity.
  assert (contains ";" ("/quote/" ++ t) = false) as ->.
  { apply contains_char_absent.
    change (mem_char ";" ("/quote/" ++ t)) with (mem_char ";" t).
    apply Habsent; [reflexivity | intros d Hd; apply (upper_alnum_plain d Hd)]. }
  reflexivity.
Qed.

Lemma rep_ends_head_all (p : ascii -> bool) (m : string) :
  forall lo pv,
    all_str p m = true -> lo <= String.length m ->
    exists pv', head (rep_ends p lo None pv m) = Some (pv', "").
Proof.
  induction m as [|c m IH]; intros lo pv Hm Hlo; simpl in *.
  - assert (lo = 0) as -> by lia. now exists pv.
  - apply andb_true_iff in Hm as [-> Hm].
    destruct (IH (Nat.pred lo) (Some c) Hm ltac:(lia)) as [pv' E].
    exists pv'. destruct (rep_ends p (Nat.pred lo) None (Some c) m); [discriminate E |].
    exact E.
Qed.

(** In a text that is a URL with [https] and without blanks, the search
    for a URL finds the whole text. *)
Lemma search_https (R : string) :
  all_str non_space R = true -> 1 <= String.length R ->
  search re_url_ignorecase ("https://" ++ R) = Some (Match ("https://" ++ R) None).
Proof.
  intros HR Hlen.
  assert (step re_url_ignorecase (Pos None ("https://" ++ R) None)
          = List.map (fun e => Pos (fst e) (snd e) None)
                     (rep_ends non_space 1 None (Some "/"%char) R)) as E.
  { unfold re_url_ignorecase. cbn [seq].
    rewrite step_seq_eq.
    replace (step (lit_i "http") (Pos None ("https://" ++ R) None))
      with [Pos (Some "p"%char) ("s://" ++ R) None] by reflexivity.
    cbn [flat_map]. rewrite step_seq_eq.
    replace (step (Rep 0 (Some 1) _) (Pos (Some "p"%char) ("s://" ++ R) None))
      with [Pos (Some "s"%char) ("://" ++ R) None;
            Pos (Some "p"%char) ("s://" ++ R) None] by reflexivity.
    cbn [flat_map]. rewrite !step_seq_eq.
    replace (step (lit "://") (Pos (Some "s"%char) ("://" ++ R) None))
      with [Pos (Some "/"%char) R None] by reflexivity.
    replace (step (lit "://") (Pos (Some "p"%char) ("s://" ++ R) None))
      with (@nil pos) by reflexivity.
    cbn [flat_map]. now rewrite !app_nil_r. }
  destruct (rep_ends_head_all non_space R 1 (Some "/"%char) HR Hlen) as [pv' Hhead].
  unfold search.
  change ("https://" ++ R) with (String "h" ("ttps://" ++ R)).
  cbn [search_from].
  change (String "h" ("ttps://" ++ R)) with ("https://" ++ R).
  unfold match_at. rewrite E.
  destruct (rep_ends non_space 1 None (Some "/"%char) R) as [|e l]; [discriminate Hhead |].
  injection Hhead as ->. simpl.
  unfold consumed. simpl.
  assert (take (String.length R) R = R) as ->; [| reflexivity].
  rewrite <- (app_empty_r R) at 2. apply take_app_length.
Qed.

(** Where a text first leaves a character class is determined. *)
Lemma first_break (p : ascii -> bool) (w w' : string) (d d' : ascii) (r r' : string) :
  all_str p w = true -> all_str p w' = true -> p d = false -> p d' = false ->
  w ++ String d r = w' ++ String d' r' -> w = w' /\ d = d' /\ r = r'.
Proof.
  revert w'. induction w as [|c w IH]; intros [|c' w'] Hw Hw' Hd Hd' E; simpl in *.
  - now injection E.
  - injection E as -> _. apply andb_true_iff in Hw' as [Hc _]. congruence.
  - injection E as -> _. apply andb_true_iff in Hw as [Hc _]. congruence.
  - injection E as <- E. apply andb_true_iff in Hw as [_ Hw].
    apply andb_true_iff in Hw' as [_ Hw'].
    destruct (IH w' Hw Hw' Hd Hd' E) as (-> & -> & ->). easy.
Qed.

Lemma code_before_ax_symbol (u : string) :
  all_str upper_alnum u = true -> 1 <= String.length u <= 6 -> isdigit u = false ->
  mem u ASX_CODE_STOPWORDS = false ->
  code_before_ax (upper (u ++ ".AX")) = Some u.
Proof.
  intros Hu Hlen Hd Hstop. unfold code_before_ax, re_not_code_or_dot.
  assert (upper (u ++ ".AX") = u ++ ".AX") as ->.
  { unfold upper. rewrite map_str_app. f_equal.
    apply (map_str_id _ upper_alnum); [apply upper_alnum_upper_char | exact Hu]. }
  rewrite sub_chr. cbv zeta.
  rewrite filter_str_id.
  2: { rewrite all_str_app. apply andb_true_iff. split; [| reflexivity].
       eapply all_str_impl; [| exact Hu]. intros c Hc.
       now rewrite (upper_alnum_code_or_dot c Hc). }
  rewrite endswith_app, length_app.
  replace (String.length u + String.length ".AX" - 3) with (String.length u)
    by (simpl; lia).
  rewrite take_app_length. unfold acceptable. rewrite Hd, Hstop.
  destruct Hlen as [H1 H6]. apply Nat.leb_le in H1, H6. now rewrite H1, H6.
Qed.

(** The source URL built for a code leads back to the code: for a code
    that is, upper-cased, one to six characters of [[A-Z0-9]], not all
    digits and not a stopword, the normalizer reads from
    [build_asx_url code] the upper-cased code. *)
Theorem normalize_asx_code_of_source_url (y : string) :
  all_str upper_alnum (upper y) = true ->
  1 <= String.length (upper y) <= 6 ->
  isdigit (upper y) = false ->
  mem (upper y) ASX_CODE_STOPWORDS = false ->
  build_asx_url (Some y) = "https://au.finance.yahoo.com/quote/" ++ upper y ++ ".AX/"
  /\ normalize_asx_code (Some (build_asx_url (Some y))) = Some (upper y).
Proof.
  intros Hu Hlen Hd Hstop.
  assert (build_asx_url (Some y)
          = "https://au.finance.yahoo.com/quote/" ++ upper y ++ ".AX/") as Ebuild.
  { unfold build_asx_url.
    assert (truthy y = true) as -> by (destruct y; [simpl in Hlen; lia | reflexivity]).
    rewrite replace_absent; [reflexivity |].
    apply mem_char_all_str. eapply all_str_impl; [| exact Hu].
    intros c Hc. now rewrite (proj1 (proj2 (proj2 (proj2 (proj2 (proj2
                                 (upper_alnum_plain c Hc))))))). }
  split; [exact Ebuild |]. rewrite Ebuild. clear Ebuild.
  set (u := upper y) in *. unfold normalize_asx_code.
  set (U := "https://au.finance.yahoo.com/quote/" ++ u ++ ".AX/").
  replace (truthy U) with true by reflexivity. cbn [negb]. cbv iota.
  assert (all_str non_space ("au.finance.yahoo.com/quote/" ++ u ++ ".AX/") = true) as HR.
  { rewrite !all_str_app. apply andb_true_iff. split; [reflexivity |].
    apply andb_true_iff. split; [| reflexivity].
    eapply all_str_impl; [| exact Hu]. apply upper_alnum_not_space. }
  assert (strip U = U) as ->.
  { apply strip_by_id. unfold U.
    change ("https://au.finance.yahoo.com/quote/" ++ u ++ ".AX/")
      with ("https://" ++ "au.finance.yahoo.com/quote/" ++ u ++ ".AX/").
    rewrite all_str_app. apply andb_true_iff. split; [reflexivity | exact HR]. }
  replace (truthy U) with true by reflexivity. cbn [negb]. cbv iota zeta.
  assert (upper U = "HTTPS" ++ String ":" ("//AU.FINANCE.YAHOO.COM/QUOTE/" ++ u ++ ".AX/"))
    as ->.
  { unfold U, upper. rewrite !map_str_app.
    rewrite (map_str_id upper_char upper_alnum u upper_alnum_upper_char Hu).
    reflexivity. }
  assert (code_from_dot_ax
            ("HTTPS" ++ String ":" ("//AU.FINANCE.YAHOO.COM/QUOTE/" ++ u ++ ".AX/")) = None)
    as ->.
  { unfold code_from_dot_ax. rewrite fullmatch_None; [reflexivity |].
    intros q (x & Hx & Hq)%in_step_seq. exfalso.
    apply in_step_lit in Hq as [Hrest _].
    apply group_rep_inv in Hx as (w & Hs & _ & Hw & _). cbn [rest] in Hs.
    rewrite Hrest in Hs.
    destruct (first_break upper_alnum w "HTTPS" "." ":" ("AX" ++ rest q)
                ("//AU.FINANCE.YAHOO.COM/QUOTE/" ++ u ++ ".AX/")
                Hw eq_refl eq_refl eq_refl (eq_sym Hs)) as (_ & [=] & _). }
  assert (code_if_clean
            ("HTTPS" ++ String ":" ("//AU.FINANCE.YAHOO.COM/QUOTE/" ++ u ++ ".AX/")) = None)
    as ->.
  { destruct (code_if_clean _) as [c|] eqn:E; [| reflexivity]. exfalso.
    apply code_if_clean_shape in E as (-> & Hc & _). discriminate Hc. }
  assert (code_from_url U = Some u) as ->; [| reflexivity].
  unfold code_from_url, U.
  change ("https://au.finance.yahoo.com/quote/" ++ u ++ ".AX/")
    with ("https://" ++ "au.finance.yahoo.com/quote/" ++ u ++ ".AX/").
  rewrite search_https by (try exact HR; rewrite length_app; simpl; lia).
  cbn [group0].
  change ("https://" ++ "au.finance.yahoo.com/quote/" ++ u ++ ".AX/")
    with ("https://au.finance.yahoo.com/quote/" ++ u ++ ".AX/").
  assert (strip_chars url_trailers ("https://au.finance.yahoo.com/quote/" ++ u ++ ".AX/")
          = "https://au.finance.yahoo.com/quote/" ++ u ++ ".AX/") as ->.
  { unfold strip_chars, strip_by.
    replace (lstrip_by _ ("https://au.finance.yahoo.com/quote/" ++ u ++ ".AX/"))
      with ("https://au.finance.yahoo.com/quote/" ++ u ++ ".AX/") by reflexivity.
    replace ("https://au.finance.yahoo.com/quote/" ++ u ++ ".AX/")
      with (("https://au.finance.yahoo.com/quote/" ++ u ++ ".AX") ++ "/")
      by now rewrite !app_assoc.
    now apply rstrip_by_snoc. }
  rewrite (urlparse_quote_page u Hu). cbn [Url.path Url.query].
  assert (split "/" ("/quote/" ++ u ++ ".AX/") = [""; "quote"; u ++ ".AX"; ""]) as ->.
  { change ("/quote/" ++ u ++ ".AX/") with ("" ++ String "/" ("quote/" ++ u ++ ".AX/")).
    rewrite split_app_sep by reflexivity.
    change ("quote/" ++ u ++ ".AX/") with ("quote" ++ String "/" (u ++ ".AX/")).
    rewrite split_app_sep by reflexivity.
    replace (u ++ ".AX/") with ((u ++ ".AX") ++ String "/" "") by now rewrite !app_assoc.
    rewrite split_app_sep; [reflexivity |].
    apply mem_char_all_str. rewrite all_str_app. apply andb_true_iff.
    split; [| reflexivity]. eapply all_str_impl; [| exact Hu].
    intros c Hc. now rewrite (proj1 (proj2 (proj2 (proj2 (proj2
                                 (upper_alnum_plain c Hc)))))). }
  cbn [List.filter truthy].
  assert (truthy (u ++ ".AX") = true) as -> by now destruct u.
  cbn [first_return].
  replace (code_before_ax (upper "quote")) with (@None string) by reflexivity.
  now rewrite code_before_ax_symbol.
Qed.

Lemma normalize_asx_code_of_source_url_witness :
  normalize_asx_code (Some (build_asx_url (Some "bhp"))) = Some (upper "bhp").
Proof.
  apply (normalize_asx_code_of_source_url "bhp");
    [reflexivity | simpl; lia | reflexivity | reflexivity].
Defined.

(** ** The identity check of the capture *)

(** [_is_asx_url] accepts a URL exactly when [urlparse] reads it, its
    host, in lower case, is [finance.yahoo.com] or ends with
    [.finance.yahoo.com], and its path, in lower case, contains
    [/quote/]; the suffix [au.finance.yahoo.com] adds nothing to the
    suffix [finance.yahoo.com].  So a host that only ends with the
    letters [yahoo.com] is refused. *)
Theorem _is_asx_url_accepts (url : string) :
  _is_asx_url url = true
  <-> (_hostname url = "finance.yahoo.com"
       \/ endswith ".finance.yahoo.com" (_hostname url) = true)
      /\ exists parsed, Url.urlparse url = Some parsed
                        /\ contains "/quote/" (lower (Url.path parsed)) = true.
Proof.
  unfold _is_asx_url. set (host := _hostname url).
  assert (existsb (fun suffix => String.eqb host suffix || endswith ("." ++ suffix) host)
                  YAHOO_HOST_SUFFIXES = true
          <-> host = "finance.yahoo.com" \/ endswith ".finance.yahoo.com" host = true)
    as Hhost.
  { unfold YAHOO_HOST_SUFFIXES. cbn [existsb]. rewrite !orb_true_iff, !String.eqb_eq.
    split.
    - intros [[->|H]|[[->|H]|H]]; [| | | | discriminate H].
      + now right.
      + right. apply endswith_spec in H as [a ->]. apply endswith_spec.
        exists (a ++ ".au"). now rewrite app_assoc.
      + now left.
      + now right.
    - intros [->|H]; right; left; [now left | now right]. }
  destruct (existsb _ _) eqn:E; cbn [negb]; cbv iota.
  - destruct (Url.urlparse url) as [parsed|].
    + split.
      * intros H. split; [now apply Hhost |]. now exists parsed.
      * now intros [_ (parsed' & [= <-] & H)].
    + split; [easy |]. now intros [_ (parsed' & [=] & _)].
  - split; [easy |]. intros [H _]. apply Hhost in H. discriminate H.
Qed.

End NormalizerExtras.

(* ===================================================================== *)
(** * More on the request coordinator                                     *)
(* ===================================================================== *)

Module ServerExtras.

Import Pipeline Server Examples PyFacts PyExtras NormalizerFacts ServerFacts.

#[local] Open Scope Q_scope.
#[local] Arguments String.append !_ _ : simpl nomatch.

(** ** The request key *)

Lemma app_sep_inj (sep : ascii) (p p' x x' : string) :
  Py.mem_char sep p = false -> Py.mem_char sep p' = false ->
  (p ++ String sep x = p' ++ String sep x')%string -> p = p' /\ x = x'.
Proof.
  revert p'. induction p as [|c p IH]; intros [|c' p'] Hp Hp' E; simpl in *.
  - now injection E.
  - injection E as <- _. now rewrite Ascii.eqb_refl in Hp'.
  - injection E as -> _. now rewrite Ascii.eqb_refl in Hp.
  - injection E as <- E. apply orb_false_iff in Hp as [_ Hp].
    apply orb_false_iff in Hp' as [_ Hp'].
    destruct (IH p' Hp Hp' E) as [-> ->]. easy.
Qed.

Lemma true_false_tails (a b : string) : (a ++ "|true" <> b ++ "|false")%string.
Proof.
  revert a. induction b as [|y b IH]; intros a E.
  - destruct a as [|x [|x' a]]; simpl in E; try discriminate.
    apply (f_equal String.length) in E. simpl in E. rewrite length_app in E.
    simpl in E. lia.
  - destruct a as [|x a]; simpl in E.
    + apply (f_equal String.length) in E. simpl in E. rewrite length_app in E.
      simpl in E. lia.
    + injection E as _ E. now apply (IH a).
Qed.

Lemma ticker_like_no_bar (y : string) : ticker_like y -> Py.mem_char "|" y = false.
Proof.
  intros [Hy _]. induction y as [|c y IH]; [reflexivity |].
  simpl in *. apply andb_true_iff in Hy as [Hc Hy]. rewrite (IH Hy), orb_false_r.
  revert Hc. by_cases_on_char c.
Qed.

Lemma _canonical_ticker_no_bar (asx_code : string) :
  Py.mem_char "|" (_canonical_ticker asx_code) = false.
Proof.
  unfold _canonical_ticker, or_text.
  destruct (normalize_asx_code (Some asx_code)) as [y|] eqn:E; [| reflexivity].
  pose proof (normalize_asx_code_shape _ _ E) as Hy.
  assert (Py.truthy y = true) as ->.
  { destruct Hy as (_ & Hlen & _). destruct y; simpl in *; [lia | reflexivity]. }
  now apply ticker_like_no_bar.
Qed.

(** Two calls have the same key exactly when they have the same
    canonical ticker, the same canonical recipient and the same
    [send_email]: the fields of the key cannot run into one another,
    because a canonical ticker holds no bar and the flag is spelled
    [true] or [false]. *)
Theorem _request_key_injective (asx_code asx_code' recipient recipient' : string)
    (send_email send_email' : bool) :
  _request_key asx_code recipient send_email
  = _request_key asx_code' recipient' send_email'
  <-> _canonical_ticker asx_code = _canonical_ticker asx_code'
      /\ _canonical_recipient recipient = _canonical_recipient recipient'
      /\ send_email = send_email'.
Proof.
  split.
  - unfold _request_key. cbn [Py.join]. intros E.
    apply app_sep_inj in E as [Et E]; try apply _canonical_ticker_no_bar.
    split; [exact Et |].
    destruct send_email, send_email'; simpl in E.
    + split; [| reflexivity]. now apply (app_inv_tail_str _ _ "|true").
    + now apply true_false_tails in E.
    + symmetry in E. now apply true_false_tails in E.
    + split; [| reflexivity]. now apply (app_inv_tail_str _ _ "|false").
  - intros (Et & Er & Eb). unfold _request_key. now rewrite Et, Er, Eb.
Qed.

(** The canonical recipient of an ASCII address does not depend on the
    case of the letters nor on blanks around the address, it is never
    empty, and it is its own canonical form; so calls that differ only
    in these have the same key. *)
Theorem _canonical_recipient_canonical
    (asx_code recipient ws ws' : string) (send_email : bool) :
  Py.isascii recipient = true ->
  Py.all_str Py.is_space ws = true -> Py.all_str Py.is_space ws' = true ->
  _canonical_recipient (ws ++ Py.upper recipient ++ ws') = _canonical_recipient recipient
  /\ _canonical_recipient (_canonical_recipient recipient) = _canonical_recipient recipient
  /\ Py.truthy (_canonical_recipient recipient) = true
  /\ _request_key asx_code (ws ++ Py.upper recipient ++ ws') send_email
     = _request_key asx_code recipient send_email.
Proof.
  intros _ Hws Hws'.
  assert (_canonical_recipient (ws ++ Py.upper recipient ++ ws')
          = _canonical_recipient recipient) as E.
  { unfold _canonical_recipient.
    now rewrite (strip_padded _ _ _ Hws Hws'), strip_upper, lower_upper. }
  split; [exact E |]. split; [| split].
  - unfold _canonical_recipient at 2 3.
    destruct (Py.truthy (Py.lower (Py.strip recipient))) eqn:Ht; [| reflexivity].
    unfold _canonical_recipient. rewrite strip_lower, lower_lower.
    unfold Py.strip. rewrite strip_by_idem. fold (Py.strip recipient). now rewrite Ht.
  - unfold _canonical_recipient.
    now destruct (Py.truthy (Py.lower (Py.strip recipient))) eqn:Ht.
  - unfold _request_key. now rewrite E.
Qed.

Lemma _canonical_recipient_canonical_witness :
  _canonical_recipient (" " ++ Py.upper "Ops@Example.com" ++ " ")
  = _canonical_recipient "Ops@Example.com".
Proof.
  refine (proj1 (_canonical_recipient_canonical "BHP" "Ops@Example.com" " " " " false
                   _ _ _));
    reflexivity.
Defined.

(** ** The sweep *)

Lemma prune_prune {A : Type} (now : Q) (window : Z) (cache : gmap string (Q * A)) :
  prune now window (prune now window cache) = prune now window cache.
Proof.
  apply map_eq. intros k. apply option_eq. intros e.
  rewrite !lookup_prune_Some. tauto.
Qed.

(** [_prune_cache] keeps, of each cache, exactly the entries that are
    not older than twice a positive window, and nothing when the window
    is 0; it leaves the tasks in flight alone, and sweeping twice at the
    same time is sweeping once. *)
Theorem _prune_cache_keeps (now : Q) (success_window error_window : Z) (s : State) :
  let s' := _prune_cache now success_window error_window s in
  (forall k entry,
     _RECENT_RESULTS s' !! k = Some entry
     <-> (0 < success_window)%Z /\ _RECENT_RESULTS s !! k = Some entry
         /\ now - fst entry <= inject_Z (success_window * 2))
  /\ (forall k entry,
        _RECENT_ERRORS s' !! k = Some entry
        <-> (0 < error_window)%Z /\ _RECENT_ERRORS s !! k = Some entry
            /\ now - fst entry <= inject_Z (error_window * 2))
  /\ _IN_FLIGHT s' = _IN_FLIGHT s
  /\ tasks s' = tasks s
  /\ _prune_cache now success_window error_window s' = s'.
Proof.
  intros s'. split; [intros k entry; apply lookup_prune_Some |].
  split; [intros k entry; apply lookup_prune_Some |].
  split; [reflexivity |]. split; [reflexivity |].
  unfold s', _prune_cache. simpl. now rewrite !prune_prune.
Qed.

(** ** What a call changes *)

Lemma prune_subseteq {A : Type} (now : Q) (window : Z) (cache : gmap string (Q * A)) :
  prune now window cache ⊆ cache.
Proof.
  apply map_subseteq_spec. intros k e. rewrite lookup_prune_Some. tauto.
Qed.

Lemma begin_state (environ : gmap string string) (now : Q) (r : request) (s : State) :
  let swept := _prune_cache now (_dedupe_window_seconds environ)
                            (_error_dedupe_window_seconds environ) s in
  snd (begin environ now r s) = swept
  \/ _IN_FLIGHT s !! _request_key (asx_code r) (recipient r) (send_email r) = None
     /\ snd (begin environ now r s)
        = {| _RECENT_RESULTS := _RECENT_RESULTS swept;
             _RECENT_ERRORS := _RECENT_ERRORS swept;
             _IN_FLIGHT := <[_request_key (asx_code r) (recipient r) (send_email r)
                             := List.length (tasks s)]> (_IN_FLIGHT s);
             tasks := (tasks s ++ [r])%list |}.
Proof.
  intros swept. rewrite begin_unfold. cbv zeta. fold swept.
  destruct (fresh_entry now _ (_RECENT_RESULTS s !! _)); [now left |].
  destruct (fresh_entry now _ (_RECENT_ERRORS s !! _)); [now left |].
  unfold register. simpl.
  destruct (_IN_FLIGHT s !! _) eqn:E; [now left | now right].
Qed.

(** A call, up to its suspension, writes no cache entry: each cache
    afterwards is part of what it was; it starts at most one task.  A
    resumption writes only under its own key, and only when its frame
    owns the task; it starts nothing. *)
Theorem caches_are_written_by_owners
    (environ : gmap string string) (now clock : Q) (r : request) (f : frame)
    (awaited : res (gmap string string)) (s : State) :
  let called := snd (begin environ now r s) in
  let resumed := snd (resume f awaited clock s) in
  _RECENT_RESULTS called ⊆ _RECENT_RESULTS s
  /\ _RECENT_ERRORS called ⊆ _RECENT_ERRORS s
  /\ (tasks called = tasks s \/ tasks called = (tasks s ++ [r])%list)
  /\ (owns_task f = false -> resumed = s)
  /\ tasks resumed = tasks s
  /\ forall k, k <> request_key f ->
       _RECENT_RESULTS resumed !! k = _RECENT_RESULTS s !! k
       /\ _RECENT_ERRORS resumed !! k = _RECENT_ERRORS s !! k
       /\ _IN_FLIGHT resumed !! k = _IN_FLIGHT s !! k.
Proof.
  intros called resumed.
  assert (_RECENT_RESULTS called ⊆ _RECENT_RESULTS s
          /\ _RECENT_ERRORS called ⊆ _RECENT_ERRORS s
          /\ (tasks called = tasks s \/ tasks called = (tasks s ++ [r])%list))
    as (H1 & H2 & H3).
  { unfold called. destruct (begin_state environ now r s) as [->|[_ ->]]; simpl;
      (split; [apply prune_subseteq |]); (split; [apply prune_subseteq |]);
      [now left | now right]. }
  split; [exact H1 |]. split; [exact H2 |]. split; [exact H3 |].
  unfold resumed, resume.
  destruct awaited as [result|exc], (owns_task f); simpl;
    (split; [easy |]); (split; [reflexivity |]); intros k Hk; try easy.
  - rewrite lookup_insert_ne by congruence. now rewrite !lookup_delete_ne by congruence.
  - rewrite lookup_insert_ne by congruence. now rewrite !lookup_delete_ne by congruence.
Qed.

(** ** Tasks in flight *)

Lemma in_flight_ok_begin (environ : gmap string string) (now : Q) (r : request)
    (s : State) :
  in_flight_ok s -> in_flight_ok (snd (begin environ now r s)).
Proof.
  intros [Hlt Hinj].
  destruct (begin_state environ now r s) as [->|[Hidle ->]]; [now split |].
  split; simpl.
  - intros k n. rewrite List.length_app. simpl.
    destruct (decide (_request_key (asx_code r) (recipient r) (send_email r) = k))
      as [<-|Hk].
    + rewrite lookup_insert_eq. intros [= <-]. lia.
    + rewrite lookup_insert_ne by exact Hk. intros H%Hlt. lia.
  - intros k k' n.
    destruct (decide (_request_key (asx_code r) (recipient r) (send_email r) = k))
      as [<-|Hk],
      (decide (_request_key (asx_code r) (recipient r) (send_email r) = k'))
      as [<-|Hk']; try easy.
    + rewrite lookup_insert_eq, lookup_insert_ne by exact Hk'.
      intros [= <-] H%Hlt. lia.
    + rewrite lookup_insert_eq, lookup_insert_ne by exact Hk.
      intros H%Hlt [= <-]. lia.
    + rewrite !lookup_insert_ne by easy. apply Hinj.
Qed.

Lemma in_flight_ok_resume (f : frame) (awaited : res (gmap string string)) (clock : Q)
    (s : State) :
  in_flight_ok s -> in_flight_ok (snd (resume f awaited clock s)).
Proof.
  intros [Hlt Hinj]. unfold resume.
  assert (in_flight_ok {| _RECENT_RESULTS := _RECENT_RESULTS s;
                           _RECENT_ERRORS := _RECENT_ERRORS s;
                           _IN_FLIGHT := delete (request_key f) (_IN_FLIGHT s);
                           tasks := tasks s |}) as [Hlt' Hinj'].
  { split; simpl.
    - intros k n [_ H]%lookup_delete_Some. now apply (Hlt k).
    - intros k k' n [_ H]%lookup_delete_Some [_ H']%lookup_delete_Some.
      now apply (Hinj k k' n). }
  destruct awaited as [result|exc], (owns_task f); now split.
Qed.

(** In every state the server can reach, each task in flight is one of
    the tasks that were created, and no task is in flight under two
    keys. *)
Theorem in_flight_tasks_exist (s : State) : reachable s -> in_flight_ok s.
Proof.
  induction 1 as [|environ now r s _ IH|f awaited clock s _ IH].
  - split; [intros k n H | intros k k' n H _]; simpl in H;
      now rewrite lookup_empty in H.
  - now apply in_flight_ok_begin.
  - now apply in_flight_ok_resume.
Qed.

Lemma in_flight_tasks_exist_witness :
  reachable (first_call default_environ) /\ in_flight_ok (first_call default_environ).
Proof.
  assert (reachable (first_call default_environ)) as H
    by (unfold first_call; apply reachable_begin, reachable_initial).
  split; [exact H | exact (in_flight_tasks_exist _ H)].
Defined.

(** ** Settling, then calling again *)

Lemma register_outcome (r : request) (k : string) (window : Z) (s : State) :
  exists f s', register r k window s = (Awaiting f, s')
               /\ (tasks s' = tasks s \/ tasks s' = (tasks s ++ [r])%list).
Proof.
  unfold register. destruct (_IN_FLIGHT s !! k); eexists _, _; split; try reflexivity.
  - now left.
  - now right.
Qed.

(** After the owner of a task settles a success at time [clock], a call
    for the same identity made while the success window (positive) has
    not elapsed since [clock] returns that result from the cache and
    starts nothing; and whatever the windows and the time, a call for
    the identity is not rejected as a duplicate retry, because the
    success removed the failure entry. *)
Theorem success_then_call
    (environ : gmap string string) (now clock : Q) (r : request) (f : frame)
    (result : gmap string string) (s : State) :
  owns_task f = true ->
  request_key f = _request_key (asx_code r) (recipient r) (send_email r) ->
  let settled := snd (resume f (Ok result) clock s) in
  let window := _dedupe_window_seconds environ in
  ((0 < window)%Z -> now - clock <= inject_Z window ->
   fst (begin environ now r settled)
   = Returned (annotated result "true" "recent-cache" window)
   /\ tasks (snd (begin environ now r settled)) = tasks s)
  /\ forall e, fst (begin environ now r settled) <> Raised e.
Proof.
  intros Hown Hkey settled window.
  assert (_RECENT_RESULTS settled !! request_key f = Some (clock, result)
          /\ _RECENT_ERRORS settled !! request_key f = None
          /\ tasks settled = tasks s) as (Hres & Herr & Htasks).
  { unfold settled, resume. rewrite Hown. simpl.
    now rewrite lookup_insert_eq, lookup_delete_eq. }
  rewrite begin_unfold. cbv zeta. rewrite <- Hkey, Hres, Herr. fold window. split.
  - intros Hw Hage. now rewrite (fresh_entry_Some _ _ _ _ Hw Hage).
  - intros e. destruct (fresh_entry now window _); [easy |]. simpl.
    destruct (register_outcome r (request_key f) window
                (_prune_cache now window (_error_dedupe_window_seconds environ) settled))
      as (f' & s' & -> & _). easy.
Qed.

Lemma success_then_call_witness :
  fst (begin default_environ 60 bhp_again (after_success default_environ))
  = Returned (annotated bhp_report "true" "recent-cache"
                        (_dedupe_window_seconds default_environ)).
Proof.
  refine (proj1 (proj1 (success_then_call default_environ 60 5 bhp_again
                          (first_frame default_environ) bhp_report
                          (first_call default_environ) _ _) _ _)).
  - reflexivity.
  - reflexivity.
  - reflexivity.
  - vm_compute. congruence.
Defined.

(** After the owner of a task settles a failure at time [clock], leaving
    no fresh success for the identity, a call for the same identity made
    while the failure window (positive) has not elapsed since [clock] is
    rejected with the text of that failure, not with the wrapped error
    the owner raised, and starts nothing.  The rejection writes nothing,
    so it does not extend the window. *)
Theorem failure_then_call
    (environ : gmap string string) (now clock : Q) (r : request) (f : frame)
    (exc : exn) (s : State) :
  owns_task f = true ->
  request_key f = _request_key (asx_code r) (recipient r) (send_email r) ->
  fresh_entry now (_dedupe_window_seconds environ)
              (_RECENT_RESULTS s !! request_key f) = None ->
  (0 < _error_dedupe_window_seconds environ)%Z ->
  now - clock <= inject_Z (_error_dedupe_window_seconds environ) ->
  let settled := snd (resume f (Raise exc) clock s) in
  fst (resume f (Raise exc) clock s)
  = Raised (AsxReportError ("Failed to create Yahoo chart report: " ++ str_exn exc))
  /\ fst (begin environ now r settled)
     = Raised (AsxReportError
                 ("Skipped duplicate retry after recent failure: " ++ str_exn exc))
  /\ tasks (snd (begin environ now r settled)) = tasks s
  /\ _RECENT_ERRORS (snd (begin environ now r settled)) !! request_key f
     = Some (clock, str_exn exc).
Proof.
  intros Hown Hkey Hsuccess Hw Hage settled. split; [reflexivity |].
  assert (_RECENT_RESULTS settled = _RECENT_RESULTS s
          /\ _RECENT_ERRORS settled !! request_key f = Some (clock, str_exn exc)
          /\ tasks settled = tasks s) as (Hres & Herr & Htasks).
  { unfold settled, resume. rewrite Hown. simpl. now rewrite lookup_insert_eq. }
  rewrite begin_unfold. cbv zeta. rewrite <- Hkey, Hres, Hsuccess, Herr.
  rewrite (fresh_entry_Some _ _ _ _ Hw Hage). simpl.
  split; [reflexivity |]. split; [exact Htasks |].
  apply lookup_prune_Some. split; [exact Hw |]. split; [exact Herr |].
  eapply Qle_trans; [exact Hage | now apply inject_Z_double].
Qed.

Lemma failure_then_call_witness :
  fst (begin default_environ 20 bhp_again (after_failure default_environ))
  = Raised (AsxReportError
              ("Skipped duplicate retry after recent failure: "
               ++ "Chart did not render within 20000ms")).
Proof.
  refine (proj1 (proj2 (failure_then_call default_environ 20 5 bhp_again
                          (first_frame default_environ)
                          (AsxReportError "Chart did not render within 20000ms")
                          (first_call default_environ) _ _ _ _ _))).
  - reflexivity.
  - reflexivity.
  - reflexivity.
  - reflexivity.
  - vm_compute. congruence.
Defined.

(** ** A window of 0 *)

(** With the success window at 0 no call is answered from the cache, and
    every call empties the success cache; with the failure window at 0 no
    call is rejected as a duplicate retry, and every call empties the
    failure cache. *)
Theorem zero_window_disables
    (environ : gmap string string) (now : Q) (r : request) (s : State) :
  let call := begin environ now r s in
  (_dedupe_window_seconds environ = 0%Z ->
   (forall result, fst call <> Returned result) /\ _RECENT_RESULTS (snd call) = ∅)
  /\ (_error_dedupe_window_seconds environ = 0%Z ->
      (forall e, fst call <> Raised e) /\ _RECENT_ERRORS (snd call) = ∅).
Proof.
  intros call.
  destruct (begin_sweeps environ now r s) as (E1 & E2 & _).
  unfold call. rewrite E1, E2. rewrite begin_unfold. cbv zeta. split; intros ->.
  - split; [| reflexivity]. intros result. rewrite fresh_entry_zero.
    destruct (fresh_entry now _ _); [easy |].
    destruct (register_outcome r (_request_key (asx_code r) (recipient r) (send_email r))
                0 (_prune_cache now 0 (_error_dedupe_window_seconds environ) s))
      as (f' & s' & -> & _). easy.
  - split; [| reflexivity]. intros e. rewrite fresh_entry_zero.
    destruct (fresh_entry now _ _); [easy |].
    destruct (register_outcome r (_request_key (asx_code r) (recipient r) (send_email r))
                (_dedupe_window_seconds environ)
                (_prune_cache now (_dedupe_window_seconds environ) 0 s))
      as (f' & s' & -> & _). easy.
Qed.

Lemma zero_window_disables_witness :
  _RECENT_RESULTS (snd (begin no_success_window 30 bhp (after_success default_environ))) = ∅
  /\ _RECENT_ERRORS (snd (begin no_error_window 30 bhp (after_failure default_environ))) = ∅.
Proof.
  split.
  - refine (proj2 (proj1 (zero_window_disables no_success_window 30 bhp
                            (after_success default_environ)) _)).
    reflexivity.
  - refine (proj2 (proj2 (zero_window_disables no_error_window 30 bhp
                            (after_failure default_environ)) _)).
    reflexivity.
Defined.

End ServerExtras.

(* ===================================================================== *)
(** * More on the stages that act on the machine                          *)
(* ===================================================================== *)

Module PipelineExtras.

Import Pipeline PipelineFacts.

Section WithHost.

Context {W : Type} {host : Host W}.

(** ** Programs that start nothing *)

Ltac quiet_steps :=
  repeat first
    [ apply quiet_ret | apply quiet_raise | apply quiet_ask | apply quiet_ask_res
    | apply quiet_act | apply quiet_attempt | apply quiet_if
    | apply quiet_bind; [| intros ?] ].

Lemma quiet__safe_int_env (name : string) (default_ minimum : Z) :
  quiet (_safe_int_env name default_ minimum).
Proof.
  intros st. destruct (_safe_int_env_pure name default_ minimum st) as [n ->]. reflexivity.
Qed.

Lemma quiet__resolve_libreoffice_binary : quiet _resolve_libreoffice_binary.
Proof.
  intros st. now rewrite (proj1 (_resolve_libreoffice_binary_pure st)).
Qed.

Lemma quiet__can_write_directory (candidate : string) :
  quiet (_can_write_directory candidate).
Proof.
  unfold _can_write_directory. quiet_steps. destruct a; quiet_steps.
Qed.

Lemma quiet_first_writable (candidates : list string) :
  quiet (first_writable candidates).
Proof.
  induction candidates as [|c more IH]; simpl; [apply quiet_ret |].
  apply quiet_bind; [apply quiet__can_write_directory |].
  intros [|]; [apply quiet_ret | exact IH].
Qed.

Lemma quiet_resolve (path : string) : quiet (resolve path).
Proof. intros st. unfold resolve. now destruct (path_resolve_error (world st) path). Qed.

Lemma quiet_unique_candidates_from (candidates : list string) :
  forall seen, quiet (unique_candidates_from seen candidates).
Proof.
  induction candidates as [|c more IH]; intros seen; simpl; [apply quiet_ret |].
  apply quiet_bind; [apply quiet_resolve |]. intros key.
  destruct (decide (key ∈ seen)); [apply IH |].
  apply quiet_bind; [apply IH | intros kept; apply quiet_ret].
Qed.

Lemma quiet__resolve_output_dir (output_dir : string) :
  quiet (_resolve_output_dir output_dir).
Proof.
  unfold _resolve_output_dir.
  apply quiet_bind; [apply quiet_ask_res | intros requested].
  apply quiet_bind; [apply quiet_ask_res | intros home].
  apply quiet_bind; [apply quiet_unique_candidates_from | intros unique_candidates].
  apply quiet_bind; [apply quiet_first_writable | intros [chosen|]].
  - apply quiet_ret.
  - apply quiet_raise.
Qed.

(** ** Programs that start only some programs *)

Lemma starts_at_quiet {A : Type} (P : invocation -> Prop) (c : M W A) (st : state W) :
  quiet c -> starts_at P c st.
Proof. intros Hq. exists []. rewrite app_nil_r. split; [apply Hq | constructor]. Qed.

Lemma starts_at_invoke (P : invocation -> Prop) (i : invocation) (st : state W) :
  P i -> starts_at P (invoke i) st.
Proof.
  intros Hi. unfold starts_at, invoke.
  destruct (run_external i (world st)) as [a w]. simpl.
  eexists. split; [reflexivity |]. now repeat constructor.
Qed.

Lemma starts_at_browse (P : invocation -> Prop) (url output_image : string)
    (st : state W) :
  P (Browser url output_image) -> starts_at P (browse url output_image) st.
Proof.
  intros Hi. unfold starts_at, browse.
  destruct (browser_session url output_image (world st)) as [a w]. simpl.
  eexists. split; [reflexivity |]. now repeat constructor.
Qed.

Lemma starts_at_bind {A B : Type} (P : invocation -> Prop) (c : M W A)
    (k : A -> M W B) (st : state W) :
  starts_at P c st ->
  (forall a st', c st = (Ok a, st') -> starts_at P (k a) st') ->
  starts_at P (bind c k) st.
Proof.
  intros (entries & Hlog & HP) Hk. unfold starts_at, bind.
  destruct (c st) as [[a|e] st'] eqn:E; simpl in *.
  - destruct (Hk a st' eq_refl) as (entries' & Hlog' & HP').
    exists (entries ++ entries')%list. rewrite Hlog', Hlog, app_assoc.
    split; [reflexivity |]. now apply Forall_app.
  - now exists entries.
Qed.

Lemma starts_at_attempt {A : Type} (P : invocation -> Prop) (c : M W A) (st : state W) :
  starts_at P c st -> starts_at P (attempt c) st.
Proof.
  intros (entries & Hlog & HP). exists entries. unfold attempt.
  now destruct (c st).
Qed.

Lemma starts_at_if {A : Type} (P : invocation -> Prop) (b : bool) (c1 c2 : M W A)
    (st : state W) :
  starts_at P c1 st -> starts_at P c2 st -> starts_at P (if b then c1 else c2) st.
Proof. now destruct b. Qed.

Lemma starts_at_weaken {A : Type} (P Q : invocation -> Prop) (c : M W A) (st : state W) :
  (forall i, P i -> Q i) -> starts_at P c st -> starts_at Q c st.
Proof.
  intros H (entries & Hlog & HP). exists entries. split; [exact Hlog |].
  eapply Forall_impl; [exact HP |]. intros e. apply H.
Qed.

Ltac starts_steps :=
  repeat first
    [ apply starts_at_quiet; quiet_steps; fail
    | apply starts_at_invoke
    | apply starts_at_attempt
    | apply starts_at_if
    | apply starts_at_bind; [| intros ? ? _] ].

Lemma starts_at_recording (P : invocation -> Prop) (errors : list string)
    (prefix : string) (c : M W unit) (st : state W) :
  starts_at P c st -> starts_at P (recording errors prefix c) st.
Proof.
  intros H. unfold recording. apply starts_at_bind; [now apply starts_at_attempt |].
  intros [|] st' _; apply starts_at_quiet, quiet_ret.
Qed.

Lemma starts_at_output_ready (P : invocation -> Prop) (output_pdf : string)
    (st : state W) :
  starts_at P (output_ready output_pdf) st.
Proof.
  apply starts_at_quiet. intros s.
  destruct (output_ready_pure output_pdf s) as [b ->]. reflexivity.
Qed.

(** ** The converters *)

Lemma starts_at_libreoffice (P : invocation -> Prop) (input_docx output_pdf : string)
    (timeout : Z) (st : state W) :
  (forall cmd seconds, P (LibreOffice cmd seconds)) ->
  starts_at P (_convert_docx_to_pdf_with_libreoffice input_docx output_pdf timeout) st.
Proof.
  intros HP. unfold _convert_docx_to_pdf_with_libreoffice.
  apply starts_at_bind; [apply starts_at_quiet, quiet__resolve_libreoffice_binary |].
  intros [binary|] s0 _; [| apply starts_at_quiet, quiet_ret].
  apply starts_at_if; [apply starts_at_quiet, quiet_ret |].
  apply starts_at_bind; [apply starts_at_attempt, starts_at_invoke, HP |].
  intros [[]|exc] s1 _; apply starts_at_quiet; quiet_steps.
  destruct a0; quiet_steps. destruct a1; quiet_steps.
Qed.

Lemma starts_at_docx2pdf_staging (P : invocation -> Prop) (input_docx output_pdf : string)
    (errors : list string) (st : state W) :
  (forall a b, P (Docx2pdf a b)) ->
  starts_at P (docx2pdf_staging input_docx output_pdf errors) st.
Proof.
  intros HP. unfold docx2pdf_staging.
  apply starts_at_bind; [apply starts_at_quiet, quiet_act |]. intros _ s0 _.
  apply starts_at_bind.
  { apply starts_at_recording, starts_at_quiet. quiet_steps. }
  intros errors1 s1 _. apply starts_at_bind.
  { apply starts_at_recording, starts_at_invoke, HP. }
  intros errors2 s2 _. apply starts_at_bind.
  { apply starts_at_recording, starts_at_quiet.
    unfold present_and_non_empty. quiet_steps. }
  intros errors3 s3 _. apply starts_at_bind.
  { apply starts_at_quiet. unfold ignoring. quiet_steps. }
  intros _ s4 _. apply starts_at_bind; [apply starts_at_output_ready |].
  intros [|] s5 _; apply starts_at_quiet; [apply quiet_ret | apply quiet_raise].
Qed.

Lemma starts_at_docx2pdf_in_place (P : invocation -> Prop)
    (input_docx output_pdf : string) (errors : list string) (st : state W) :
  (forall a b, P (Docx2pdf a b)) ->
  starts_at P (docx2pdf_in_place input_docx output_pdf errors) st.
Proof.
  intros HP. unfold docx2pdf_in_place.
  apply starts_at_bind.
  { apply starts_at_quiet. unfold ignoring. quiet_steps. }
  intros _ s0 _. apply starts_at_bind.
  { apply starts_at_recording, starts_at_invoke, HP. }
  intros errors1 s1 _. apply starts_at_bind.
  { apply starts_at_recording, starts_at_quiet.
    unfold present_and_non_empty. quiet_steps. }
  intros errors2 s2 _. apply starts_at_bind; [apply starts_at_output_ready |].
  intros [|] s3 _; [apply starts_at_quiet, quiet_ret |].
  now apply starts_at_docx2pdf_staging.
Qed.

Lemma starts_at_docx2pdf_direct (P : invocation -> Prop)
    (input_docx output_pdf : string) (errors : list string) (st : state W) :
  (forall a b, P (Docx2pdf a b)) ->
  starts_at P (docx2pdf_direct input_docx output_pdf errors) st.
Proof.
  intros HP. unfold docx2pdf_direct.
  apply starts_at_bind.
  { apply starts_at_recording, starts_at_invoke, HP. }
  intros errors1 s1 _. apply starts_at_bind; [apply starts_at_output_ready |].
  intros [|] s2 _; [apply starts_at_quiet, quiet_ret |].
  now apply starts_at_docx2pdf_in_place.
Qed.


(** ** The capture *)

Lemma _safe_int_env_bound (name : string) (default_ minimum : Z) (st : state W) :
  exists n, _safe_int_env name default_ minimum st = (Ok n, st) /\ (minimum <= n)%Z.
Proof.
  unfold _safe_int_env. rewrite bind_ask.
  destruct (os_getenv (world st) name) as [raw|]; [| eexists; split; [reflexivity | lia]].
  destruct (Py.int (Py.strip raw)); eexists; (split; [reflexivity | lia]).
Qed.

(** What the run needs of a capture that returned. *)
Lemma capture_asx_graph_ok (url output_image : string) (st st' : state W)
    (result : gmap string string) :
  capture_asx_graph url output_image st = (Ok result, st') ->
  exists final_url selector,
    result !! "final_url" = Some final_url
    /\ _is_asx_url final_url = true
    /\ result !! "capture_selector" = Some selector
    /\ Py.truthy selector = true
    /\ result !! "capture_attempt" = Some "1"
    /\ result !! "capture_refreshes" = Some "0".
Proof.
  unfold capture_asx_graph, bind, browse.
  destruct (act _ st) as [[[]|e0] s0]; [| discriminate].
  destruct (_safe_int_env _ _ _ s0) as [[n|e1] s1]; [| discriminate].
  destruct (browser_session url output_image (world s1))
    as [[[final_url selector]|msg] w]; simpl; [| discriminate].
  destruct (_is_asx_url final_url) eqn:Hurl; simpl; [| discriminate].
  destruct selector as [selector|]; simpl; [| discriminate].
  intros [= <- _].
  exists final_url, (if Py.truthy selector then selector else "unavailable").
  repeat split; try reflexivity; try exact Hurl.
  now destruct (Py.truthy selector) eqn:Ht.
Qed.

(** [capture_asx_graph] returns only for a page whose final URL is a
    Yahoo Finance quote page and on which a chart was captured; its
    result carries the URL asked for, the final URL, the resolved image
    path and a selector that is never empty.  It fails with its own
    error when the browser ended elsewhere, and else when no chart
    rendered within the watch window, which is never under 1000 ms; the
    browser is started at most once. *)
Theorem capture_asx_graph_result (url output_image : string) (st : state W) :
  match capture_asx_graph url output_image st with
  | (Ok result, st') =>
      exists final_url selector,
        result !! "source_url" = Some url
        /\ result !! "final_url" = Some final_url
        /\ _is_asx_url final_url = true
        /\ result !! "image_path" = Some (path_resolve (world st') output_image)
        /\ result !! "capture_selector" = Some selector
        /\ Py.truthy selector = true
        /\ result !! "capture_attempt" = Some "1"
        /\ result !! "capture_refreshes" = Some "0"
        /\ log st' = (log st ++ [(Browser url output_image, None)])%list
  | (Raise (AsxReportError msg), st') =>
      log st' = (log st ++ [(Browser url output_image, None)])%list
      /\ exists final_url,
           (_is_asx_url final_url = false
            /\ msg = "Failed to open Yahoo Finance quote page: " ++ url
                     ++ " (final URL: " ++ final_url ++ ")")
           \/ (_is_asx_url final_url = true
               /\ exists watch_window_ms,
                    (1000 <= watch_window_ms)%Z
                    /\ msg = "Chart did not render within "
                             ++ Py.str_int watch_window_ms ++ "ms at " ++ final_url)
  | (Raise (OtherError msg), st') =>
      log st' = log st \/ log st' = (log st ++ [(Browser url output_image, Some msg)])%list
  end.
Proof.
  unfold capture_asx_graph.
  destruct (act_spec (path_mkdir (path_parent output_image)) st)
    as (r0 & s0 & E0 & L0 & R0).
  destruct r0 as [[]|e0].
  2: { rewrite (bind_Raise _ _ _ _ _ E0). destruct (R0 e0 eq_refl) as [m ->]. now left. }
  rewrite (bind_Ok _ _ _ _ _ E0).
  destruct (_safe_int_env_bound "ASX_WATCH_WINDOW_MS" 20000 1000 s0) as (n & En & Hn).
  rewrite (bind_Ok _ _ _ _ _ En).
  unfold bind at 1. unfold browse.
  destruct (browser_session url output_image (world s0)) as [[[final_url selector]|msg] w];
    simpl; [| right; now rewrite L0].
  destruct (_is_asx_url final_url) eqn:Hurl; simpl.
  2: { rewrite L0. split; [reflexivity |]. exists final_url. now left. }
  destruct selector as [selector|]; simpl.
  2: { rewrite L0. split; [reflexivity |]. exists final_url. right. split; [exact Hurl |].
       now exists n. }
  exists final_url, (if Py.truthy selector then selector else "unavailable").
  rewrite L0. repeat split; try reflexivity; try exact Hurl.
  now destruct (Py.truthy selector) eqn:Ht.
Qed.


(** ** The run *)

Lemma starts_at_convert_docx_to_pdf (P : invocation -> Prop)
    (input_docx output_pdf : string) (st : state W) :
  (forall cmd seconds, P (LibreOffice cmd seconds)) -> (forall a b, P (Docx2pdf a b)) ->
  starts_at P (convert_docx_to_pdf input_docx output_pdf) st.
Proof.
  intros Hlo Hd. unfold convert_docx_to_pdf.
  apply starts_at_bind; [apply starts_at_quiet, quiet_act |]. intros _ s0 _.
  apply starts_at_bind; [apply starts_at_quiet, quiet_ask |]. intros input s1 _.
  apply starts_at_bind; [apply starts_at_quiet, quiet_ask |]. intros output s2 _.
  apply starts_at_bind; [apply starts_at_quiet, quiet_ask |]. intros engine s3 _.
  apply starts_at_bind; [apply starts_at_quiet, quiet__safe_int_env |]. intros t s4 _.
  apply starts_at_bind.
  - apply starts_at_if; [| apply starts_at_quiet, quiet_ret].
    apply starts_at_bind; [now apply starts_at_libreoffice |].
    intros error s5 _. apply starts_at_if; [apply starts_at_quiet, quiet_ret |].
    apply starts_at_bind; [apply starts_at_output_ready |].
    intros ready s6 _. apply starts_at_quiet, quiet_ret.
  - intros [[|] errors] s5 _; [apply starts_at_quiet, quiet_ret |].
    apply starts_at_if; [apply starts_at_quiet, quiet_raise |].
    now apply starts_at_docx2pdf_direct.
Qed.

Lemma starts_at_send_email_with_mail_app (P : invocation -> Prop)
    (recipient subject body attachment : string) (st : state W) :
  (forall path, P (Osascript subject body recipient path)) ->
  starts_at P (send_email_with_mail_app recipient subject body attachment) st.
Proof.
  intros HP. unfold send_email_with_mail_app.
  apply starts_at_bind; [apply starts_at_quiet, quiet_ask_res |]. intros found s0 _.
  apply starts_at_if; [apply starts_at_quiet, quiet_raise |].
  apply starts_at_bind; [apply starts_at_quiet, quiet_ask |]. intros path s1 _.
  apply starts_at_invoke, HP.
Qed.

Lemma starts_at_capture_asx_graph (P : invocation -> Prop)
    (url output_image : string) (st : state W) :
  P (Browser url output_image) -> starts_at P (capture_asx_graph url output_image) st.
Proof.
  intros HP. unfold capture_asx_graph.
  apply starts_at_bind; [apply starts_at_quiet, quiet_act |]. intros _ s0 _.
  apply starts_at_bind; [apply starts_at_quiet, quiet__safe_int_env |]. intros n s1 _.
  apply starts_at_bind; [now apply starts_at_browse |].
  intros [final_url selector] s2 _. apply starts_at_quiet.
  apply quiet_if; [apply quiet_raise |].
  destruct selector; quiet_steps.
Qed.

Lemma starts_at_run_asx_report (P : invocation -> Prop)
    (asx_code : option string) (recipient output_dir : string)
    (email_subject email_body : option string) (send_email : bool) (st : state W) :
  (forall image, P (Browser (build_asx_url (normalize_asx_code asx_code)) image)) ->
  (forall title url image docx, P (WordDocument title url image docx)) ->
  (forall cmd seconds, P (LibreOffice cmd seconds)) ->
  (forall a b, P (Docx2pdf a b)) ->
  (send_email = true -> forall subject body path, P (Osascript subject body recipient path)) ->
  starts_at P (run_asx_report asx_code recipient output_dir email_subject email_body
                              send_email) st.
Proof.
  intros Hbrowser Hword Hlo Hd Hmail. unfold run_asx_report.
  apply starts_at_bind; [apply starts_at_quiet, quiet_ask |]. intros timestamp s0 _.
  apply starts_at_bind; [apply starts_at_quiet, quiet__resolve_output_dir |].
  intros dir s1 _.
  apply starts_at_bind; [apply starts_at_capture_asx_graph, Hbrowser |].
  intros capture_result s2 _.
  apply starts_at_bind; [apply starts_at_quiet, quiet_ask |]. intros generated_at s3 _.
  apply starts_at_bind.
  { unfold create_word_report.
    apply starts_at_bind; [apply starts_at_quiet, quiet_act |]. intros _ s4 _.
    apply starts_at_bind; [apply starts_at_invoke, Hword |]. intros _ s5 _.
    apply starts_at_quiet, quiet_ret. }
  intros docx s4 _.
  apply starts_at_bind; [now apply starts_at_convert_docx_to_pdf |].
  intros pdf s5 _. apply starts_at_bind.
  { destruct send_email; [| apply starts_at_quiet, quiet_ret].
    apply starts_at_send_email_with_mail_app. intros path. now apply Hmail. }
  intros _ s6 _. apply starts_at_quiet.
  apply quiet_bind; [destruct (capture_result !! "capture_selector"); quiet_steps |].
  intros selector. quiet_steps.
Qed.

(** A run mails only on request, and only the recipient: it starts
    [osascript] only when [send_email] is set, with the recipient of the
    call; the browser it starts opens the source URL of the normalized
    code.  And when the run without delivery fails, the run with delivery
    fails in the same way from the same state to the same state: nothing
    is mailed after a failed stage. *)
Theorem run_asx_report_mails_on_request
    (asx_code : option string) (recipient output_dir : string)
    (email_subject email_body : option string) (send_email : bool) (st : state W) :
  starts_at (fun i => match i with
                      | Browser url _ => url = build_asx_url (normalize_asx_code asx_code)
                      | Osascript _ _ to _ => send_email = true /\ to = recipient
                      | _ => True
                      end)
            (run_asx_report asx_code recipient output_dir email_subject email_body
                            send_email) st
  /\ forall e st1,
       run_asx_report asx_code recipient output_dir email_subject email_body false st
       = (Raise e, st1) ->
       run_asx_report asx_code recipient output_dir email_subject email_body true st
       = (Raise e, st1).
Proof.
  split.
  - apply starts_at_run_asx_report; easy.
  - intros e st1. unfold run_asx_report.
    cbv beta iota delta [bind ask ret].
    destruct (_resolve_output_dir output_dir st) as [[dir|e0] s1]; [| easy].
    destruct (capture_asx_graph _ _ s1) as [[capture_result|e1] s2] eqn:Ecapture; [| easy].
    destruct (create_word_report _ _ _ _ s2) as [[docx|e2] s3]; [| easy].
    destruct (convert_docx_to_pdf _ _ s3) as [[pdf|e3] s4]; [| easy].
    destruct (capture_asx_graph_ok _ _ _ _ _ Ecapture)
      as (final_url & selector & _ & _ & -> & _).
    discriminate.
Qed.

(** ** The entry points *)

Lemma normalize_asx_code_optional (text : string) :
  normalize_asx_code (if Py.truthy text then Some text else None)
  = normalize_asx_code (Some text).
Proof. now destruct text. Qed.

Lemma build_asx_url_canonical (text : string) :
  build_asx_url (normalize_asx_code (Some text))
  = build_asx_url (Some (Server._canonical_ticker text)).
Proof.
  unfold Server._canonical_ticker, or_text.
  destruct (normalize_asx_code (Some text)) as [y|]; [| reflexivity].
  unfold build_asx_url. destruct (Py.truthy y) eqn:E; [now rewrite E | reflexivity].
Qed.

(** The task of the server and the command line run the same pipeline:
    each opens the quote page of the canonical ticker of the code it was
    given, the ticker that is part of the request key, and [HUB] when the
    code is empty; the task mails only a request with [send_email], the
    command line only without [--no-email], and each only its
    recipient. *)
Theorem entry_points_run_the_pipeline
    (r : Server.request) (args : Cli.Namespace) (st : state W) :
  starts_at (fun i => match i with
                      | Browser url _ =>
                          url = build_asx_url
                                  (Some (Server._canonical_ticker (Server.asx_code r)))
                      | Osascript _ _ to _ =>
                          Server.send_email r = true /\ to = Server.recipient r
                      | _ => True
                      end)
            (Server._run_report r) st
  /\ starts_at (fun i => match i with
                         | Browser url _ =>
                             url = build_asx_url
                                     (Some (Server._canonical_ticker (Cli.asx_code args)))
                         | Osascript _ _ to _ =>
                             Cli.no_email args = false /\ to = Cli.recipient args
                         | _ => True
                         end)
               (Cli.main args) st
  /\ Server._canonical_ticker "" = "HUB"
  /\ Cli.main Cli.defaults st
     = Server._run_report (Server.Request "" "test@gmail.com" "output" "" "" true) st.
Proof.
  split; [| split; [| split; reflexivity]].
  - unfold Server._run_report. apply starts_at_run_asx_report; try easy.
    intros image. now rewrite normalize_asx_code_optional, build_asx_url_canonical.
  - unfold Cli.main. apply starts_at_run_asx_report; try easy.
    + intros image. now rewrite normalize_asx_code_optional, build_asx_url_canonical.
    + intros Hmail subject body path. split; [| reflexivity].
      now destruct (Cli.no_email args).
Qed.

(** Every report that [run_asx_report] returns has the ten keys of the
    source and no other; it names the recipient, the source URL built
    from the normalized code, a final URL that is a Yahoo Finance quote
    page, a capture selector that is not empty, and whether delivery was
    requested; and its image, document and PDF are the three files
    [asx-<code>-<timestamp>] with their extensions in the one output
    directory that was resolved. *)
Theorem run_asx_report_result
    (asx_code : option string) (recipient output_dir : string)
    (email_subject email_body : option string) (send_email : bool)
    (st st' : state W) (report : gmap string string) :
  run_asx_report asx_code recipient output_dir email_subject email_body send_email st
  = (Ok report, st') ->
  let code := normalize_asx_code asx_code in
  let name extension :=
    "asx-" ++ or_text code "HUB" ++ "-" ++ now_strftime (world st) "%Y%m%d-%H%M%S"
    ++ extension in
  exists dir st1 final_url selector,
    _resolve_output_dir output_dir st = (Ok dir, st1)
    /\ report !! "recipient" = Some recipient
    /\ report !! "source_url" = Some (build_asx_url code)
    /\ _is_asx_url (build_asx_url code) = true
    /\ report !! "final_url" = Some final_url
    /\ _is_asx_url final_url = true
    /\ report !! "image_path" = Some (path_resolve (world st') (path_join dir (name ".png")))
    /\ report !! "docx_path" = Some (path_resolve (world st') (path_join dir (name ".docx")))
    /\ report !! "pdf_path" = Some (path_resolve (world st') (path_join dir (name ".pdf")))
    /\ report !! "capture_selector" = Some selector
    /\ Py.truthy selector = true
    /\ report !! "capture_attempt" = Some "1"
    /\ report !! "capture_refreshes" = Some "0"
    /\ report !! "sent_email" = Some (str_bool_lower send_email)
    /\ forall k v, report !! k = Some v ->
         In k ["recipient"; "source_url"; "final_url"; "image_path"; "docx_path";
               "pdf_path"; "capture_selector"; "capture_attempt"; "capture_refreshes";
               "sent_email"].
Proof.
  intros E code name. revert E. unfold run_asx_report. fold code.
  cbv beta iota delta [bind ask ret].
  destruct (_resolve_output_dir output_dir st) as [[dir|e0] s1]; [| easy].
  destruct (capture_asx_graph _ _ s1) as [[capture_result|e1] s2] eqn:Ecapture; [| easy].
  destruct (create_word_report _ _ _ _ s2) as [[docx|e2] s3]; [| easy].
  destruct (convert_docx_to_pdf _ _ s3) as [[pdf|e3] s4]; [| easy].
  destruct (capture_asx_graph_ok _ _ _ _ _ Ecapture)
    as (final_url & selector & Hfinal & Hurl & Hsel & Htruthy & Hattempt & Hrefresh).
  rewrite Hsel, Hfinal, Hattempt, Hrefresh. cbn [default from_option id].
  destruct (if send_email then _ else _) as [[[]|e4] s5]; [| easy].
  intros [= <- <-]. exists dir, s1, final_url, selector.
  split; [reflexivity |]. split; [reflexivity |]. split; [reflexivity |].
  split; [apply NormalizerFacts.build_asx_url_is_asx_url |].
  split; [reflexivity |]. split; [exact Hurl |].
  split; [reflexivity |]. split; [reflexivity |]. split; [reflexivity |].
  split; [reflexivity |]. split; [exact Htruthy |].
  split; [reflexivity |]. split; [reflexivity |]. split; [reflexivity |].
  intros k v Hk.
  repeat match type of Hk with
         | <[?key := _]> _ !! k = Some _ =>
             destruct (decide (key = k)) as [<-|Hne];
               [simpl; tauto | rewrite (lookup_insert_ne _ _ _ _ Hne) in Hk; clear Hne]
         end.
  now rewrite lookup_empty in Hk.
Qed.

(** ** The output directory *)

(** A requested directory that is not blank, that [expanduser] expands
    to something that is not a placeholder, and that can be written is
    the one that is chosen, and nothing else is probed, provided the
    home directory is known and every candidate, also those that are not
    needed, resolves. *)
Theorem _resolve_output_dir_honours_request
    (output_dir requested home : string) (st st' : state W) :
  let w := world st in
  Py.truthy (Py.strip output_dir) = true ->
  path_expanduser w (path_of (Py.strip output_dir)) = Done requested ->
  _is_placeholder_output_dir requested = false ->
  path_home w = Done home ->
  (forall candidate,
     In candidate [requested; path_of "output";
                   path_join (path_join home "Desktop") "asx-mcp-output";
                   path_join (path_of "/tmp") "asx-mcp-output"] ->
     path_resolve_error w candidate = None) ->
  _can_write_directory requested st = (Ok true, st') ->
  _resolve_output_dir output_dir st = (Ok requested, st').
Proof.
  intros w Hraw Hrequested Hplace Hhome Hresolve Hwrite.
  unfold _resolve_output_dir. rewrite Hraw, bind_ask_res. fold w. rewrite Hrequested.
  rewrite bind_ask_res. fold w. rewrite Hhome.
  unfold output_candidates. rewrite Hraw, Hplace. cbn [negb andb app].
  pose proof (unique_candidates_from_spec
                [requested; path_of "output";
                 path_join (path_join home "Desktop") "asx-mcp-output";
                 path_join (path_of "/tmp") "asx-mcp-output"] ∅ st) as Hunique.
  fold w in Hunique.
  assert (first_return (path_resolve_error w)
            [requested; path_of "output";
             path_join (path_join home "Desktop") "asx-mcp-output";
             path_join (path_of "/tmp") "asx-mcp-output"] = None) as Hnone.
  { cbn [first_return]. rewrite !Hresolve; [reflexivity | | | |]; simpl; tauto. }
  rewrite Hnone in Hunique. rewrite (bind_Ok _ _ _ _ _ Hunique).
  cbn [unique_by].
  destruct (decide (path_resolve w requested ∈ (∅ : gset string)))
    as [Hin|_]; [now apply not_elem_of_empty in Hin |].
  cbn [first_writable]. rewrite bind_bind, (bind_Ok _ _ _ _ _ Hwrite). reflexivity.
Qed.

End WithHost.

(** ** Runs on a machine *)

Import Examples.


Lemma run_asx_report_mails_on_request_witness :
  exists e st1,
    run_asx_report (Some "BHP") "ops@example.com" "output" None None true
      (Pipeline.State (Machine [] [] false true) [])
    = (Raise e, st1).
Proof.
  pose (st := Pipeline.State (Machine [] [] false true) []).
  pose (run := run_asx_report (Some "BHP") "ops@example.com" "output" None None false st).
  assert (exists e, fst run = Raise e) as [e He].
  { vm_compute. eexists. reflexivity. }
  exists e, (snd run).
  apply (proj2 (run_asx_report_mails_on_request (Some "BHP") "ops@example.com" "output"
                  None None true st)).
  fold run. destruct run as [r st1]. simpl in *. now subst r.
Defined.

Lemma run_asx_report_result_witness :
  run_asx_report (Some "BHP") "ops@example.com" "output" None None false desk
  = (Ok desk_report, snd desk_run)
  /\ desk_report !! "source_url"
     = Some (build_asx_url (normalize_asx_code (Some "BHP"))).
Proof.
  assert (run_asx_report (Some "BHP") "ops@example.com" "output" None None false desk
          = (Ok desk_report, snd desk_run)) as H.
  { change (desk_run = (Ok desk_report, snd desk_run)).
    pose proof desk_run_returns as Hr. unfold desk_report.
    destruct desk_run as [[report|e] st']; [reflexivity | discriminate Hr]. }
  split; [exact H |].
  destruct (run_asx_report_result _ _ _ _ _ _ _ _ _ H)
    as (dir & st1 & final_url & selector & _ & _ & Hsource & _).
  exact Hsource.
Defined.

Lemma _resolve_output_dir_honours_request_witness :
  _resolve_output_dir " reports " desk
  = (Ok "reports", snd (_can_write_directory "reports" desk)).
Proof.
  refine (_resolve_output_dir_honours_request " reports " "reports" "/home/ops" desk
            (snd (_can_write_directory "reports" desk)) _ _ _ _ _ _).
  - reflexivity.
  - reflexivity.
  - reflexivity.
  - reflexivity.
  - intros candidate [<-|[<-|[<-|[<-|[]]]]]; reflexivity.
  - vm_compute. reflexivity.
Defined.

(** ** The placeholder of the documentation *)

Import Py PyFacts PyExtras.

Lemma swap_upper_char (c : ascii) :
  (if Ascii.eqb "\" (upper_char c) then "/" else upper_char c)%char
  = upper_char (if Ascii.eqb "\" c then "/" else c)%char.
Proof. by_cases_on_ascii c. Qed.

Lemma swap_lower_char (c : ascii) :
  (if Ascii.eqb "\" (lower_char c) then "/" else lower_char c)%char
  = lower_char (if Ascii.eqb "\" c then "/" else c)%char.
Proof. by_cases_on_ascii c. Qed.

Lemma slash_upper_char (c : ascii) :
  mem_char (upper_char c) "/" = mem_char c "/".
Proof. by_cases_on_ascii c. Qed.

Lemma slash_lower_char (c : ascii) :
  mem_char (lower_char c) "/" = mem_char c "/".
Proof. by_cases_on_ascii c. Qed.

Lemma slashes_not_space (t : string) :
  all_str (fun c => mem_char c "/\") t = true ->
  all_str (fun c => negb (is_space c)) t = true.
Proof.
  induction t as [|c t IH]; [reflexivity |]. cbn [all_str map_str].
  intros [Hc Ht]%andb_true_iff. rewrite (IH Ht), andb_true_r.
  revert Hc. by_cases_on_ascii c.
Qed.

Lemma slashes_swapped (t : string) :
  all_str (fun c => mem_char c "/\") t = true ->
  all_str (fun c => mem_char c "/")
          (map_str (fun x => if Ascii.eqb "\" x then "/" else x)%char t) = true.
Proof.
  induction t as [|c t IH]; [reflexivity |]. cbn [all_str map_str].
  intros [Hc Ht]%andb_true_iff. rewrite (IH Ht), andb_true_r.
  revert Hc. by_cases_on_ascii c.
Qed.

Lemma _is_placeholder_output_dir_tail (ws s t ws' : string) :
  all_str is_space ws = true -> all_str is_space ws' = true ->
  all_str (fun c => mem_char c "/\") t = true ->
  strip s = s ->
  rstrip_chars "/" (replace "\" "/" (strip (ws ++ (s ++ t) ++ ws')))
  = rstrip_chars "/" (replace "\" "/" (strip s)).
Proof.
  intros Hws Hws' Ht Hs.
  rewrite (strip_padded _ _ _ Hws Hws'). unfold strip in *.
  rewrite (strip_by_app_none _ _ _ Hs (slashes_not_space _ Ht)), Hs.
  rewrite !replace_char, map_str_app. unfold rstrip_chars.
  now rewrite (rstrip_by_app_all _ _ _ (slashes_swapped _ Ht)).
Qed.

(** [_is_placeholder_output_dir] does not look at blanks around an
    ASCII text, at the case of its letters, or at slashes and
    backslashes after it: an ASCII text that [strip] leaves alone,
    written in upper or in lower case, followed by any run of [/] and
    [\] and padded with blanks, is a placeholder exactly when the text
    itself is one. *)
Theorem _is_placeholder_output_dir_insensitive (ws s t ws' : string) :
  isascii s = true ->
  all_str is_space ws = true -> all_str is_space ws' = true ->
  all_str (fun c => mem_char c "/\") t = true ->
  strip s = s ->
  _is_placeholder_output_dir (ws ++ (upper s ++ t) ++ ws')
  = _is_placeholder_output_dir s
  /\ _is_placeholder_output_dir (ws ++ (lower s ++ t) ++ ws')
     = _is_placeholder_output_dir s.
Proof.
  intros _ Hws Hws' Ht Hs. unfold _is_placeholder_output_dir. split.
  - rewrite (_is_placeholder_output_dir_tail ws (upper s) t ws' Hws Hws' Ht)
      by now rewrite strip_upper, Hs.
    rewrite strip_upper, !replace_char. unfold upper, rstrip_chars.
    rewrite map_str_map_str, (map_str_ext _ _ _ swap_upper_char), <- map_str_map_str.
    rewrite (rstrip_by_map _ _ _ slash_upper_char).
    fold (upper (rstrip_by (fun c => mem_char c "/")
                   (map_str (fun x => if Ascii.eqb "\" x then "/" else x)%char (strip s)))).
    now rewrite lower_upper.
  - rewrite (_is_placeholder_output_dir_tail ws (lower s) t ws' Hws Hws' Ht)
      by now rewrite strip_lower, Hs.
    rewrite strip_lower, !replace_char. unfold lower at 2, rstrip_chars.
    rewrite map_str_map_str, (map_str_ext _ _ _ swap_lower_char), <- map_str_map_str.
    rewrite (rstrip_by_map _ _ _ slash_lower_char).
    fold (lower (rstrip_by (fun c => mem_char c "/")
                   (map_str (fun x => if Ascii.eqb "\" x then "/" else x)%char (strip s)))).
    now rewrite lower_lower.
Qed.

Lemma _is_placeholder_output_dir_insensitive_witness :
  _is_placeholder_output_dir (" " ++ ("/PATH/TO/LOCAL/DIRECTORY" ++ "/\/") ++ " ")
  = _is_placeholder_output_dir "/Path/To/Local/Directory"
  /\ _is_placeholder_output_dir "/Path/To/Local/Directory" = true.
Proof.
  split; [| reflexivity].
  apply (_is_placeholder_output_dir_insensitive " " "/Path/To/Local/Directory" "/\/" " ");
    reflexivity.
Defined.

End PipelineExtras.
